(** * Masksembles layers (masksembles/torch.py): a shallow embedding

    The four layer classes of [masksembles/torch.py] hold a matrix of masks
    and apply one mask per contiguous group of the batch.  The embedding below
    follows the Python text operation by operation: tensors carry a dtype tag,
    a shape and their elements in row-major order, and every torch / numpy
    primitive the layers call ([unsqueeze], [split], [cat], [permute], the
    broadcasting [*], [squeeze], [float], [double], [np.zeros], [np.ones],
    [np.logical_or], indexing) is a function that either returns a value or
    raises one of Python's exceptions. *)

From Stdlib Require Import List ZArith QArith Qpower Qabs Lia Bool Arith PeanoNat.
Import ListNotations.
Local Close Scope Q_scope.
Local Open Scope nat_scope.

Set Implicit Arguments.

(** ** Exceptions *)

(** The exceptions the modelled code can raise.  torch reports every shape
    violation as a [RuntimeError]. *)
Inductive exn : Type :=
| ZeroDivisionError
| OverflowError
| IndexError
| ValueError
| RuntimeError.

Definition result (A : Type) : Type := (exn + A)%type.

Definition ret {A : Type} (a : A) : result A := inr a.
Definition raise {A : Type} (e : exn) : result A := inl e.

Definition bind {A B : Type} (m : result A) (k : A -> result B) : result B :=
  match m with
  | inl e => inl e
  | inr a => k a
  end.

Notation "x <- m ;; k" := (bind m (fun x => k))
  (at level 61, m at next level, right associativity).

(** [m] raises an exception, and the exception satisfies [P]. *)
Definition raises {A : Type} (P : exn -> Prop) (m : result A) : Prop :=
  exists e, m = inl e /\ P e.

(** The exception of a shape violation: torch's [RuntimeError], unless the
    layer has no mask at all and the division by [n] fails first. *)
Definition shape_error (nn : nat) (e : exn) : Prop :=
  if nn =? 0 then e = ZeroDivisionError else e = RuntimeError.

(** ** Element types *)

(** The torch dtypes a layer can meet (no complex numbers). *)
Inductive dtype : Type :=
| DBool | DUInt8 | DInt32 | DInt64 | DFloat16 | DFloat32 | DFloat64.

Definition dtype_rank (d : dtype) : nat :=
  match d with
  | DBool => 0 | DUInt8 => 1 | DInt32 => 2 | DInt64 => 3
  | DFloat16 => 4 | DFloat32 => 5 | DFloat64 => 6
  end.

Definition dtype_eqb (a b : dtype) : bool := dtype_rank a =? dtype_rank b.

(** [torch.promote_types]: on these dtypes the promotion lattice is a chain
    (bool < uint8 < int32 < int64 < float16 < float32 < float64). *)
Definition promote_types (a b : dtype) : dtype :=
  if dtype_rank a <=? dtype_rank b then b else a.

(** The numbers stored in tensors.  The layers only multiply, test against
    zero and convert between dtypes, so the development is parametric in the
    carrier and its arithmetic; [cast d] is the conversion of a value to dtype
    [d], rounding included. *)
Class Scalar (V : Type) : Type := {
  zero : V;
  one : V;
  mul : V -> V -> V;
  nonzero : V -> bool;
  cast : dtype -> V -> V;
  nonzero_one : nonzero one = true;
  nonzero_zero : nonzero zero = false;
  cast_one : forall d, cast d one = one;
  cast_zero : forall d, cast d zero = zero;
  nonzero_cast_double : forall v, nonzero (cast DFloat64 v) = nonzero v
}.

(** Integers are a carrier: [bool] and [uint8] conversions are the usual
    ones, the wider dtypes hold the integer as it is. *)
Definition Z_cast (d : dtype) (v : Z) : Z :=
  match d with
  | DBool => if (v =? 0)%Z then 0%Z else 1%Z
  | DUInt8 => (v mod 256)%Z
  | _ => v
  end.

#[export] Instance Z_Scalar : Scalar Z := {|
  zero := 0%Z;
  one := 1%Z;
  mul := Z.mul;
  nonzero := fun v => negb (v =? 0)%Z;
  cast := Z_cast;
  nonzero_one := eq_refl;
  nonzero_zero := eq_refl;
  cast_one := fun d =>
    match d as d0 return Z_cast d0 1%Z = 1%Z with
    | DBool | DUInt8 | DInt32 | DInt64 | DFloat16 | DFloat32 | DFloat64 => eq_refl
    end;
  cast_zero := fun d =>
    match d as d0 return Z_cast d0 0%Z = 0%Z with
    | DBool | DUInt8 | DInt32 | DInt64 | DFloat16 | DFloat32 | DFloat64 => eq_refl
    end;
  nonzero_cast_double := fun v => eq_refl
|}.

(** ** Shapes and row-major indexing *)

Definition numel (sh : list nat) : nat := fold_right Nat.mul 1 sh.

(** All multi-indices of a shape, in row-major order. *)
Fixpoint indices (sh : list nat) : list (list nat) :=
  match sh with
  | [] => [[]]
  | d :: sh' => flat_map (fun i => map (cons i) (indices sh')) (seq 0 d)
  end.

(** Position of a multi-index in the row-major storage. *)
Fixpoint offset (sh idx : list nat) : nat :=
  match sh, idx with
  | _ :: sh', i :: idx' => i * numel sh' + offset sh' idx'
  | _, _ => 0
  end.

Fixpoint in_bounds (sh idx : list nat) : Prop :=
  match sh, idx with
  | [], [] => True
  | d :: sh', i :: idx' => i < d /\ in_bounds sh' idx'
  | _, _ => False
  end.

Definition tabulate {A : Type} (sh : list nat) (f : list nat -> A) : list A :=
  map f (indices sh).

Fixpoint set_at (k v : nat) (l : list nat) {struct l} : list nat :=
  match l, k with
  | [], _ => []
  | _ :: l', 0 => v :: l'
  | x :: l', S k' => x :: set_at k' v l'
  end.

Fixpoint add_at (k v : nat) (l : list nat) {struct l} : list nat :=
  match l, k with
  | [], _ => []
  | x :: l', 0 => (x + v) :: l'
  | x :: l', S k' => x :: add_at k' v l'
  end.

Fixpoint sub_at (k v : nat) (l : list nat) {struct l} : list nat :=
  match l, k with
  | [], _ => []
  | x :: l', 0 => (x - v) :: l'
  | x :: l', S k' => x :: sub_at k' v l'
  end.

Fixpoint list_eqb (a b : list nat) : bool :=
  match a, b with
  | [], [] => true
  | x :: a', y :: b' => (x =? y) && list_eqb a' b'
  | _, _ => false
  end.

(** Two shapes agree everywhere except possibly at dimension [dim]. *)
Fixpoint same_except (dim : nat) (s1 s2 : list nat) {struct s1} : bool :=
  match s1, s2 with
  | [], [] => true
  | a :: s1', b :: s2' =>
      match dim with
      | 0 => list_eqb s1' s2'
      | S d => (a =? b) && same_except d s1' s2'
      end
  | _, _ => false
  end.

Fixpoint index_of (k : nat) (l : list nat) : nat :=
  match l with
  | [] => 0
  | x :: l' => if x =? k then 0 else S (index_of k l')
  end.

(** [perm] lists each of [0 .. r-1] exactly once. *)
Definition is_permutation (perm : list nat) (r : nat) : bool :=
  (length perm =? r) &&
  forallb (fun k => count_occ Nat.eq_dec perm k =? 1) (seq 0 r).

(** Broadcasting of two dimension sizes: equal, or one of them is 1. *)
Definition broadcast_dim (a b : nat) : option nat :=
  if a =? b then Some a
  else if a =? 1 then Some b
  else if b =? 1 then Some a
  else None.

(** Broadcasting of two shapes, aligned on the trailing dimension; the
    arguments are the reversed shapes. *)
Fixpoint broadcast_rev (s1 s2 : list nat) : option (list nat) :=
  match s1, s2 with
  | [], s => Some s
  | s, [] => Some s
  | a :: s1', b :: s2' =>
      match broadcast_dim a b, broadcast_rev s1' s2' with
      | Some d, Some r => Some (d :: r)
      | _, _ => None
      end
  end.

Definition broadcast_shapes (s1 s2 : list nat) : option (list nat) :=
  option_map (@rev nat) (broadcast_rev (rev s1) (rev s2)).

Fixpoint zip_with {A B C : Type} (f : A -> B -> C) (l1 : list A) (l2 : list B) : list C :=
  match l1, l2 with
  | a :: l1', b :: l2' => f a b :: zip_with f l1' l2'
  | _, _ => []
  end.

(** The index an operand of shape [sh] is read at, for the index [idx] of the
    broadcast result: leading dimensions the operand lacks are dropped, and
    dimensions of size 1 are read at 0. *)
Definition broadcast_index (sh idx : list nat) : list nat :=
  zip_with (fun d i => if d =? 1 then 0 else i) sh (skipn (length idx - length sh) idx).

(** ** Tensors *)

Section Tensors.

Variable V : Type.
Context {SV : Scalar V}.

(** A tensor (or numpy array): element type, shape, and the elements in
    row-major order. *)
Record tensor : Type := mkTensor {
  dtype_of : dtype;
  shape : list nat;
  data : list V
}.

Definition rank (t : tensor) : nat := length (shape t).

Definition dim_size (t : tensor) (dim : nat) : nat := nth dim (shape t) 0.

(** [t[idx]] for a full multi-index. *)
Definition get (t : tensor) (idx : list nat) : V :=
  nth (offset (shape t) idx) (data t) zero.

(** [t.shape[k]] *)
Definition shape_at (t : tensor) (k : nat) : result nat :=
  match nth_error (shape t) k with
  | Some d => ret d
  | None => raise IndexError
  end.

(** Python's [a // b] on integers. *)
Definition floordiv (a b : Z) : result Z :=
  if (b =? 0)%Z then raise ZeroDivisionError else ret (a / b)%Z.

(** [t.to(d)]: the same tensor when it already has dtype [d]. *)
Definition to_dtype (d : dtype) (t : tensor) : tensor :=
  if dtype_eqb (dtype_of t) d then t
  else mkTensor d (shape t) (map (cast d) (data t)).

(** The value [v] of a tensor of dtype [from] once the tensor is converted to
    dtype [to]. *)
Definition convert (from to : dtype) (v : V) : V :=
  if dtype_eqb from to then v else cast to v.

(** [t.float()] and [t.double()] *)
Definition float (t : tensor) : tensor := to_dtype DFloat32 t.
Definition double (t : tensor) : tensor := to_dtype DFloat64 t.

(** [t.unsqueeze(dim)]: a view with a dimension of size 1 inserted; [dim]
    ranges over [-(rank+1) .. rank], negative values counting from the end. *)
Definition unsqueeze (t : tensor) (dim : Z) : result tensor :=
  let r := Z.of_nat (rank t) in
  if ((- (r + 1) <=? dim) && (dim <=? r))%Z then
    let pos := Z.to_nat (if (dim <? 0)%Z then dim + r + 1 else dim)%Z in
    ret (mkTensor (dtype_of t)
                  (firstn pos (shape t) ++ 1 :: skipn pos (shape t))
                  (data t))
  else raise IndexError.

(** [t.squeeze(dim)]: drops dimension [dim] when its size is 1. *)
Definition squeeze (t : tensor) (dim : nat) : result tensor :=
  if dim <? Nat.max 1 (rank t) then
    match nth_error (shape t) dim with
    | Some 1 =>
        ret (mkTensor (dtype_of t)
                      (firstn dim (shape t) ++ skipn (S dim) (shape t))
                      (data t))
    | _ => ret t
    end
  else raise IndexError.

(** [t.narrow(dim, start, len)] *)
Definition narrow (t : tensor) (dim start len : nat) : tensor :=
  let sh := set_at dim len (shape t) in
  mkTensor (dtype_of t) sh (tabulate sh (fun idx => get t (add_at dim start idx))).

(** [torch.split(t, split_size, dim)] with an integer [split_size]: chunks of
    [split_size] along [dim], the last one holding what is left. *)
Definition split (t : tensor) (split_size : Z) (dim : nat) : result (list tensor) :=
  match nth_error (shape t) dim with
  | None => raise IndexError
  | Some dim_sz =>
      if (split_size <? 0)%Z then raise RuntimeError
      else if (split_size =? 0)%Z && negb (dim_sz =? 0) then raise RuntimeError
      else
        let s := Z.to_nat split_size in
        let num_splits := if s =? 0 then 1 else Nat.max ((dim_sz + s - 1) / s) 1 in
        let last_split_size := s - (s * num_splits - dim_sz) in
        ret (map (fun i => narrow t dim (i * s)
                             (if i <? num_splits - 1 then s else last_split_size))
                 (seq 0 num_splits))
  end.

(** Element [idx] of the concatenation of [ts] along [dim]. *)
Fixpoint cat_get (ts : list tensor) (dim : nat) (idx : list nat) : V :=
  match ts with
  | [] => zero
  | t :: ts' =>
      let s := dim_size t dim in
      if nth dim idx 0 <? s then get t idx
      else cat_get ts' dim (sub_at dim s idx)
  end.

(** [torch.cat(ts, dim)]: the tensors must agree on every dimension but
    [dim].  (torch also lets 1-dimensional empty tensors through; every tensor
    the layers concatenate has rank 2 or more.) *)
Definition cat (ts : list tensor) (dim : nat) : result tensor :=
  match ts with
  | [] => raise RuntimeError
  | t0 :: rest =>
      if negb (dim <? rank t0) then raise IndexError
      else if forallb (fun t => same_except dim (shape t0) (shape t)) rest then
        let d := fold_left promote_types (map dtype_of rest) (dtype_of t0) in
        let sh := set_at dim (list_sum (map (fun t => dim_size t dim) ts)) (shape t0) in
        ret (mkTensor d sh
               (tabulate sh (fun idx => cat_get (map (to_dtype d) ts) dim idx)))
      else raise RuntimeError
  end.

(** [t.permute(perm)]: dimension [i] of the result is dimension [perm[i]] of
    [t]. *)
Definition permute (t : tensor) (perm : list nat) : result tensor :=
  if is_permutation perm (rank t) then
    let sh := map (fun p => nth p (shape t) 0) perm in
    ret (mkTensor (dtype_of t) sh
           (tabulate sh (fun idx =>
              get t (map (fun k => nth (index_of k perm) idx 0) (seq 0 (rank t))))))
  else raise RuntimeError.

(** [a * b] with broadcasting and type promotion. *)
Definition tensor_mul (a b : tensor) : result tensor :=
  match broadcast_shapes (shape a) (shape b) with
  | None => raise RuntimeError
  | Some sh =>
      let d := promote_types (dtype_of a) (dtype_of b) in
      let a' := to_dtype d a in
      let b' := to_dtype d b in
      ret (mkTensor d sh
             (tabulate sh (fun idx =>
                mul (get a' (broadcast_index (shape a) idx))
                    (get b' (broadcast_index (shape b) idx)))))
  end.

End Tensors.

(** ** numpy and indexing primitives used at construction *)

Section Construction.

Variable V : Type.
Context {SV : Scalar V}.

(** [np.zeros([a, b])] and [np.ones([a, b])]: float64 arrays; numpy refuses
    negative dimensions. *)
Definition np_full (v : V) (dims : list Z) : result (tensor V) :=
  if forallb (fun d => (0 <=? d)%Z) dims then
    let sh := map Z.to_nat dims in
    ret (mkTensor DFloat64 sh (repeat v (numel sh)))
  else raise ValueError.

Definition np_zeros (dims : list Z) : result (tensor V) := np_full zero dims.
Definition np_ones (dims : list Z) : result (tensor V) := np_full one dims.

(** [torch.from_numpy(a)] shares the array's memory: same dtype, shape and
    elements. *)
Definition from_numpy (a : tensor V) : tensor V := a.

(** Python's [range(a, b)]. *)
Definition range (a b : Z) : list Z :=
  map (fun k => (a + Z.of_nat k)%Z) (seq 0 (Z.to_nat (b - a))).

(** An index into a dimension of size [d]; negative indices count from the
    end. *)
Definition normalize_index (i : Z) (d : nat) : result nat :=
  if ((- Z.of_nat d <=? i) && (i <? Z.of_nat d))%Z then
    ret (Z.to_nat (if (i <? 0)%Z then i + Z.of_nat d else i)%Z)
  else raise IndexError.

(** [t[i]]: the [i]-th slice along dimension 0. *)
Definition getitem (t : tensor V) (i : Z) : result (tensor V) :=
  match shape t with
  | [] => raise IndexError
  | d :: sh =>
      k <- normalize_index i d ;;
      ret (mkTensor (dtype_of t) sh (tabulate sh (fun idx => get t (k :: idx))))
  end.

(** [np.logical_or(a, b)]: a boolean array, true where either operand is not
    zero. *)
Definition logical_or (a b : tensor V) : result (tensor V) :=
  match broadcast_shapes (shape a) (shape b) with
  | None => raise ValueError
  | Some sh =>
      ret (mkTensor DBool sh
             (tabulate sh (fun idx =>
                if nonzero (get a (broadcast_index (shape a) idx))
                   || nonzero (get b (broadcast_index (shape b) idx))
                then one else zero)))
  end.

(** [t[i] = v]: [v] is broadcast to the shape of the slice and converted to
    the dtype of [t]; the other slices are untouched. *)
Definition setitem (t : tensor V) (i : Z) (v : tensor V) : result (tensor V) :=
  match shape t with
  | [] => raise IndexError
  | d :: sh =>
      k <- normalize_index i d ;;
      match broadcast_shapes sh (shape v) with
      | Some sh' =>
          if list_eqb sh' sh then
            let v' := to_dtype (dtype_of t) v in
            ret (mkTensor (dtype_of t) (shape t)
                   (tabulate (shape t) (fun idx =>
                      match idx with
                      | j :: idx' =>
                          if j =? k then get v' (broadcast_index (shape v) idx')
                          else get t idx
                      | [] => zero
                      end)))
          else raise RuntimeError
      | None => raise RuntimeError
      end
  end.

(** A [for] loop over a list of indices, threading the mutated tensor and
    stopping at the first exception. *)
Fixpoint for_each (idxs : list Z) (body : Z -> tensor V -> result (tensor V))
    (st : tensor V) : result (tensor V) :=
  match idxs with
  | [] => ret st
  | i :: rest => st' <- body i st ;; for_each rest body st'
  end.

End Construction.

(** ** Python floats

    A Python float is an IEEE 754 binary64 number: a rational with a
    significand of 53 bits and a binary exponent from -1022 to 1023
    (subnormal numbers below), an infinity, or a NaN.  The value of a finite
    float is held as a rational, and every operation rounds its exact result
    to the nearest float, ties to the even significand, as the hardware does.
    The sign of a zero is not kept: neither the size formula nor a layer
    divides by a computed value. *)
Inductive pyfloat : Type :=
| Finite (q : Q)
| Infinite (negative : bool)
| NaN.

Definition pow2 (k : Z) : Q := Qpower 2 k.

(** The binary exponent of [x <> 0]: the [e] with [2^e <= |x| < 2^(e+1)]. *)
Definition ilog2 (x : Q) : Z :=
  let e := (Z.log2 (Z.abs (Qnum x)) - Z.log2 (Zpos (Qden x)))%Z in
  if Qle_bool (pow2 e) (Qabs x) then e else (e - 1)%Z.

(** The integer nearest to [x >= 0], the even one of two at equal distance. *)
Definition round_half_even (x : Q) : Z :=
  let q := (Qnum x / Zpos (Qden x))%Z in
  match (2 * (Qnum x mod Zpos (Qden x)) ?= Zpos (Qden x))%Z with
  | Lt => q
  | Gt => (q + 1)%Z
  | Eq => if Z.even q then q else (q + 1)%Z
  end.

Definition is_negative (x : Q) : bool := (Qnum x <? 0)%Z.

(** The number nearest to [x] in the binary format with a significand of
    [prec] bits, least exponent [emin] and numbers below [2^emax]: a multiple
    of [2^(e - prec + 1)], where [e] is the exponent of [x] and at least
    [emin], and an infinity from [2^emax] on. *)
Definition round_float (prec emin emax : Z) (x : Q) : pyfloat :=
  let x := Qred x in
  if Qeq_bool x 0 then Finite 0
  else
    let k := (Z.max (ilog2 x) emin - (prec - 1))%Z in
    let y := Qred (inject_Z (round_half_even (Qabs x / pow2 k)) * pow2 k) in
    if Qle_bool (pow2 emax) y then Infinite (is_negative x)
    else Finite (if is_negative x then Qopp y else y).

(** binary64, binary32 and binary16: float64, float32 and float16. *)
Definition round64 : Q -> pyfloat := round_float 53 (-1022) 1024.
Definition round32 : Q -> pyfloat := round_float 24 (-126) 128.
Definition round16 : Q -> pyfloat := round_float 11 (-14) 16.

(** The float of a Python int, where one operand of [*], [-] or [/] is an
    int.  The conversion is exact up to [2^53].  A larger integer is kept as
    it is, where binary64 rounds it (and refuses it from [2^1024] on): it is
    the channel count of the layer, and no matrix of that width can be
    allocated. *)
Definition float_of_int (i : Z) : pyfloat := Finite (inject_Z i).

(** [a / b] on floats with [a] and [b] finite: Python raises on a zero
    divisor, and the quotient overflows to an infinity without an error. *)
Definition py_truediv (a b : Q) : result pyfloat :=
  if Qeq_bool b 0 then raise ZeroDivisionError else ret (round64 (a / b)).

(** [a - b] on floats with [a] finite. *)
Definition py_sub (a : Q) (b : pyfloat) : pyfloat :=
  match b with
  | Finite y => round64 (a - y)
  | Infinite s => Infinite (negb s)
  | NaN => NaN
  end.

(** [a * b] on floats: an infinity times zero is a NaN, and a product that
    overflows is an infinity, without an error.  A factor 1.0 leaves the other
    operand as it is, in binary64 as here (where it holds of a channel count
    beyond [2^53] too). *)
Definition py_mul (a b : pyfloat) : pyfloat :=
  match a, b with
  | NaN, _ | _, NaN => NaN
  | Finite x, Finite y =>
      if Qeq_bool y 1 then a else if Qeq_bool x 1 then b else round64 (x * y)
  | Finite x, Infinite s | Infinite s, Finite x =>
      if Qeq_bool x 0 then NaN else Infinite (xorb s (is_negative x))
  | Infinite s, Infinite s' => Infinite (xorb s s')
  end.

(** [int(x)] truncates toward zero, and refuses infinities and NaN. *)
Definition truncate (q : Q) : Z := Z.quot (Qnum q) (Zpos (Qden q)).

Definition py_int (x : pyfloat) : result Z :=
  match x with
  | Finite q => ret (truncate q)
  | Infinite _ => raise OverflowError
  | NaN => raise ValueError
  end.

Section Power.

(** C's [pow] on a finite base [x > 0], [x <> 1], and a non-zero integer
    exponent: the library's result, [None] when it overflows.  How the
    library rounds is not fixed by the language, so the function is a
    parameter. *)
Variable libm_pow : Q -> Z -> option Q.

(** [v ** w] for a float [v] and an int [w], after [float_pow] of CPython:
    the special cases are decided before the C library is called, a negative
    base is raised as its absolute value and the sign restored, and an
    overflow of the library is an [OverflowError].  The exponent is the
    number of masks, an int that converts to a float as it is. *)
Definition py_pow (v : pyfloat) (w : Z) : result pyfloat :=
  if (w =? 0)%Z then ret (Finite 1)
  else
    match v with
    | NaN => ret NaN
    | Infinite s =>
        ret (if (0 <? w)%Z then Infinite (s && Z.odd w) else Finite 0)
    | Finite x =>
        if Qeq_bool x 0 then
          if (w <? 0)%Z then raise ZeroDivisionError else ret (Finite 0)
        else
          let negate := is_negative x && Z.odd w in
          if Qeq_bool (Qabs x) 1 then ret (Finite (if negate then - (1) else 1)%Q)
          else
            match libm_pow (Qabs x) w with
            | Some y => ret (Finite (if negate then - y else y)%Q)
            | None => raise OverflowError
            end
    end.

(** [int(channels * scale * (1 - (1 - 1 / scale) ** n))], in Python's order
    of evaluation; [scale] is a finite float. *)
Definition compute_expected_size (channels n : Z) (scale : Q) : result Z :=
  let width := py_mul (float_of_int channels) (Finite scale) in
  r <- py_truediv 1 scale ;;
  p <- py_pow (py_sub 1 r) n ;;
  py_int (py_mul width (py_sub 1 p)).

End Power.

(** A C library whose [pow] rounds the exact power to the nearest float. *)
Definition rounded_pow (x : Q) (w : Z) : option Q :=
  match round64 (Qpower x w) with
  | Finite y => Some y
  | _ => None
  end.

(** The floor of a rational, and the size as the specification words it: the
    floor of the formula over the rationals. *)
Definition floor (x : Q) : Z := (Qnum x / Zpos (Qden x))%Z.

Definition floor_of_formula (channels n : Z) (scale : Q) : Z :=
  floor (inject_Z channels * scale * (1 - (1 - 1 / scale) ^ n))%Q.

(** Floats are a carrier for the tensors, with the binary64 product.  A
    conversion to float32 or float16 rounds, to float64 keeps the value, to
    [bool] tests against zero, and to an integer dtype truncates a finite
    value (what torch stores for an infinity or a NaN is not defined: it is
    left as it is). *)
Definition pyfloat_nonzero (v : pyfloat) : bool :=
  match v with
  | Finite q => negb (Qeq_bool q 0)
  | _ => true
  end.

Definition pyfloat_cast (d : dtype) (v : pyfloat) : pyfloat :=
  match d, v with
  | DBool, _ => if pyfloat_nonzero v then Finite 1 else Finite 0
  | DFloat64, _ => v
  | DFloat32, Finite q => round32 q
  | DFloat16, Finite q => round16 q
  | _, Finite q => Finite (inject_Z (Z_cast d (truncate q)))
  | _, _ => v
  end.

#[export] Instance pyfloat_Scalar : Scalar pyfloat := {|
  zero := Finite 0;
  one := Finite 1;
  mul := py_mul;
  nonzero := pyfloat_nonzero;
  cast := pyfloat_cast;
  nonzero_one := eq_refl;
  nonzero_zero := eq_refl;
  cast_one := fun d =>
    match d as d0 return pyfloat_cast d0 (Finite 1) = Finite 1 with
    | DBool | DUInt8 | DInt32 | DInt64 | DFloat16 | DFloat32 | DFloat64 => eq_refl
    end;
  cast_zero := fun d =>
    match d as d0 return pyfloat_cast d0 (Finite 0) = Finite 0 with
    | DBool | DUInt8 | DInt32 | DInt64 | DFloat16 | DFloat32 | DFloat64 => eq_refl
    end;
  nonzero_cast_double := fun v => eq_refl
|}.

(** ** The layers *)

Section Layers.

Variable V : Type.
Context {SV : Scalar V}.

(** [common.generation_wrapper] and [common.generate_masks] are not part of
    the file: they are arbitrary functions from [(channels, n, scale)] to an
    array, and may raise. *)
Variable common_generation_wrapper : Z -> Z -> Q -> result (tensor V).
Variable common_generate_masks : Z -> Z -> Q -> result (tensor V).

(** The attributes of a layer object; [expected_size] exists on the
    dynamic-size classes only. *)
Record Masksembles : Type := mkMasksembles {
  channels : Z;
  n : Z;
  scale : Q;
  expected_size : option Z;
  masks : tensor V
}.

(** The loop
    [for i in range(1, n): masks[i] = np.logical_or(masks[i], masks[i - 1])] *)
Definition nest_body (i : Z) (masks : tensor V) : result (tensor V) :=
  a <- getitem masks i ;;
  b <- getitem masks (i - 1) ;;
  v <- logical_or a b ;;
  setitem masks i v.

Definition nest (n : Z) (masks : tensor V) : result (tensor V) :=
  for_each (range 1 n) nest_body masks.

(** [Masksembles2D.__init__] *)
Definition Masksembles2D_init (channels n : Z) (scale : Q)
    (generate_masks nested_masks : bool) : result Masksembles :=
  if generate_masks then
    masks <- common_generation_wrapper channels n scale ;;
    let masks := from_numpy masks in
    masks <- (if nested_masks then nest n masks else ret masks) ;;
    ret (mkMasksembles channels n scale None (double masks))
  else
    masks <- np_zeros [n; channels] ;;
    let masks := from_numpy masks in
    ret (mkMasksembles channels n scale None (double masks)).

(** [Masksembles1D.__init__] *)
Definition Masksembles1D_init (channels n : Z) (scale : Q)
    (generate_masks nested_masks : bool) : result Masksembles :=
  if generate_masks then
    masks <- (if Qeq_bool scale 1 then np_ones [n; channels]
              else common_generation_wrapper channels n scale) ;;
    let masks := from_numpy masks in
    masks <- (if nested_masks then nest n masks else ret masks) ;;
    ret (mkMasksembles channels n scale None (double masks))
  else
    masks <- np_zeros [n; channels] ;;
    let masks := from_numpy masks in
    ret (mkMasksembles channels n scale None (double masks)).

(** C's [pow], as [py_pow] calls it. *)
Variable libm_pow : Q -> Z -> option Q.

(** [Masksembles1DDynamicSize.__init__] *)
Definition Masksembles1DDynamicSize_init (channels n : Z) (scale : Q)
    (generate_masks : bool) : result Masksembles :=
  size <- compute_expected_size libm_pow channels n scale ;;
  if generate_masks then
    masks <- common_generate_masks channels n scale ;;
    let masks := from_numpy masks in
    ret (mkMasksembles channels n scale (Some size) (double masks))
  else
    masks <- np_zeros [n; size] ;;
    let masks := from_numpy masks in
    ret (mkMasksembles channels n scale (Some size) (double masks)).

(** [Masksembles2DDynamicSize.__init__] *)
Definition Masksembles2DDynamicSize_init (channels n : Z) (scale : Q)
    (generate_masks : bool) : result Masksembles :=
  size <- compute_expected_size libm_pow channels n scale ;;
  if generate_masks then
    masks <- common_generate_masks channels n scale ;;
    let masks := from_numpy masks in
    ret (mkMasksembles channels n scale (Some size) (double masks))
  else
    masks <- np_zeros [n; size] ;;
    let masks := from_numpy masks in
    ret (mkMasksembles channels n scale (Some size) (double masks)).

(** [Masksembles1D.forward] *)
Definition Masksembles1D_forward (self : Masksembles) (inputs : tensor V)
    : result (tensor V) :=
  batch <- shape_at inputs 0 ;;
  u <- unsqueeze inputs 1 ;;
  g <- floordiv (Z.of_nat batch) (n self) ;;
  x <- split u g 0 ;;
  x <- cat x 1 ;;
  x <- permute x [1; 0; 2] ;;
  m <- unsqueeze (masks self) 1 ;;
  x <- tensor_mul x m ;;
  xs <- split x 1 0 ;;
  x <- cat xs 1 ;;
  x <- squeeze x 0 ;;
  ret (float x).

(** [Masksembles2D.forward] *)
Definition Masksembles2D_forward (self : Masksembles) (inputs : tensor V)
    : result (tensor V) :=
  batch <- shape_at inputs 0 ;;
  u <- unsqueeze inputs 1 ;;
  g <- floordiv (Z.of_nat batch) (n self) ;;
  x <- split u g 0 ;;
  x <- cat x 1 ;;
  x <- permute x [1; 0; 2; 3; 4] ;;
  m <- unsqueeze (masks self) 1 ;;
  m <- unsqueeze m (-1) ;;
  m <- unsqueeze m (-1) ;;
  x <- tensor_mul x m ;;
  xs <- split x 1 0 ;;
  x <- cat xs 1 ;;
  x <- squeeze x 0 ;;
  ret (float x).

(** [Masksembles1DDynamicSize.forward] *)
Definition Masksembles1DDynamicSize_forward (self : Masksembles) (inputs : tensor V)
    : result (tensor V) :=
  batch <- shape_at inputs 0 ;;
  u <- unsqueeze inputs 1 ;;
  g <- floordiv (Z.of_nat batch) (n self) ;;
  x <- split u g 0 ;;
  x <- cat x 1 ;;
  x <- permute x [1; 0; 2] ;;
  m <- unsqueeze (masks self) 1 ;;
  x <- tensor_mul x m ;;
  xs <- split x 1 0 ;;
  x <- cat xs 1 ;;
  x <- squeeze x 0 ;;
  ret (float x).

(** [Masksembles2DDynamicSize.forward] *)
Definition Masksembles2DDynamicSize_forward (self : Masksembles) (inputs : tensor V)
    : result (tensor V) :=
  batch <- shape_at inputs 0 ;;
  u <- unsqueeze inputs 1 ;;
  g <- floordiv (Z.of_nat batch) (n self) ;;
  x <- split u g 0 ;;
  x <- cat x 1 ;;
  x <- permute x [1; 0; 2; 3; 4] ;;
  m <- unsqueeze (masks self) 1 ;;
  m <- unsqueeze m (-1) ;;
  m <- unsqueeze m (-1) ;;
  x <- tensor_mul x m ;;
  xs <- split x 1 0 ;;
  x <- cat xs 1 ;;
  x <- squeeze x 0 ;;
  ret (float x).

(** ** The apply operation as the specification words it

    The batch is cut into [nn] contiguous groups of [g = N / nn] rows; the
    element at batch position [j] and channel [c] (and any spatial position)
    is multiplied by [masks[j / g][c]]. *)

(** One product as the layers compute it: both operands in the promoted
    dtype, the result converted to float32. *)
Definition masked (dx dm : dtype) (x m : V) : V :=
  let p := promote_types dx dm in
  convert p DFloat32 (mul (convert dx p x) (convert dm p m)).

Definition spec_apply (nn : nat) (masks inputs : tensor V) : tensor V :=
  let g := dim_size inputs 0 / nn in
  mkTensor DFloat32 (shape inputs)
    (tabulate (shape inputs) (fun idx =>
       masked (dtype_of inputs) (dtype_of masks)
         (get inputs idx)
         (get masks [nth 0 idx 0 / g; nth 1 idx 0]))).

(** ** Nesting as the specification words it

    Mask 0 is kept; mask [i], for [i = 1, 2, ...] in this order, becomes the
    logical or of the raw mask [i] and the (already nested) mask [i - 1]. *)
Fixpoint nested_value (raw : tensor V) (i c : nat) : V :=
  match i with
  | 0 => get raw [0; c]
  | S i' =>
      if nonzero (get raw [i; c]) || nonzero (nested_value raw i' c)
      then one else zero
  end.

(** The state of the nesting loop once rows [1 .. k] are done. *)
Definition nest_invariant (raw : tensor V) (nn C k : nat) (M : tensor V) : Prop :=
  dtype_of M = dtype_of raw /\
  shape M = [nn; C] /\
  forall i c, i < nn -> c < C ->
    get M [i; c] = if i <=? k then nested_value raw i c else get raw [i; c].

(** What a construction with nesting must deliver from the raw matrix [raw]
    of [nn] masks over [C] channels: the stored masks have row 0 of [raw],
    each later row is the or of its raw row with the row before it, and so
    every channel active in a row is active in the next. *)
Definition nested_from (raw : tensor V) (nn C : nat) (r : result Masksembles) : Prop :=
  exists layer,
    r = ret layer /\
    shape (masks layer) = [nn; C] /\
    (forall c, c < C -> get (masks layer) [0; c] = get (double raw) [0; c]) /\
    (forall i c, 1 <= i < nn -> c < C ->
       get (masks layer) [i; c]
       = if nonzero (get (double raw) [i; c]) || nonzero (get (masks layer) [i - 1; c])
         then one else zero) /\
    (forall i c, 1 <= i < nn -> c < C ->
       nonzero (get (masks layer) [i - 1; c]) = true ->
       nonzero (get (masks layer) [i; c]) = true).

(** The [a x b] float64 matrix filled with [v]. *)
Definition full_matrix (v : V) (a b : nat) : tensor V :=
  mkTensor DFloat64 [a; b] (repeat v (a * b)).

End Layers.

(** ** Rows and worked examples *)

Section Rows.

Variable V : Type.
Context {SV : Scalar V}.

(** Row [j] of a matrix. *)
Definition row (t : tensor V) (j : nat) : list V :=
  map (fun c => get t [j; c]) (seq 0 (dim_size t 1)).

(** The matrix with the given rows. *)
Definition tensor_of_rows (d : dtype) (rows : list (list V)) : tensor V :=
  mkTensor d [length rows; length (hd [] rows)] (concat rows).

End Rows.

(** A generator that always raises: what a construction returns with it does
    not come from the generator. *)
Definition failing_generator : Z -> Z -> Q -> result (tensor Z) :=
  fun _ _ _ => raise RuntimeError.

(** A generator that answers every request with the 3 x 3 identity. *)
Definition diagonal_generator : Z -> Z -> Q -> result (tensor Z) :=
  fun _ _ _ => ret (tensor_of_rows DFloat64 [[1; 0; 0]; [0; 1; 0]; [0; 0; 1]]%Z).

(** A generator that answers every request with a 1 x 1 matrix. *)
Definition tiny_generator : Z -> Z -> Q -> result (tensor Z) :=
  fun _ _ _ => ret (tensor_of_rows DFloat64 [[1]]%Z).

(** Two masks over two channels, four rows of ones. *)
Definition group_masks : tensor Z :=
  tensor_of_rows DFloat64 [[1; 0]; [0; 1]]%Z.

Definition group_layer : Masksembles Z :=
  mkMasksembles 2 2 (2 # 1) None group_masks.

Definition group_inputs : tensor Z :=
  tensor_of_rows DFloat32 [[1; 1]; [1; 1]; [1; 1]; [1; 1]]%Z.

Definition group_outputs : tensor Z :=
  tensor_of_rows DFloat32 [[1; 0]; [1; 0]; [0; 1]; [0; 1]]%Z.

(** The same rows held as float64. *)
Definition group_inputs_double : tensor Z :=
  tensor_of_rows DFloat64 [[1; 1]; [1; 1]; [1; 1]; [1; 1]]%Z.

(** A batch of two examples, two channels, 3 x 3 positions, holding 1 .. 36. *)
Definition spatial_inputs : tensor Z :=
  mkTensor DFloat32 [2; 2; 3; 3] (map Z.of_nat (seq 1 36)).

(** Two masks over a single channel. *)
Definition column_layer : Masksembles Z :=
  mkMasksembles 1 2 (2 # 1) None (tensor_of_rows DFloat64 [[2]; [3]]%Z).

(** Four rows of a single channel, and two rows of three channels. *)
Definition single_channel_inputs : tensor Z :=
  tensor_of_rows DFloat32 [[5]; [6]; [7]; [8]]%Z.

Definition three_channel_inputs : tensor Z :=
  tensor_of_rows DFloat32 [[1; 1; 1]; [1; 1; 1]]%Z.

(** Two rows of four channels. *)
Definition four_channel_inputs : tensor Z :=
  tensor_of_rows DFloat32 [[1; 2; 3; 4]; [5; 6; 7; 8]]%Z.

(** Masks [[1,0],[0,1]] over floats, and a batch of two examples with two
    channels and a single position; channel 1 of the first example holds an
    infinity and channel 0 of the second a NaN. *)
Definition float_layer : Masksembles pyfloat :=
  mkMasksembles 2 2 (2 # 1) None
    (tensor_of_rows DFloat64 [[Finite 1; Finite 0]; [Finite 0; Finite 1]]).

Definition nonfinite_inputs : tensor pyfloat :=
  mkTensor DFloat32 [2; 2; 1; 1] [Finite 1; Infinite false; NaN; Finite 4].

(** ** Union of raw masks *)

Section Union.

Variable V : Type.
Context {SV : Scalar V}.

(** Channel [c] is active in one of the raw masks [0 .. k]. *)
Definition active_up_to (raw : tensor V) (k c : nat) : bool :=
  existsb (fun i => nonzero (get raw [i; c])) (seq 0 (S k)).

End Union.

(** * Properties *)

Unset Implicit Arguments.

(** ** Row-major indexing *)

Lemma flat_map_block_length {A B : Type} (f : A -> list B) (L : nat) (l : list A) :
  (forall x, length (f x) = L) -> length (flat_map f l) = length l * L.
Proof.
  intros Hf. induction l as [|x l IH]; simpl; [reflexivity|].
  rewrite length_app, Hf, IH. reflexivity.
Qed.

Lemma nth_error_flat_map_block {A B : Type} (f : A -> list B) (L : nat) (d : A) :
  (forall x, length (f x) = L) ->
  forall (l : list A) (i r : nat),
    i < length l -> r < L ->
    nth_error (flat_map f l) (i * L + r) = nth_error (f (nth i l d)) r.
Proof.
  intros Hf. induction l as [|x l IH]; intros i r Hi Hr; simpl in Hi; [lia|].
  simpl. destruct i as [|i].
  - simpl. apply nth_error_app1. rewrite Hf. exact Hr.
  - rewrite nth_error_app2 by (rewrite Hf; simpl; lia).
    rewrite Hf. replace (S i * L + r - L) with (i * L + r) by (simpl; lia).
    apply IH; lia.
Qed.

Lemma length_indices (sh : list nat) : length (indices sh) = numel sh.
Proof.
  induction sh as [|d sh IH]; simpl; [reflexivity|].
  rewrite (flat_map_block_length _ (numel sh)).
  - rewrite length_seq. reflexivity.
  - intros x. rewrite length_map. exact IH.
Qed.

Lemma offset_lt (sh idx : list nat) :
  in_bounds sh idx -> offset sh idx < numel sh.
Proof.
  revert idx. induction sh as [|d sh IH]; intros [|i idx]; simpl; try tauto; try lia.
  intros [Hi Hb]. specialize (IH _ Hb). nia.
Qed.

Lemma nth_error_indices (sh idx : list nat) :
  in_bounds sh idx -> nth_error (indices sh) (offset sh idx) = Some idx.
Proof.
  revert idx. induction sh as [|d sh IH]; intros [|i idx]; simpl; try tauto.
  intros [Hi Hb].
  rewrite (nth_error_flat_map_block _ (numel sh) 0).
  - rewrite seq_nth by exact Hi. simpl.
    apply map_nth_error. apply IH. exact Hb.
  - intros x. rewrite length_map. apply length_indices.
  - rewrite length_seq. exact Hi.
  - apply offset_lt. exact Hb.
Qed.

Lemma in_indices_bounds (sh idx : list nat) :
  In idx (indices sh) -> in_bounds sh idx.
Proof.
  revert idx. induction sh as [|d sh IH]; intros idx; simpl.
  - intros [<-|[]]. exact I.
  - rewrite in_flat_map. intros [i [Hi Hin]].
    apply in_map_iff in Hin. destruct Hin as [idx' [<- Hin]].
    apply in_seq in Hi. split; [lia|]. apply IH. exact Hin.
Qed.

Lemma nth_tabulate {A : Type} (sh : list nat) (f : list nat -> A) (z : A) (idx : list nat) :
  in_bounds sh idx -> nth (offset sh idx) (tabulate sh f) z = f idx.
Proof.
  intros Hb. apply nth_error_nth. unfold tabulate.
  apply map_nth_error. apply nth_error_indices. exact Hb.
Qed.

Lemma tabulate_ext {A : Type} (sh : list nat) (f g : list nat -> A) :
  (forall idx, in_bounds sh idx -> f idx = g idx) -> tabulate sh f = tabulate sh g.
Proof.
  intros H. unfold tabulate. apply map_ext_in.
  intros idx Hin. apply H. apply in_indices_bounds. exact Hin.
Qed.


Lemma tabulate_const {A : Type} (sh : list nat) (v : A) :
  tabulate sh (fun _ => v) = repeat v (numel sh).
Proof.
  unfold tabulate. rewrite <- length_indices.
  induction (indices sh) as [|x l IH]; simpl; [reflexivity|]. now rewrite IH.
Qed.

Lemma tabulate_unit_dim {A : Type} (sh : list nat) (f : list nat -> A) :
  tabulate (1 :: sh) f = tabulate sh (fun idx => f (0 :: idx)).
Proof.
  unfold tabulate. simpl. rewrite app_nil_r. rewrite map_map. reflexivity.
Qed.

(** ** Tensor primitives *)

Section TensorFacts.

Variable V : Type.
Context {SV : Scalar V}.

Lemma dtype_eqb_eq (a b : dtype) : dtype_eqb a b = true <-> a = b.
Proof. destruct a, b; simpl; split; intros H; try reflexivity; discriminate. Qed.

Lemma dtype_eqb_refl (a : dtype) : dtype_eqb a a = true.
Proof. apply dtype_eqb_eq. reflexivity. Qed.

Lemma promote_types_idem (d : dtype) : promote_types d d = d.
Proof. destruct d; reflexivity. Qed.


Lemma bind_ret {A B : Type} (a : A) (k : A -> result B) : bind (ret a) k = k a.
Proof. reflexivity. Qed.

Lemma get_tabulated (d : dtype) (sh : list nat) (f : list nat -> V) (idx : list nat) :
  in_bounds sh idx -> get (mkTensor d sh (tabulate sh f)) idx = f idx.
Proof. intros Hb. unfold get. simpl. apply nth_tabulate. exact Hb. Qed.


Lemma shape_to_dtype (d : dtype) (t : tensor V) : shape (to_dtype d t) = shape t.
Proof. unfold to_dtype. destruct (dtype_eqb (dtype_of t) d); reflexivity. Qed.

Lemma to_dtype_same (d : dtype) (t : tensor V) : dtype_of t = d -> to_dtype d t = t.
Proof. intros <-. unfold to_dtype. rewrite dtype_eqb_refl. reflexivity. Qed.

Lemma get_to_dtype (d : dtype) (t : tensor V) (idx : list nat) :
  get (to_dtype d t) idx = convert (dtype_of t) d (get t idx).
Proof.
  unfold to_dtype, convert. destruct (dtype_eqb (dtype_of t) d); [reflexivity|].
  unfold get. simpl. rewrite <- (cast_zero d) at 1. apply map_nth.
Qed.

Lemma shape_at0 (t : tensor V) (d0 : nat) (rest : list nat) :
  shape t = d0 :: rest -> shape_at t 0 = ret d0.
Proof. intros H. unfold shape_at. rewrite H. reflexivity. Qed.

Lemma floordiv_exact (k s : nat) :
  0 < k -> floordiv (Z.of_nat (k * s)) (Z.of_nat k) = ret (Z.of_nat s).
Proof.
  intros Hk. unfold floordiv.
  destruct (Z.eqb_spec (Z.of_nat k) 0) as [He|_]; [lia|].
  rewrite Nat2Z.inj_mul, Z.mul_comm, Z.div_mul by lia. reflexivity.
Qed.

(** *** [narrow] and [split] along dimension 0 *)



Lemma get_narrow0 (t : tensor V) (d0 : nat) (rest : list nat) (start len i : nat) (tl : list nat) :
  shape t = d0 :: rest -> in_bounds (len :: rest) (i :: tl) ->
  get (narrow t 0 start len) (i :: tl) = get t (i + start :: tl).
Proof.
  intros H Hb. unfold narrow. rewrite H. simpl set_at.
  rewrite get_tabulated by exact Hb. reflexivity.
Qed.

Lemma split_even (t : tensor V) (d0 k s : nat) (rest : list nat) :
  shape t = d0 :: rest -> d0 = k * s -> 0 < s -> 0 < k ->
  split t (Z.of_nat s) 0 = ret (map (fun i => narrow t 0 (i * s) s) (seq 0 k)).
Proof.
  intros H -> Hs Hk. unfold split. rewrite H. simpl nth_error.
  destruct (Z.ltb_spec (Z.of_nat s) 0) as [Hlt|_]; [lia|].
  destruct (Z.eqb_spec (Z.of_nat s) 0) as [He|_]; [lia|]. simpl andb.
  rewrite Nat2Z.id.
  destruct (Nat.eqb_spec s 0) as [He|_]; [lia|].
  assert (Hdiv : (k * s + s - 1) / s = k).
  { symmetry. apply (Nat.div_unique _ _ _ (s - 1)); lia. }
  rewrite Hdiv. rewrite Nat.max_l by lia.
  f_equal. apply map_ext_in. intros i Hi.
  replace (s - (s * k - k * s)) with s by lia.
  destruct (i <? k - 1); reflexivity.
Qed.

Lemma split_empty (t : tensor V) (rest : list nat) :
  shape t = 0 :: rest -> split t 0 0 = ret [narrow t 0 0 0].
Proof. intros H. unfold split. rewrite H. reflexivity. Qed.

(** *** [cat] of equally shaped tensors *)

Lemma list_eqb_refl (l : list nat) : list_eqb l l = true.
Proof. induction l as [|x l IH]; simpl; [reflexivity|]. now rewrite Nat.eqb_refl. Qed.


Lemma same_except_refl (dim : nat) (sh : list nat) : same_except dim sh sh = true.
Proof.
  revert dim. induction sh as [|x sh IH]; intros dim; simpl; [reflexivity|].
  destruct dim; [apply list_eqb_refl|]. now rewrite Nat.eqb_refl, IH.
Qed.

Lemma fold_promote_same (d : dtype) (l : list dtype) :
  (forall x, In x l -> x = d) -> fold_left promote_types l d = d.
Proof.
  induction l as [|x l IH]; simpl; intros H; [reflexivity|].
  rewrite (H x) by (left; reflexivity). rewrite promote_types_idem.
  apply IH. intros y Hy. apply H. right. exact Hy.
Qed.

Lemma list_sum_map_const {A : Type} (f : A -> nat) (c : nat) (l : list A) :
  (forall x, f x = c) -> list_sum (map f l) = length l * c.
Proof.
  intros H. induction l as [|x l IH]; simpl; [reflexivity|]. now rewrite H, IH.
Qed.

Lemma cat_uniform (f : nat -> tensor V) (k : nat) (d : dtype) (sh : list nat) (dim : nat) :
  0 < k -> dim < length sh ->
  (forall i, shape (f i) = sh) -> (forall i, dtype_of (f i) = d) ->
  cat (map f (seq 0 k)) dim =
  ret (mkTensor d (set_at dim (k * nth dim sh 0) sh)
         (tabulate (set_at dim (k * nth dim sh 0) sh) (cat_get (map f (seq 0 k)) dim))).
Proof.
  intros Hk Hdim Hsh Hd.
  destruct k as [|k]; [lia|].
  change (seq 0 (S k)) with (0 :: seq 1 k). rewrite map_cons.
  unfold cat. unfold rank. rewrite Hsh.
  destruct (Nat.ltb_spec dim (length sh)) as [_|Hge]; [|lia]. simpl negb. cbv iota.
  assert (Hall : forallb (fun t => same_except dim sh (shape t)) (map f (seq 1 k)) = true).
  { apply forallb_forall. intros x Hx. apply in_map_iff in Hx.
    destruct Hx as [i [<- _]]. rewrite Hsh. apply same_except_refl. }
  rewrite Hall.
  assert (Hfold : fold_left promote_types (map (@dtype_of V) (map f (seq 1 k))) (dtype_of (f 0)) = d).
  { rewrite Hd. apply fold_promote_same. intros x Hx.
    apply in_map_iff in Hx. destruct Hx as [y [<- Hy]].
    apply in_map_iff in Hy. destruct Hy as [i [<- _]]. apply Hd. }
  rewrite Hfold.
  assert (Hsum : list_sum (map (fun t => dim_size t dim) (f 0 :: map f (seq 1 k)))
                 = S k * nth dim sh 0).
  { rewrite <- map_cons. change (0 :: seq 1 k) with (seq 0 (S k)).
    rewrite map_map, (list_sum_map_const _ (nth dim sh 0)).
    - rewrite length_seq. reflexivity.
    - intros x. unfold dim_size. rewrite Hsh. reflexivity. }
  rewrite Hsum.
  assert (Hconv : map (to_dtype d) (f 0 :: map f (seq 1 k)) = f 0 :: map f (seq 1 k)).
  { rewrite <- map_cons, map_map. apply map_ext. intros i. apply to_dtype_same, Hd. }
  rewrite Hconv. reflexivity.
Qed.

Lemma cat_get_dim1 (f : nat -> tensor V) (m : nat) :
  (forall i, dim_size (f i) 1 = m) -> 0 < m ->
  forall (k a i0 j : nat) (tl : list nat),
    j < k * m ->
    cat_get (map f (seq a k)) 1 (i0 :: j :: tl) = get (f (a + j / m)) (i0 :: j mod m :: tl).
Proof.
  intros Hm Hpos. induction k as [|k IH]; intros a i0 j tl Hj; [lia|].
  simpl. rewrite Hm.
  destruct (Nat.ltb_spec j m) as [Hlt|Hge].
  - rewrite Nat.div_small, Nat.mod_small, Nat.add_0_r by exact Hlt. reflexivity.
  - rewrite IH by (simpl in Hj; lia).
    assert (Hq : j / m = S ((j - m) / m)).
    { symmetry. apply (Nat.div_unique _ _ _ ((j - m) mod m)).
      - apply Nat.mod_upper_bound. lia.
      - pose proof (Nat.div_mod_eq (j - m) m). lia. }
    assert (Hr : j mod m = (j - m) mod m).
    { symmetry. apply (Nat.mod_unique _ _ (S ((j - m) / m))).
      - apply Nat.mod_upper_bound. lia.
      - pose proof (Nat.div_mod_eq (j - m) m). lia. }
    rewrite Hq, Hr.
    replace (S a + (j - m) / m) with (a + S ((j - m) / m)) by lia. reflexivity.
Qed.

(** *** Views: [unsqueeze] and [squeeze] *)

Lemma unsqueeze1 (t : tensor V) (d0 : nat) (rest : list nat) :
  shape t = d0 :: rest ->
  unsqueeze t 1 = ret (mkTensor (dtype_of t) (d0 :: 1 :: rest) (data t)).
Proof.
  intros H. unfold unsqueeze, rank. rewrite H.
  assert (Hr : ((- (Z.of_nat (length (d0 :: rest)) + 1) <=? 1)
                && (1 <=? Z.of_nat (length (d0 :: rest))))%Z = true).
  { apply andb_true_intro. split; apply Z.leb_le; simpl length; lia. }
  rewrite Hr. reflexivity.
Qed.

Lemma unsqueeze_last (t : tensor V) :
  unsqueeze t (-1) = ret (mkTensor (dtype_of t) (shape t ++ [1]) (data t)).
Proof.
  unfold unsqueeze, rank.
  assert (Hr : ((- (Z.of_nat (length (shape t)) + 1) <=? -1)
                && (-1 <=? Z.of_nat (length (shape t))))%Z = true).
  { apply andb_true_intro. split; apply Z.leb_le; lia. }
  rewrite Hr. change (-1 <? 0)%Z with true. cbv iota.
  replace (Z.to_nat (-1 + Z.of_nat (length (shape t)) + 1)) with (length (shape t)) by lia.
  rewrite firstn_all, skipn_all. reflexivity.
Qed.

Lemma get_unsqueeze1 (d : dtype) (d0 : nat) (rest : list nat) (l : list V) (i : nat) (tl : list nat) :
  get (mkTensor d (d0 :: 1 :: rest) l) (i :: 0 :: tl) = get (mkTensor d (d0 :: rest) l) (i :: tl).
Proof. unfold get. simpl. f_equal. lia. Qed.

Lemma get_unsqueeze_mask (d : dtype) (a C : nat) (l : list V) (q c : nat) :
  get (mkTensor d [a; 1; C; 1; 1] l) [q; 0; c; 0; 0] = get (mkTensor d [a; C] l) [q; c].
Proof. unfold get. simpl. f_equal. lia. Qed.


Lemma squeeze0_unit (d : dtype) (sh : list nat) (l : list V) :
  squeeze (mkTensor d (1 :: sh) l) 0 = ret (mkTensor d sh l).
Proof. unfold squeeze, rank. simpl. reflexivity. Qed.

(** *** [permute] and broadcasting on the ranks the layers use *)

Lemma permute_102 (t : tensor V) (a b c : nat) :
  shape t = [a; b; c] ->
  permute t [1; 0; 2] =
  ret (mkTensor (dtype_of t) [b; a; c]
         (tabulate [b; a; c] (fun idx => get t [nth 1 idx 0; nth 0 idx 0; nth 2 idx 0]))).
Proof. intros H. unfold permute, rank. rewrite H. reflexivity. Qed.

Lemma permute_10234 (t : tensor V) (a b c h w : nat) :
  shape t = [a; b; c; h; w] ->
  permute t [1; 0; 2; 3; 4] =
  ret (mkTensor (dtype_of t) [b; a; c; h; w]
         (tabulate [b; a; c; h; w] (fun idx =>
            get t [nth 1 idx 0; nth 0 idx 0; nth 2 idx 0; nth 3 idx 0; nth 4 idx 0]))).
Proof. intros H. unfold permute, rank. rewrite H. reflexivity. Qed.

Lemma broadcast_dim_same (a : nat) : broadcast_dim a a = Some a.
Proof. unfold broadcast_dim. now rewrite Nat.eqb_refl. Qed.

Lemma broadcast_dim_1_r (a : nat) : broadcast_dim a 1 = Some a.
Proof.
  unfold broadcast_dim. destruct (Nat.eqb_spec a 1) as [->|_]; reflexivity.
Qed.

Lemma broadcast_dim_1_l (b : nat) : broadcast_dim 1 b = Some b.
Proof.
  unfold broadcast_dim. destruct (Nat.eqb_spec 1 b) as [<-|_]; reflexivity.
Qed.


Lemma unit_or_index (d i : nat) : i < d -> (if d =? 1 then 0 else i) = i.
Proof. intros H. destruct (Nat.eqb_spec d 1); [lia | reflexivity]. Qed.

Lemma to_dtype_tabulated (d p : dtype) (sh sh' : list nat) (f : list nat -> V) :
  to_dtype d (mkTensor p sh (tabulate sh' f))
  = mkTensor d sh (tabulate sh' (fun idx => convert p d (f idx))).
Proof.
  unfold to_dtype, convert. simpl.
  destruct (dtype_eqb p d) eqn:E.
  - apply dtype_eqb_eq in E. subst. reflexivity.
  - unfold tabulate. rewrite map_map. reflexivity.
Qed.

End TensorFacts.

(** ** The forward pass *)

Section Forward.

Variable V : Type.
Context {SV : Scalar V}.

Lemma forward1D_spec (self : Masksembles V) (inputs : tensor V) (nn g C : nat) :
  n self = Z.of_nat nn -> 0 < nn ->
  shape (masks self) = [nn; C] ->
  shape inputs = [nn * g; C] ->
  Masksembles1D_forward self inputs = ret (spec_apply nn (masks self) inputs).
Proof.
  intros Hn Hnn Hm Hx.
  unfold Masksembles1D_forward.
  rewrite (shape_at0 _ inputs (nn * g) [C] Hx), bind_ret.
  rewrite (unsqueeze1 _ inputs (nn * g) [C] Hx), bind_ret.
  rewrite Hn, floordiv_exact, bind_ret by exact Hnn.
  set (u := mkTensor (dtype_of inputs) [nn * g; 1; C] (data inputs)).
  rewrite (unsqueeze1 _ (masks self) nn [C] Hm).
  set (m := mkTensor (dtype_of (masks self)) [nn; 1; C] _).
  destruct (Nat.eq_dec g 0) as [Hg|Hg].
  - subst g. revert u. rewrite Nat.mul_0_r in *. intros u.
    rewrite (split_empty _ u [1; C] eq_refl), bind_ret.
    change [narrow u 0 0 0] with (map (fun _ : nat => narrow u 0 0 0) (seq 0 1)).
    rewrite (cat_uniform _ (fun _ => narrow u 0 0 0) 1 (dtype_of inputs) [0; 1; C] 1);
      [ | lia | simpl; lia | reflexivity | reflexivity ].
    rewrite bind_ret. simpl set_at.
    set (x3 := mkTensor (dtype_of inputs) [0; 1; C] _).
    rewrite (permute_102 _ x3 0 1 C eq_refl), !bind_ret.
    set (x4 := mkTensor (dtype_of x3) [1; 0; C] _).
    unfold tensor_mul.
    assert (Hb : broadcast_shapes (shape x4) (shape m) = Some [nn; 0; C]).
    { unfold broadcast_shapes. simpl.
      now rewrite ?broadcast_dim_same, ?broadcast_dim_1_r, ?broadcast_dim_1_l. }
    rewrite Hb, bind_ret.
    set (p := promote_types (dtype_of x4) (dtype_of m)).
    set (x5 := mkTensor p [nn; 0; C] _).
    rewrite (split_even _ x5 nn nn 1 [0; C] eq_refl) by lia. rewrite bind_ret.
    rewrite (cat_uniform _ (fun i => narrow x5 0 (i * 1) 1) nn p [1; 0; C] 1);
      [ | lia | simpl; lia | reflexivity | reflexivity ].
    rewrite bind_ret.
    simpl set_at. simpl nth. rewrite Nat.mul_0_r.
    rewrite squeeze0_unit, bind_ret.
    unfold float. rewrite tabulate_unit_dim, to_dtype_tabulated.
    unfold spec_apply. rewrite Hx. reflexivity.
  - rewrite (split_even _ u (nn*g) nn g [1; C] eq_refl eq_refl) by lia. rewrite bind_ret.
    rewrite (cat_uniform _ (fun i => narrow u 0 (i * g) g) nn (dtype_of inputs) [g; 1; C] 1);
      [ | lia | simpl; lia | reflexivity | reflexivity ].
    rewrite bind_ret.
    simpl set_at. simpl nth. rewrite Nat.mul_1_r.
    set (chunks := map (fun i : nat => narrow u 0 (i * g) g) (seq 0 nn)).
    set (x3 := mkTensor (dtype_of inputs) [g; nn; C] _).
    rewrite (permute_102 _ x3 g nn C eq_refl), bind_ret.
    set (x4 := mkTensor (dtype_of x3) [nn; g; C] _).
    rewrite !bind_ret.
    unfold tensor_mul.
    assert (Hb : broadcast_shapes (shape x4) (shape m) = Some [nn; g; C]).
    { unfold broadcast_shapes. simpl.
      now rewrite ?broadcast_dim_same, ?broadcast_dim_1_r, ?broadcast_dim_1_l. }
    rewrite Hb, bind_ret.
    set (p := promote_types (dtype_of x4) (dtype_of m)).
    set (x5 := mkTensor p [nn; g; C] _).
    rewrite (split_even _ x5 nn nn 1 [g; C] eq_refl) by lia. rewrite bind_ret.
    rewrite (cat_uniform _ (fun i => narrow x5 0 (i * 1) 1) nn p [1; g; C] 1);
      [ | lia | simpl; lia | reflexivity | reflexivity ].
    rewrite bind_ret.
    simpl set_at. simpl nth.
    rewrite squeeze0_unit, bind_ret.
    unfold float. rewrite tabulate_unit_dim, to_dtype_tabulated.
    unfold spec_apply. rewrite Hx. f_equal. f_equal.
    apply tabulate_ext. intros [|j [|c [|? ?]]] Hb'; simpl in Hb'; try tauto.
    destruct Hb' as [Hj [Hc _]].
    assert (Hq : j / g < nn) by (apply Nat.Div0.div_lt_upper_bound; lia).
    assert (Hr : j mod g < g) by (apply Nat.mod_upper_bound; exact Hg).
    assert (Hjqr : j mod g + j / g * g = j) by (pose proof (Nat.div_mod_eq j g); lia).
    rewrite (cat_get_dim1 _ (fun i => narrow x5 0 (i * 1) 1) g) by (reflexivity || lia).
    rewrite (get_narrow0 _ x5 nn [g; C]) by (reflexivity || (simpl; lia)).
    replace (0 + (0 + j / g) * 1) with (j / g) by lia.
    unfold x5 at 1. rewrite get_tabulated by (simpl; lia).
    rewrite !get_to_dtype.
    unfold broadcast_index. simpl skipn. simpl zip_with.
    rewrite !unit_or_index by lia.
    unfold x4 at 2. rewrite get_tabulated by (simpl; lia). simpl nth.
    unfold x3 at 1. rewrite get_tabulated by (simpl; lia).
    unfold chunks.
    rewrite (cat_get_dim1 _ (fun i => narrow u 0 (i * g) g) 1) by (reflexivity || lia).
    rewrite Nat.div_1_r, Nat.mod_1_r.
    rewrite (get_narrow0 _ u (nn * g) [1; C]) by (reflexivity || (simpl; lia)).
    replace (j mod g + (0 + j / g) * g) with j by lia.
    unfold u, m. rewrite !get_unsqueeze1.
    unfold masked, dim_size. rewrite Hx. simpl nth.
    replace (nn * g / nn) with g
      by (rewrite Nat.mul_comm; symmetry; apply Nat.div_mul; lia).
    unfold get. simpl shape. rewrite Hx, Hm. reflexivity.
Qed.
Lemma forward2D_spec (self : Masksembles V) (inputs : tensor V) (nn g C H W : nat) :
  n self = Z.of_nat nn -> 0 < nn ->
  shape (masks self) = [nn; C] ->
  shape inputs = [nn * g; C; H; W] ->
  Masksembles2D_forward self inputs = ret (spec_apply nn (masks self) inputs).
Proof.
  intros Hn Hnn Hm Hx.
  unfold Masksembles2D_forward.
  rewrite (shape_at0 _ inputs (nn * g) [C; H; W] Hx), bind_ret.
  rewrite (unsqueeze1 _ inputs (nn * g) [C; H; W] Hx), bind_ret.
  rewrite Hn, floordiv_exact, bind_ret by exact Hnn.
  set (u := mkTensor (dtype_of inputs) [nn * g; 1; C; H; W] (data inputs)).
  destruct (Nat.eq_dec g 0) as [Hg|Hg].
  - subst g. revert u. rewrite Nat.mul_0_r in *. intros u.
    rewrite (split_empty _ u [1; C; H; W] eq_refl), bind_ret.
    change [narrow u 0 0 0] with (map (fun _ : nat => narrow u 0 0 0) (seq 0 1)).
    rewrite (cat_uniform _ (fun _ => narrow u 0 0 0) 1 (dtype_of inputs) [0; 1; C; H; W] 1);
      [ | lia | simpl; lia | reflexivity | reflexivity ].
    rewrite bind_ret. simpl set_at.
    set (x3 := mkTensor (dtype_of inputs) [0; 1; C; H; W] _).
    rewrite (permute_10234 _ x3 0 1 C H W eq_refl), !bind_ret.
    set (x4 := mkTensor (dtype_of x3) [1; 0; C; H; W] _).
    rewrite (unsqueeze1 _ (masks self) nn [C] Hm), bind_ret.
    rewrite unsqueeze_last, bind_ret, unsqueeze_last, bind_ret. simpl app. simpl dtype_of.
    set (m := mkTensor (dtype_of (masks self)) [nn; 1; C; 1; 1] _).
    unfold tensor_mul.
    assert (Hb : broadcast_shapes (shape x4) (shape m) = Some [nn; 0; C; H; W]).
    { unfold broadcast_shapes. simpl.
      now rewrite ?broadcast_dim_same, ?broadcast_dim_1_r, ?broadcast_dim_1_l. }
    rewrite Hb, bind_ret.
    set (p := promote_types (dtype_of x4) (dtype_of m)).
    set (x5 := mkTensor p [nn; 0; C; H; W] _).
    rewrite (split_even _ x5 nn nn 1 [0; C; H; W] eq_refl) by lia. rewrite bind_ret.
    rewrite (cat_uniform _ (fun i => narrow x5 0 (i * 1) 1) nn p [1; 0; C; H; W] 1);
      [ | lia | simpl; lia | reflexivity | reflexivity ].
    rewrite bind_ret.
    simpl set_at. simpl nth. rewrite Nat.mul_0_r.
    rewrite squeeze0_unit, bind_ret.
    unfold float. rewrite tabulate_unit_dim, to_dtype_tabulated.
    unfold spec_apply. rewrite Hx. reflexivity.
  - rewrite (split_even _ u (nn*g) nn g [1; C; H; W] eq_refl eq_refl) by lia. rewrite bind_ret.
    rewrite (cat_uniform _ (fun i => narrow u 0 (i * g) g) nn (dtype_of inputs) [g; 1; C; H; W] 1);
      [ | lia | simpl; lia | reflexivity | reflexivity ].
    rewrite bind_ret.
    simpl set_at. simpl nth. rewrite Nat.mul_1_r.
    set (chunks := map (fun i : nat => narrow u 0 (i * g) g) (seq 0 nn)).
    set (x3 := mkTensor (dtype_of inputs) [g; nn; C; H; W] _).
    rewrite (permute_10234 _ x3 g nn C H W eq_refl), bind_ret.
    set (x4 := mkTensor (dtype_of x3) [nn; g; C; H; W] _).
    rewrite (unsqueeze1 _ (masks self) nn [C] Hm), bind_ret.
    rewrite unsqueeze_last, bind_ret, unsqueeze_last, bind_ret. simpl app. simpl dtype_of.
    set (m := mkTensor (dtype_of (masks self)) [nn; 1; C; 1; 1] _).
    unfold tensor_mul.
    assert (Hb : broadcast_shapes (shape x4) (shape m) = Some [nn; g; C; H; W]).
    { unfold broadcast_shapes. simpl.
      now rewrite ?broadcast_dim_same, ?broadcast_dim_1_r, ?broadcast_dim_1_l. }
    rewrite Hb, bind_ret.
    set (p := promote_types (dtype_of x4) (dtype_of m)).
    set (x5 := mkTensor p [nn; g; C; H; W] _).
    rewrite (split_even _ x5 nn nn 1 [g; C; H; W] eq_refl) by lia. rewrite bind_ret.
    rewrite (cat_uniform _ (fun i => narrow x5 0 (i * 1) 1) nn p [1; g; C; H; W] 1);
      [ | lia | simpl; lia | reflexivity | reflexivity ].
    rewrite bind_ret.
    simpl set_at. simpl nth.
    rewrite squeeze0_unit, bind_ret.
    unfold float. rewrite tabulate_unit_dim, to_dtype_tabulated.
    unfold spec_apply. rewrite Hx. f_equal. f_equal.
    apply tabulate_ext. intros [|j [|c [|h [|w [|? ?]]]]] Hb'; simpl in Hb'; try tauto.
    destruct Hb' as [Hj [Hc [Hh [Hw _]]]].
    assert (Hq : j / g < nn) by (apply Nat.Div0.div_lt_upper_bound; lia).
    assert (Hr : j mod g < g) by (apply Nat.mod_upper_bound; exact Hg).
    assert (Hjqr : j mod g + j / g * g = j) by (pose proof (Nat.div_mod_eq j g); lia).
    rewrite (cat_get_dim1 _ (fun i => narrow x5 0 (i * 1) 1) g) by (reflexivity || lia).
    rewrite (get_narrow0 _ x5 nn [g; C; H; W]) by (reflexivity || (simpl; lia)).
    replace (0 + (0 + j / g) * 1) with (j / g) by lia.
    unfold x5 at 1. rewrite get_tabulated by (simpl; lia).
    rewrite !get_to_dtype.
    unfold broadcast_index. simpl skipn. simpl zip_with.
    rewrite !unit_or_index by lia.
    unfold x4 at 2. rewrite get_tabulated by (simpl; lia). simpl nth.
    unfold x3 at 1. rewrite get_tabulated by (simpl; lia).
    unfold chunks.
    rewrite (cat_get_dim1 _ (fun i => narrow u 0 (i * g) g) 1) by (reflexivity || lia).
    rewrite Nat.div_1_r, Nat.mod_1_r.
    rewrite (get_narrow0 _ u (nn * g) [1; C; H; W]) by (reflexivity || (simpl; lia)).
    replace (j mod g + (0 + j / g) * g) with j by lia.
    unfold u, m. rewrite get_unsqueeze1, get_unsqueeze_mask.
    unfold masked, dim_size. rewrite Hx. simpl nth.
    replace (nn * g / nn) with g
      by (rewrite Nat.mul_comm; symmetry; apply Nat.div_mul; lia).
    unfold get. simpl shape. rewrite Hx, Hm. reflexivity.
Qed.
(** The dynamic-size classes repeat the forward pass of the fixed-size ones. *)
Lemma dynamic_forward_same (self : Masksembles V) (inputs : tensor V) :
  Masksembles1DDynamicSize_forward self inputs = Masksembles1D_forward self inputs /\
  Masksembles2DDynamicSize_forward self inputs = Masksembles2D_forward self inputs.
Proof. split; reflexivity. Qed.

End Forward.

(** ** Claims about the apply operation *)

Section Apply.

Variable V : Type.
Context {SV : Scalar V}.

Lemma zip_with_map {A B C D : Type} (f : A -> B -> C) (a : D -> A) (b : D -> B) (l : list D) :
  zip_with f (map a l) (map b l) = map (fun x => f (a x) (b x)) l.
Proof. induction l as [|x l IH]; simpl; [reflexivity|]. now rewrite IH. Qed.

Lemma divisible_groups (N nn : nat) : N mod nn = 0 -> N = nn * (N / nn).
Proof. intros H. pose proof (Nat.div_mod_eq N nn). lia. Qed.

Lemma get_spec_apply (nn : nat) (masks inputs : tensor V) (idx : list nat) :
  in_bounds (shape inputs) idx ->
  get (spec_apply nn masks inputs) idx
  = masked (dtype_of inputs) (dtype_of masks) (get inputs idx)
      (get masks [nth 0 idx 0 / (dim_size inputs 0 / nn); nth 1 idx 0]).
Proof. intros Hb. unfold spec_apply. rewrite get_tabulated by exact Hb. reflexivity. Qed.

Lemma convert_zero (a b : dtype) : convert a b zero = zero.
Proof. unfold convert. destruct (dtype_eqb a b); [reflexivity | apply cast_zero]. Qed.

Lemma convert_one (a b : dtype) : convert a b one = one.
Proof. unfold convert. destruct (dtype_eqb a b); [reflexivity | apply cast_one]. Qed.

Lemma masked_zero (dx dm : dtype) (x : V) :
  mul (convert dx (promote_types dx dm) x) zero = zero -> masked dx dm x zero = zero.
Proof. intros H. unfold masked. now rewrite convert_zero, H, convert_zero. Qed.

End Apply.

(** C1.  [Masksembles1D.forward] on an [N, C] batch with [N] divisible by the
    number [n] of masks returns an [N, C] tensor whose row [j] is row [j] of
    the input multiplied elementwise by mask [j / (N / n)]: the groups are
    contiguous and in order.  With masks [[1,0],[0,1]] and four rows of ones
    the result is [[1,0],[1,0],[0,1],[0,1]]. *)
Theorem forward1D_rows_by_group :
  (forall (V : Type) (SV : Scalar V) (self : Masksembles V) (inputs : tensor V)
          (nn N C : nat),
      n self = Z.of_nat nn -> 0 < nn ->
      shape (masks self) = [nn; C] ->
      shape inputs = [N; C] ->
      N mod nn = 0 ->
      exists out,
        Masksembles1D_forward self inputs = ret out /\
        shape out = [N; C] /\
        forall j, j < N ->
          row out j
          = zip_with (masked (dtype_of inputs) (dtype_of (masks self)))
              (row inputs j) (row (masks self) (j / (N / nn))))
  /\ Masksembles1D_forward group_layer group_inputs = ret group_outputs.
Proof.
  split; [|vm_compute; reflexivity].
  intros V SV self inputs nn N C Hn Hnn Hm Hx Hdiv.
  exists (spec_apply nn (masks self) inputs).
  pose proof (divisible_groups N nn Hdiv) as HN.
  split; [|split].
  - apply (forward1D_spec V self inputs nn (N / nn) C); try assumption.
    rewrite <- HN. exact Hx.
  - unfold spec_apply. simpl. exact Hx.
  - intros j Hj. unfold row, dim_size.
    replace (shape (spec_apply nn (masks self) inputs)) with (shape inputs) by reflexivity.
    rewrite Hx, Hm. simpl nth. rewrite zip_with_map.
    apply map_ext_in. intros c Hc. apply in_seq in Hc.
    rewrite get_spec_apply by (rewrite Hx; simpl; lia).
    unfold dim_size. rewrite Hx. reflexivity.
Qed.

(** The worked example of C1, obtained from the general statement. *)
Lemma forward1D_rows_by_group_witness :
  exists out,
    Masksembles1D_forward group_layer group_inputs = ret out /\
    shape out = [4; 2] /\
    forall j, j < 4 ->
      row out j
      = zip_with (masked DFloat32 DFloat64)
          (row group_inputs j) (row group_masks (j / (4 / 2))).
Proof.
  apply (proj1 forward1D_rows_by_group Z Z_Scalar group_layer group_inputs 2 4 2);
    [reflexivity | lia | reflexivity | reflexivity | reflexivity].
Defined.

(** C2, as the claim has it, fails: a mask value 0 does not zero a position
    that holds an infinity.  With masks [[1,0],[0,1]] and an infinity in
    channel 1 of the first example, the output there is a NaN. *)
Lemma forward2D_infinity_counterexample :
  exists out,
    Masksembles2D_forward float_layer nonfinite_inputs = ret out /\
    get (masks float_layer) [0 / (2 / 2); 1] = zero /\
    get nonfinite_inputs [0; 1; 0; 0] = Infinite false /\
    get out [0; 1; 0; 0] = NaN /\
    get out [0; 1; 0; 0] <> zero.
Proof.
  eexists. split; [vm_compute; reflexivity|].
  repeat split; discriminate.
Qed.

(** C2, amended.  [Masksembles2D.forward] on an [N, C, H, W] batch with [N]
    divisible by [n] uses the same contiguous groups and broadcasts each mask
    over the spatial positions: the element at [(j, c, h, w)] is the input
    element multiplied by [masks[j / (N / n)][c]].  A mask value 0 for
    channel [c] therefore zeroes, for every example of the group, every
    position of that channel whose input value gives 0 when multiplied by 0:
    every finite value, but not an infinity or a NaN, where the result is a
    NaN. *)
Theorem forward2D_spatial_broadcast :
  (forall (V : Type) (SV : Scalar V) (self : Masksembles V) (inputs : tensor V)
          (nn N C H W : nat),
      n self = Z.of_nat nn -> 0 < nn ->
      shape (masks self) = [nn; C] ->
      shape inputs = [N; C; H; W] ->
      N mod nn = 0 ->
      exists out,
        Masksembles2D_forward self inputs = ret out /\
        shape out = [N; C; H; W] /\
        (forall j c h w, j < N -> c < C -> h < H -> w < W ->
           get out [j; c; h; w]
           = masked (dtype_of inputs) (dtype_of (masks self))
               (get inputs [j; c; h; w]) (get (masks self) [j / (N / nn); c])) /\
        (forall j c, j < N -> c < C ->
           get (masks self) [j / (N / nn); c] = zero ->
           forall h w, h < H -> w < W ->
             mul (convert (dtype_of inputs)
                    (promote_types (dtype_of inputs) (dtype_of (masks self)))
                    (get inputs [j; c; h; w])) zero = zero ->
             get out [j; c; h; w] = zero))
  /\ (exists out,
        Masksembles2D_forward float_layer nonfinite_inputs = ret out /\
        get (masks float_layer) [0; 1] = Finite 0 /\
        get nonfinite_inputs [0; 1; 0; 0] = Infinite false /\
        get out [0; 1; 0; 0] = NaN /\
        get (masks float_layer) [1; 0] = Finite 0 /\
        get nonfinite_inputs [1; 0; 0; 0] = NaN /\
        get out [1; 0; 0; 0] = NaN).
Proof.
  split; [|eexists; split; [vm_compute; reflexivity | repeat split]].
  intros V SV self inputs nn N C H W Hn Hnn Hm Hx Hdiv.
  exists (spec_apply nn (masks self) inputs).
  pose proof (divisible_groups N nn Hdiv) as HN.
  assert (Hget : forall j c h w, j < N -> c < C -> h < H -> w < W ->
            get (spec_apply nn (masks self) inputs) [j; c; h; w]
            = masked (dtype_of inputs) (dtype_of (masks self))
                (get inputs [j; c; h; w]) (get (masks self) [j / (N / nn); c])).
  { intros j c h w Hj Hc Hh Hw.
    rewrite get_spec_apply by (rewrite Hx; simpl; lia).
    unfold dim_size. rewrite Hx. reflexivity. }
  split; [|split; [|split]].
  - apply (forward2D_spec V self inputs nn (N / nn) C H W); try assumption.
    rewrite <- HN. exact Hx.
  - unfold spec_apply. simpl. exact Hx.
  - exact Hget.
  - intros j c Hj Hc Hmask h w Hh Hw Hzero.
    rewrite Hget by assumption. rewrite Hmask. apply masked_zero. exact Hzero.
Qed.

(** The amended C2 on two examples with 3 x 3 positions of integers and masks
    [[1,0],[0,1]]: the masked channel is zero at all 9 positions. *)
Lemma forward2D_spatial_broadcast_witness :
  exists out,
    Masksembles2D_forward group_layer spatial_inputs = ret out /\
    shape out = [2; 2; 3; 3] /\
    (forall j c h w, j < 2 -> c < 2 -> h < 3 -> w < 3 ->
       get out [j; c; h; w]
       = masked DFloat32 DFloat64
           (get spatial_inputs [j; c; h; w]) (get group_masks [j / (2 / 2); c])) /\
    (forall j c, j < 2 -> c < 2 ->
       get group_masks [j / (2 / 2); c] = 0%Z ->
       forall h w, h < 3 -> w < 3 -> get out [j; c; h; w] = 0%Z).
Proof.
  destruct (proj1 forward2D_spatial_broadcast Z Z_Scalar group_layer spatial_inputs
              2 2 2 3 3)
    as [out [Hrun [Hshape [Hget Hzero]]]];
    [reflexivity | lia | reflexivity | reflexivity | reflexivity |].
  exists out. repeat split; try assumption.
  intros j c Hj Hc Hmask h w Hh Hw.
  apply Hzero; try assumption. apply Z.mul_0_r.
Defined.

(** C3, as the claim has it, fails: a float64 batch comes back as float32. *)
Lemma forward_output_dtype_counterexample :
  exists out,
    Masksembles1D_forward group_layer group_inputs_double = ret out /\
    shape out = shape group_inputs_double /\
    dtype_of group_inputs_double = DFloat64 /\
    dtype_of out = DFloat32.
Proof.
  eexists. split; [vm_compute; reflexivity|]. repeat split.
Qed.

(** C3, amended.  On every valid pair (batch size divisible by [n], channel
    dimension equal to the mask width) both forward passes return a tensor of
    exactly the input's shape; its element type is float32 whatever the
    element type of the input, because the result goes through [.float()]. *)
Theorem forward_shape_preserved_dtype_float32 :
  forall (V : Type) (SV : Scalar V) (self : Masksembles V) (nn C : nat)
         (inputs1 : tensor V) (N1 : nat) (inputs2 : tensor V) (N2 H W : nat),
    n self = Z.of_nat nn -> 0 < nn ->
    shape (masks self) = [nn; C] ->
    shape inputs1 = [N1; C] -> N1 mod nn = 0 ->
    shape inputs2 = [N2; C; H; W] -> N2 mod nn = 0 ->
    (exists out,
        Masksembles1D_forward self inputs1 = ret out /\
        shape out = shape inputs1 /\ dtype_of out = DFloat32)
    /\
    (exists out,
        Masksembles2D_forward self inputs2 = ret out /\
        shape out = shape inputs2 /\ dtype_of out = DFloat32).
Proof.
  intros V SV self nn C inputs1 N1 inputs2 N2 H W Hn Hnn Hm Hx1 Hdiv1 Hx2 Hdiv2. split.
  - exists (spec_apply nn (masks self) inputs1). split; [|split; reflexivity].
    pose proof (divisible_groups N1 nn Hdiv1) as HN.
    apply (forward1D_spec V self inputs1 nn (N1 / nn) C); try assumption.
    rewrite <- HN. exact Hx1.
  - exists (spec_apply nn (masks self) inputs2). split; [|split; reflexivity].
    pose proof (divisible_groups N2 nn Hdiv2) as HN.
    apply (forward2D_spec V self inputs2 nn (N2 / nn) C H W); try assumption.
    rewrite <- HN. exact Hx2.
Qed.

(** The amended C3 on the layer with masks [[1,0],[0,1]], a float64 batch of
    four rows and a float32 batch of two 3 x 3 examples. *)
Lemma forward_shape_preserved_dtype_float32_witness :
  (exists out,
      Masksembles1D_forward group_layer group_inputs_double = ret out /\
      shape out = shape group_inputs_double /\ dtype_of out = DFloat32)
  /\
  (exists out,
      Masksembles2D_forward group_layer spatial_inputs = ret out /\
      shape out = shape spatial_inputs /\ dtype_of out = DFloat32).
Proof.
  apply (forward_shape_preserved_dtype_float32 Z Z_Scalar group_layer 2 2
           group_inputs_double 4 spatial_inputs 2 3 3);
    [reflexivity | lia | reflexivity | reflexivity | reflexivity
    | reflexivity | reflexivity].
Defined.

(** ** Batches the masks do not divide *)

Section NotDivisible.

Variable V : Type.
Context {SV : Scalar V}.

Lemma raises_raise {A : Type} (P : exn -> Prop) (e : exn) :
  P e -> raises P (@raise A e).
Proof. intros H. exists e. split; [reflexivity | exact H]. Qed.

Lemma raises_bind {A B : Type} (P : exn -> Prop) (m : result A) (k : A -> result B) :
  raises P m -> raises P (bind m k).
Proof. intros [e [-> H]]. exists e. split; [reflexivity | exact H]. Qed.


Lemma split_general (t : tensor V) (d0 s : nat) (rest : list nat) :
  shape t = d0 :: rest -> 0 < s ->
  split t (Z.of_nat s) 0
  = ret (map (fun i => narrow t 0 (i * s)
                         (if i <? Nat.max ((d0 + s - 1) / s) 1 - 1 then s
                          else s - (s * Nat.max ((d0 + s - 1) / s) 1 - d0)))
             (seq 0 (Nat.max ((d0 + s - 1) / s) 1))).
Proof.
  intros H Hs. unfold split. rewrite H. simpl nth_error.
  destruct (Z.ltb_spec (Z.of_nat s) 0) as [Hlt|_]; [lia|].
  destruct (Z.eqb_spec (Z.of_nat s) 0) as [He|_]; [lia|]. simpl andb.
  rewrite Nat2Z.id.
  destruct (Nat.eqb_spec s 0) as [He|_]; [lia|]. reflexivity.
Qed.

Lemma ceil_div_uneven (d0 s : nat) :
  0 < s -> d0 mod s <> 0 -> (d0 + s - 1) / s = S (d0 / s).
Proof.
  intros Hs Hr. symmetry. apply (Nat.div_unique _ _ _ (d0 mod s - 1)).
  - pose proof (Nat.mod_upper_bound d0 s). lia.
  - pose proof (Nat.div_mod_eq d0 s). lia.
Qed.

Lemma ceil_div_even (d0 s : nat) :
  0 < s -> d0 mod s = 0 -> (d0 + s - 1) / s = d0 / s.
Proof.
  intros Hs Hr. symmetry. apply (Nat.div_unique _ _ _ (s - 1)).
  - lia.
  - pose proof (Nat.div_mod_eq d0 s). lia.
Qed.

Lemma broadcast_dim_mismatch (a b : nat) :
  a <> b -> a <> 1 -> b <> 1 -> broadcast_dim a b = None.
Proof.
  intros H1 H2 H3. unfold broadcast_dim.
  destruct (Nat.eqb_spec a b); [contradiction|].
  destruct (Nat.eqb_spec a 1); [contradiction|].
  destruct (Nat.eqb_spec b 1); [contradiction|]. reflexivity.
Qed.

(** The first half of [forward] (up to the first [cat]) on a batch of [N]
    rows with [N] not a multiple of [nn]: it raises, or it delivers
    [k <> nn] groups with [k > 1]. *)
Lemma regroup_not_divisible (inputs : tensor V) (N nn : nat) (rest : list nat)
    (K : tensor V -> result (tensor V)) :
  shape inputs = N :: rest -> N mod nn <> 0 ->
  (forall x3 g k, shape x3 = g :: k :: rest ->
                  k <> nn -> k <> 1 -> nn <> 1 -> nn <> 0 ->
                  raises (shape_error nn) (K x3)) ->
  raises (shape_error nn)
         (batch <- shape_at inputs 0 ;;
          u <- unsqueeze inputs 1 ;;
          g <- floordiv (Z.of_nat batch) (Z.of_nat nn) ;;
          x <- split u g 0 ;;
          x <- cat x 1 ;;
          K x).
Proof.
  intros Hx Hdiv HK.
  rewrite (shape_at0 _ inputs N rest Hx), bind_ret.
  rewrite (unsqueeze1 _ inputs N rest Hx), bind_ret.
  set (u := mkTensor (dtype_of inputs) (N :: 1 :: rest) (data inputs)).
  destruct (Nat.eq_dec nn 0) as [->|Hnn].
  { apply raises_bind. apply raises_raise. reflexivity. }
  assert (Herr : shape_error nn RuntimeError).
  { unfold shape_error. destruct (Nat.eqb_spec nn 0); [contradiction | reflexivity]. }
  assert (Hnn1 : nn <> 1) by (intros ->; rewrite Nat.mod_1_r in Hdiv; lia).
  assert (HN : N <> 0) by (intros ->; rewrite Nat.Div0.mod_0_l in Hdiv; lia).
  unfold floordiv.
  destruct (Z.eqb_spec (Z.of_nat nn) 0) as [He|_]; [lia|]. rewrite bind_ret.
  rewrite <- Nat2Z.inj_div.
  set (g := N / nn).
  pose proof (Nat.div_mod_eq N nn) as Hdm. fold g in Hdm.
  pose proof (Nat.mod_upper_bound N nn Hnn) as Hub.
  destruct (Nat.eq_dec g 0) as [Hg|Hg].
  { apply raises_bind. unfold split. simpl. rewrite Hg. simpl.
    destruct (Nat.eqb_spec N 0); [contradiction|]. apply raises_raise. exact Herr. }
  assert (HgN : g < N) by nia.
  rewrite (split_general u N g (1 :: rest) eq_refl) by lia. rewrite bind_ret.
  pose proof (Nat.div_mod_eq N g) as Hdg.
  pose proof (Nat.mod_upper_bound N g Hg) as Hug.
  assert (Hq1 : 1 <= N / g).
  { apply Nat.div_le_lower_bound; lia. }
  destruct (Nat.eq_dec (N mod g) 0) as [Heven|Huneven].
  - rewrite ceil_div_even by lia. rewrite Nat.max_l by lia.
    set (k := N / g) in *.
    assert (Hmap : map (fun i => narrow u 0 (i * g)
                        (if i <? k - 1 then g else g - (g * k - N))) (seq 0 k)
                   = map (fun i => narrow u 0 (i * g) g) (seq 0 k)).
    { apply map_ext_in. intros i _.
      replace (g - (g * k - N)) with g by lia. destruct (i <? k - 1); reflexivity. }
    rewrite Hmap.
    rewrite (cat_uniform _ (fun i => narrow u 0 (i * g) g) k (dtype_of inputs) (g :: 1 :: rest) 1);
      [ | lia | simpl; lia | reflexivity | reflexivity ].
    rewrite bind_ret. apply (HK _ g (k * 1)).
    + reflexivity.
    + intros Hk. apply Hdiv. rewrite Nat.mul_1_r in Hk. rewrite Hk in Hdg. nia.
    + nia.
    + exact Hnn1.
    + exact Hnn.
  - rewrite ceil_div_uneven by lia. rewrite Nat.max_l by lia.
    set (k := N / g) in *.
    apply raises_bind.
    change (seq 0 (S k)) with (0 :: seq 1 k). rewrite map_cons.
    unfold cat.
    replace (negb (1 <? rank (narrow u 0 (0 * g) (if 0 <? S k - 1 then g else g - (g * S k - N)))))
      with false by reflexivity.
    cbv iota.
    match goal with
    | |- raises _ (if forallb ?P ?l then _ else _) => destruct (forallb P l) eqn:E
    end; [|apply raises_raise; exact Herr].
    exfalso. rewrite forallb_forall in E.
    specialize (E (narrow u 0 (k * g) (if k <? S k - 1 then g else g - (g * S k - N)))).
    assert (Hin : In (narrow u 0 (k * g) (if k <? S k - 1 then g else g - (g * S k - N)))
                     (map (fun i => narrow u 0 (i * g)
                                      (if i <? S k - 1 then g else g - (g * S k - N)))
                          (seq 1 k))).
    { apply in_map_iff. exists k. split; [reflexivity|]. apply in_seq. lia. }
    specialize (E Hin). simpl in E.
    destruct (Nat.ltb_spec 0 (k - 0)) as [_|Hk0]; [|lia].
    destruct (Nat.ltb_spec k (k - 0)) as [Hlt|_]; [lia|].
    simpl in E. apply andb_prop in E. destruct E as [E _].
    apply Nat.eqb_eq in E. nia.
Qed.

Lemma broadcast_leading_mismatch (k nn : nat) (s1 s2 : list nat) :
  k <> nn -> k <> 1 -> nn <> 1 -> length s1 = length s2 ->
  broadcast_shapes (k :: s1) (nn :: s2) = None.
Proof.
  intros H1 H2 H3 Hlen. unfold broadcast_shapes. simpl rev.
  assert (Hrev : forall a b : list nat, length a = length b ->
            broadcast_rev (a ++ [k]) (b ++ [nn]) = None).
  { induction a as [|x a IH]; intros [|y b] Hl; simpl in Hl; try discriminate.
    - simpl. now rewrite broadcast_dim_mismatch.
    - simpl. rewrite IH by lia.
      destruct (a ++ [k]), (b ++ [nn]), (broadcast_dim x y); reflexivity. }
  rewrite Hrev by (rewrite !length_rev; exact Hlen). reflexivity.
Qed.

End NotDivisible.

(** C5.  When the batch size [N] is not a multiple of the number of masks,
    the apply operation raises and returns no tensor: torch rejects the
    shapes with a [RuntimeError] (the division by [n] itself fails when the
    layer holds no mask). *)
Theorem forward_not_divisible_raises :
  forall (V : Type) (SV : Scalar V) (self : Masksembles V) (inputs : tensor V)
         (nn size N : nat) (rest : list nat),
    n self = Z.of_nat nn ->
    shape (masks self) = [nn; size] ->
    shape inputs = N :: rest ->
    N mod nn <> 0 ->
    raises (shape_error nn) (Masksembles1D_forward self inputs) /\
    raises (shape_error nn) (Masksembles2D_forward self inputs).
Proof.
  intros V SV self inputs nn size N rest Hn Hm Hx Hdiv.
  assert (Herr : nn <> 0 -> shape_error nn RuntimeError).
  { intros H. unfold shape_error. destruct (Nat.eqb_spec nn 0); [contradiction | reflexivity]. }
  split.
  - unfold Masksembles1D_forward. rewrite Hn.
    apply (regroup_not_divisible V inputs N nn rest); [exact Hx | exact Hdiv |].
    intros x3 g k Hx3 Hk Hk1 Hnn1 Hnn0.
    destruct rest as [|C [|D rest']].
    + apply raises_bind. unfold permute, rank. rewrite Hx3.
      apply raises_raise, Herr, Hnn0.
    + rewrite (permute_102 _ x3 g k C Hx3), bind_ret.
      rewrite (unsqueeze1 _ (masks self) nn [size] Hm), bind_ret.
      apply raises_bind. unfold tensor_mul. simpl shape.
      rewrite broadcast_leading_mismatch by (assumption || reflexivity).
      apply raises_raise, Herr, Hnn0.
    + apply raises_bind. unfold permute, rank. rewrite Hx3.
      apply raises_raise, Herr, Hnn0.
  - unfold Masksembles2D_forward. rewrite Hn.
    apply (regroup_not_divisible V inputs N nn rest); [exact Hx | exact Hdiv |].
    intros x3 g k Hx3 Hk Hk1 Hnn1 Hnn0.
    destruct rest as [|C [|H [|W [|D rest']]]];
      try (apply raises_bind; unfold permute, rank; rewrite Hx3;
           apply raises_raise, Herr, Hnn0).
    rewrite (permute_10234 _ x3 g k C H W Hx3), bind_ret.
    rewrite (unsqueeze1 _ (masks self) nn [size] Hm), bind_ret.
    rewrite unsqueeze_last, bind_ret, unsqueeze_last, bind_ret.
    apply raises_bind. unfold tensor_mul. simpl shape. simpl app.
    rewrite broadcast_leading_mismatch by (assumption || reflexivity).
    apply raises_raise, Herr, Hnn0.
Qed.

(** C5 on three rows of ones and the layer with two masks. *)
Lemma forward_not_divisible_raises_witness :
  raises (shape_error 2)
    (Masksembles1D_forward group_layer (tensor_of_rows DFloat32 [[1; 1]; [1; 1]; [1; 1]]%Z)) /\
  raises (shape_error 2)
    (Masksembles2D_forward group_layer (tensor_of_rows DFloat32 [[1; 1]; [1; 1]; [1; 1]]%Z)).
Proof.
  apply (forward_not_divisible_raises Z Z_Scalar group_layer
           (tensor_of_rows DFloat32 [[1; 1]; [1; 1]; [1; 1]]%Z) 2 2 3 [2]);
    [reflexivity | reflexivity | reflexivity | simpl; lia].
Defined.

(** ** Construction *)

Section ConstructionFacts.

Variable V : Type.
Context {SV : Scalar V}.

Lemma normalize_index_nat (i d : nat) :
  i < d -> normalize_index (Z.of_nat i) d = ret i.
Proof.
  intros H. unfold normalize_index.
  assert (Hr : ((- Z.of_nat d <=? Z.of_nat i) && (Z.of_nat i <? Z.of_nat d))%Z = true).
  { apply andb_true_intro. split; [apply Z.leb_le | apply Z.ltb_lt]; lia. }
  rewrite Hr.
  destruct (Z.ltb_spec (Z.of_nat i) 0) as [Hlt|_]; [lia|].
  rewrite Nat2Z.id. reflexivity.
Qed.

Lemma getitem_row (M : tensor V) (d0 i : nat) (sh : list nat) :
  shape M = d0 :: sh -> i < d0 ->
  getitem M (Z.of_nat i)
  = ret (mkTensor (dtype_of M) sh (tabulate sh (fun idx => get M (i :: idx)))).
Proof.
  intros H Hi. unfold getitem. rewrite H, normalize_index_nat by exact Hi. reflexivity.
Qed.

Lemma broadcast_shapes_vector (C : nat) : broadcast_shapes [C] [C] = Some [C].
Proof. unfold broadcast_shapes. simpl. now rewrite broadcast_dim_same. Qed.

Lemma nonzero_convert_double (d : dtype) (v : V) :
  nonzero (convert d DFloat64 v) = nonzero v.
Proof.
  unfold convert. destruct (dtype_eqb d DFloat64); [reflexivity|].
  apply nonzero_cast_double.
Qed.

Lemma convert_bool_value (a b : dtype) (t : bool) :
  convert a b (if t then one else zero) = (if t then one else zero) :> V.
Proof. destruct t; [apply convert_one | apply convert_zero]. Qed.

(** One round of the nesting loop on a matrix. *)
Lemma nest_body_row (M : tensor V) (nn C k : nat) :
  shape M = [nn; C] -> S k < nn ->
  nest_body (Z.of_nat (S k)) M
  = ret (mkTensor (dtype_of M) [nn; C]
           (tabulate [nn; C] (fun idx =>
              if nth 0 idx 0 =? S k
              then (if nonzero (get M [S k; nth 1 idx 0]) || nonzero (get M [k; nth 1 idx 0])
                    then one else zero)
              else get M idx))).
Proof.
  intros Hsh Hk. unfold nest_body.
  rewrite (getitem_row M nn (S k) [C] Hsh Hk), bind_ret.
  replace (Z.of_nat (S k) - 1)%Z with (Z.of_nat k) by lia.
  rewrite (getitem_row M nn k [C] Hsh) by lia. rewrite bind_ret.
  unfold logical_or. simpl shape. rewrite broadcast_shapes_vector, bind_ret.
  unfold setitem. rewrite Hsh, normalize_index_nat by exact Hk. rewrite bind_ret.
  simpl shape. rewrite broadcast_shapes_vector. simpl list_eqb.
  rewrite Nat.eqb_refl. simpl andb. cbv iota.
  f_equal. f_equal. apply tabulate_ext.
  intros [|i [|c [|? ?]]] Hb; simpl in Hb; try tauto.
  destruct Hb as [Hi [Hc _]]. simpl nth.
  destruct (i =? S k); [|reflexivity].
  rewrite get_to_dtype. simpl dtype_of.
  unfold broadcast_index. simpl skipn. simpl zip_with.
  rewrite unit_or_index by exact Hc.
  rewrite get_tabulated by (simpl; lia).
  cbn [broadcast_index skipn length Nat.sub zip_with].
  rewrite unit_or_index by exact Hc.
  rewrite !get_tabulated by (simpl; lia).
  apply convert_bool_value.
Qed.

Lemma nest_invariant_init (raw : tensor V) (nn C : nat) :
  shape raw = [nn; C] -> nest_invariant raw nn C 0 raw.
Proof.
  intros H. repeat split; try assumption.
  intros i c Hi Hc. destruct (Nat.leb_spec i 0) as [Hle|_]; [|reflexivity].
  replace i with 0 by lia. reflexivity.
Qed.

Lemma nest_invariant_step (raw M : tensor V) (nn C k : nat) :
  nest_invariant raw nn C k M -> S k < nn ->
  exists M', nest_body (Z.of_nat (S k)) M = ret M' /\ nest_invariant raw nn C (S k) M'.
Proof.
  intros [Hd [Hsh Hget]] Hk.
  eexists. split; [apply (nest_body_row M nn C k Hsh Hk)|].
  repeat split; try assumption.
  intros i c Hi Hc. rewrite get_tabulated by (simpl; lia). simpl nth.
  destruct (Nat.eqb_spec i (S k)) as [->|Hne].
  - rewrite Nat.leb_refl. rewrite !Hget by lia.
    destruct (Nat.leb_spec (S k) k) as [Hle|_]; [lia|].
    rewrite Nat.leb_refl. reflexivity.
  - rewrite Hget by assumption.
    destruct (Nat.leb_spec i k), (Nat.leb_spec i (S k)); try reflexivity; lia.
Qed.

Lemma nest_loop (raw : tensor V) (nn C : nat) :
  forall (len s : nat) (M : tensor V),
    nest_invariant raw nn C s M -> s + len < nn ->
    exists M',
      for_each (map (fun k => (1 + Z.of_nat k)%Z) (seq s len)) (@nest_body V SV) M = ret M' /\
      nest_invariant raw nn C (s + len) M'.
Proof.
  induction len as [|len IH]; intros s M Hinv Hlen.
  - exists M. split; [reflexivity|]. now rewrite Nat.add_0_r.
  - cbn [seq map for_each].
    replace (1 + Z.of_nat s)%Z with (Z.of_nat (S s)) by lia.
    destruct (nest_invariant_step raw M nn C s Hinv) as [M1 [Hrun Hinv1]]; [lia|].
    rewrite Hrun, bind_ret.
    destruct (IH (S s) M1 Hinv1) as [M' [Hrun' Hinv']]; [lia|].
    exists M'. split; [exact Hrun'|].
    replace (s + S len) with (S s + len) by lia. exact Hinv'.
Qed.

Lemma nest_correct (raw : tensor V) (nn C : nat) :
  shape raw = [nn; C] ->
  exists M,
    nest (Z.of_nat nn) raw = ret M /\
    dtype_of M = dtype_of raw /\
    shape M = [nn; C] /\
    forall i c, i < nn -> c < C -> get M [i; c] = nested_value raw i c.
Proof.
  intros Hsh. unfold nest, range.
  destruct nn as [|nn'].
  - exists raw. simpl. repeat split; try assumption. intros; lia.
  - replace (Z.to_nat (Z.of_nat (S nn') - 1)) with nn' by lia.
    destruct (nest_loop raw (S nn') C nn' 0 raw (nest_invariant_init raw (S nn') C Hsh))
      as [M [Hrun [Hd [HshM Hget]]]]; [lia|].
    exists M. repeat split; try assumption.
    intros i c Hi Hc. rewrite Hget by assumption. simpl.
    destruct (Nat.leb_spec i nn'); [reflexivity | lia].
Qed.

(** *** [np.zeros], [np.ones] *)

Lemma np_full_ok (v : V) (a b : Z) :
  (0 <= a)%Z -> (0 <= b)%Z ->
  np_full v [a; b] = ret (full_matrix v (Z.to_nat a) (Z.to_nat b)).
Proof.
  intros Ha Hb. unfold np_full, full_matrix. simpl forallb.
  destruct (Z.leb_spec 0 a); [|lia]. destruct (Z.leb_spec 0 b); [|lia].
  simpl. rewrite Nat.mul_1_r. reflexivity.
Qed.

Lemma np_full_negative (v : V) (a b : Z) :
  (a < 0)%Z \/ (b < 0)%Z -> np_full v [a; b] = raise ValueError.
Proof.
  intros H. unfold np_full. simpl forallb.
  destruct (Z.leb_spec 0 a); [|reflexivity].
  destruct (Z.leb_spec 0 b); [lia | reflexivity].
Qed.


Lemma get_full_matrix (v : V) (a b i c : nat) :
  i < a -> c < b -> get (full_matrix v a b) [i; c] = v.
Proof.
  intros Hi Hc. unfold get, full_matrix. simpl.
  rewrite (nth_indep _ zero v) by (rewrite repeat_length; nia).
  apply nth_repeat.
Qed.

Lemma tabulated_full_matrix (f : list nat -> V) (v : V) (a b : nat) :
  (forall idx, in_bounds [a; b] idx -> f idx = v) ->
  mkTensor DFloat64 [a; b] (tabulate [a; b] f) = full_matrix v a b.
Proof.
  intros H. unfold full_matrix. f_equal.
  rewrite (tabulate_ext _ f (fun _ => v) H), tabulate_const.
  simpl. rewrite Nat.mul_1_r. reflexivity.
Qed.

Lemma nest_body_ones (nn C k : nat) :
  S k < nn ->
  nest_body (Z.of_nat (S k)) (full_matrix one nn C) = ret (full_matrix one nn C).
Proof.
  intros Hk. rewrite (nest_body_row (full_matrix one nn C) nn C k eq_refl Hk).
  f_equal. apply tabulated_full_matrix.
  intros [|i [|c [|? ?]]] Hb; simpl in Hb; try tauto.
  destruct Hb as [Hi [Hc _]]. simpl nth.
  rewrite !get_full_matrix by lia. rewrite nonzero_one. simpl.
  destruct (i =? S k); reflexivity.
Qed.

Lemma nest_ones (nn C : nat) :
  nest (Z.of_nat nn) (full_matrix one nn C) = ret (full_matrix one nn C).
Proof.
  unfold nest, range.
  assert (Hloop : forall len s, s + len < nn ->
            for_each (map (fun k => (1 + Z.of_nat k)%Z) (seq s len)) (@nest_body V SV)
              (full_matrix one nn C) = ret (full_matrix one nn C)).
  { induction len as [|len IH]; intros s Hs; [reflexivity|].
    cbn [seq map for_each].
    replace (1 + Z.of_nat s)%Z with (Z.of_nat (S s)) by lia.
    rewrite nest_body_ones by lia. rewrite bind_ret. apply IH. lia. }
  destruct nn as [|nn']; [reflexivity|].
  replace (Z.to_nat (Z.of_nat (S nn') - 1)) with nn' by lia.
  apply Hloop. lia.
Qed.

(** *** The size formula *)

Lemma round64_Qeq (x y : Q) : (x == y)%Q -> round64 x = round64 y.
Proof.
  intros H. unfold round64, round_float. rewrite (Qred_complete x y H). reflexivity.
Qed.

Lemma py_int_of_integer (x : Q) (c : Z) :
  (x == inject_Z c)%Q -> py_int (Finite x) = ret c.
Proof.
  unfold Qeq, py_int, truncate. simpl. intros H. rewrite Z.mul_1_r in H. rewrite H.
  f_equal. apply Z.quot_mul. discriminate.
Qed.

Lemma scale_is_not_zero (scale : Q) : (scale == 1)%Q -> Qeq_bool scale 0 = false.
Proof.
  intros Hs. apply not_true_is_false. intros H. apply Qeq_bool_iff in H.
  rewrite Hs in H. discriminate.
Qed.

(** At [scale == 1] the quotient [1 / scale] is 1.0 and the product
    [channels * scale] is [channels]. *)
Lemma truediv_scale_one (scale : Q) :
  (scale == 1)%Q -> py_truediv 1 scale = ret (Finite 1).
Proof.
  intros Hs. unfold py_truediv. rewrite (scale_is_not_zero scale Hs).
  rewrite (round64_Qeq (1 / scale) 1); [reflexivity|].
  rewrite Hs. reflexivity.
Qed.

Lemma width_scale_one (channels : Z) (scale : Q) :
  (scale == 1)%Q ->
  py_mul (float_of_int channels) (Finite scale) = Finite (inject_Z channels).
Proof.
  intros Hs. unfold py_mul, float_of_int. apply Qeq_bool_iff in Hs. rewrite Hs.
  reflexivity.
Qed.

Lemma py_mul_one_r (x : Q) : py_mul (Finite x) (Finite 1) = Finite x.
Proof. reflexivity. Qed.

Lemma py_mul_zero_r (x : Q) : py_mul (Finite x) (Finite 0) = Finite 0.
Proof.
  unfold py_mul. change (Qeq_bool 0 1) with false. cbv iota.
  destruct (Qeq_bool x 1); [reflexivity|].
  rewrite (round64_Qeq (x * 0) 0); [reflexivity | ring].
Qed.

Lemma py_pow_zero (libm_pow : Q -> Z -> option Q) (k : Z) :
  (1 <= k)%Z -> py_pow libm_pow (Finite 0) k = ret (Finite 0).
Proof.
  intros Hk. unfold py_pow.
  destruct (Z.eqb_spec k 0) as [H0|_]; [lia|].
  change (Qeq_bool 0 0) with true. cbv iota.
  destruct (Z.ltb_spec k 0) as [Hlt|_]; [lia | reflexivity].
Qed.

Lemma expected_size_scale_one (libm_pow : Q -> Z -> option Q)
    (channels n : Z) (scale : Q) :
  (scale == 1)%Q -> (1 <= n)%Z ->
  compute_expected_size libm_pow channels n scale = ret channels.
Proof.
  intros Hs Hn. unfold compute_expected_size.
  rewrite (width_scale_one channels scale Hs), (truediv_scale_one scale Hs), bind_ret.
  change (py_sub 1 (Finite 1)) with (Finite 0).
  rewrite (py_pow_zero libm_pow n Hn), bind_ret.
  change (py_sub 1 (Finite 0)) with (Finite 1).
  rewrite py_mul_one_r. apply py_int_of_integer. reflexivity.
Qed.

Lemma expected_size_scale_zero (libm_pow : Q -> Z -> option Q)
    (channels n : Z) (scale : Q) :
  (scale == 0)%Q ->
  compute_expected_size libm_pow channels n scale = raise ZeroDivisionError.
Proof.
  intros Hs. unfold compute_expected_size, py_truediv.
  apply Qeq_bool_iff in Hs. rewrite Hs. reflexivity.
Qed.

End ConstructionFacts.

Section NestedConstruction.

Variable V : Type.
Context {SV : Scalar V}.

Lemma nested_from_nest (raw : tensor V) (nn C : nat) (channels n : Z) (scale : Q) :
  n = Z.of_nat nn -> shape raw = [nn; C] ->
  nested_from raw nn C
    (masks <- nest n raw ;;
     ret (mkMasksembles channels n scale None (double masks))).
Proof.
  intros -> Hsh.
  destruct (nest_correct V raw nn C Hsh) as [M [Hrun [Hd [HshM Hget]]]].
  rewrite Hrun, bind_ret.
  assert (HgetD : forall i c, i < nn -> c < C ->
            get (double M) [i; c] = convert (dtype_of raw) DFloat64 (nested_value raw i c)).
  { intros i c Hi Hc. unfold double. rewrite get_to_dtype, Hd, Hget by assumption.
    reflexivity. }
  assert (Hstep : forall i c, 1 <= i < nn -> c < C ->
            get (double M) [i; c]
            = if nonzero (get (double raw) [i; c]) || nonzero (get (double M) [i - 1; c])
              then one else zero).
  { intros i c Hi Hc. rewrite !HgetD by lia.
    unfold double at 1. rewrite get_to_dtype, !nonzero_convert_double.
    destruct i as [|i]; [lia|]. replace (S i - 1) with i by lia.
    simpl nested_value. apply convert_bool_value. }
  eexists. split; [reflexivity|]. simpl masks.
  split; [|split; [|split]].
  - unfold double. rewrite shape_to_dtype. exact HshM.
  - intros c Hc. destruct nn as [|nn'].
    + unfold double, get. rewrite !shape_to_dtype, HshM, Hsh. 
      simpl in Hrun. injection Hrun as <-. reflexivity.
    + rewrite HgetD by lia. unfold double. rewrite get_to_dtype. reflexivity.
  - exact Hstep.
  - intros i c Hi Hc Hprev. rewrite Hstep by assumption.
    rewrite Hprev, orb_true_r. apply nonzero_one.
Qed.

End NestedConstruction.

(** C4.  Construction of a fixed-size layer with [generate] and [nested] on
    turns the raw matrix into its cumulative or: mask 0 is the raw mask 0,
    mask [i >= 1] is [logical_or(raw mask i, mask i - 1)] taken in increasing
    order of [i], and so every channel active in mask [i - 1] is active in
    mask [i].  The raw matrix is the generator's, or all ones for the 1D layer
    at scale 1. *)
Theorem nested_masks_are_cumulative_or :
  forall (V : Type) (SV : Scalar V)
         (common_generation_wrapper : Z -> Z -> Q -> result (tensor V))
         (channels n : Z) (scale : Q) (raw2 raw1 : tensor V) (nn C2 C1 : nat),
    n = Z.of_nat nn ->
    common_generation_wrapper channels n scale = ret raw2 ->
    shape raw2 = [nn; C2] ->
    (if Qeq_bool scale 1 then np_ones (V:=V) [n; channels]
     else common_generation_wrapper channels n scale) = ret raw1 ->
    shape raw1 = [nn; C1] ->
    nested_from raw2 nn C2
      (Masksembles2D_init common_generation_wrapper channels n scale true true) /\
    nested_from raw1 nn C1
      (Masksembles1D_init common_generation_wrapper channels n scale true true).
Proof.
  intros V SV gen channels n scale raw2 raw1 nn C2 C1 Hn Hg2 Hs2 Hg1 Hs1. split.
  - unfold Masksembles2D_init. rewrite Hg2, bind_ret. unfold from_numpy.
    apply nested_from_nest; assumption.
  - unfold Masksembles1D_init. rewrite Hg1, bind_ret. unfold from_numpy.
    apply nested_from_nest; assumption.
Qed.

(** C4 on the generator that returns the 3 x 3 identity. *)
Lemma nested_masks_are_cumulative_or_witness :
  nested_from (tensor_of_rows DFloat64 [[1; 0; 0]; [0; 1; 0]; [0; 0; 1]]%Z) 3 3
    (Masksembles2D_init diagonal_generator 3 3 (2 # 1) true true) /\
  nested_from (tensor_of_rows DFloat64 [[1; 0; 0]; [0; 1; 0]; [0; 0; 1]]%Z) 3 3
    (Masksembles1D_init diagonal_generator 3 3 (2 # 1) true true).
Proof.
  apply (nested_masks_are_cumulative_or Z Z_Scalar diagonal_generator 3 3 (2 # 1)
           (tensor_of_rows DFloat64 [[1; 0; 0]; [0; 1; 0]; [0; 0; 1]]%Z)
           (tensor_of_rows DFloat64 [[1; 0; 0]; [0; 1; 0]; [0; 0; 1]]%Z) 3 3 3);
    reflexivity.
Defined.

Section ConstructionCases.

Variable V : Type.
Context {SV : Scalar V}.

Variable common_generation_wrapper : Z -> Z -> Q -> result (tensor V).
Variable common_generate_masks : Z -> Z -> Q -> result (tensor V).
Variable libm_pow : Q -> Z -> option Q.

Lemma fixed_init_without_generation (channels n : Z) (scale : Q) (nested : bool) :
  (0 <= n)%Z -> (0 <= channels)%Z ->
  Masksembles1D_init common_generation_wrapper channels n scale false nested
  = ret (mkMasksembles channels n scale None
           (full_matrix zero (Z.to_nat n) (Z.to_nat channels))) /\
  Masksembles2D_init common_generation_wrapper channels n scale false nested
  = ret (mkMasksembles channels n scale None
           (full_matrix zero (Z.to_nat n) (Z.to_nat channels))).
Proof.
  intros Hn Hc. unfold Masksembles1D_init, Masksembles2D_init, np_zeros.
  rewrite np_full_ok by assumption. split; reflexivity.
Qed.

Lemma fixed_init_negative (channels n : Z) (scale : Q) (nested : bool) :
  (n < 0)%Z \/ (channels < 0)%Z ->
  Masksembles1D_init common_generation_wrapper channels n scale false nested = raise ValueError /\
  Masksembles2D_init common_generation_wrapper channels n scale false nested = raise ValueError.
Proof.
  intros H. unfold Masksembles1D_init, Masksembles2D_init, np_zeros.
  rewrite np_full_negative by assumption. split; reflexivity.
Qed.

Lemma dynamic_init_without_generation (channels n size : Z) (scale : Q) :
  compute_expected_size libm_pow channels n scale = ret size ->
  (0 <= n)%Z -> (0 <= size)%Z ->
  Masksembles1DDynamicSize_init common_generate_masks libm_pow channels n scale false
  = ret (mkMasksembles channels n scale (Some size)
           (full_matrix zero (Z.to_nat n) (Z.to_nat size))) /\
  Masksembles2DDynamicSize_init common_generate_masks libm_pow channels n scale false
  = ret (mkMasksembles channels n scale (Some size)
           (full_matrix zero (Z.to_nat n) (Z.to_nat size))).
Proof.
  intros Hsize Hn Hs.
  unfold Masksembles1DDynamicSize_init, Masksembles2DDynamicSize_init, np_zeros.
  rewrite Hsize, bind_ret, np_full_ok by assumption. split; reflexivity.
Qed.

Lemma dynamic_init_scale_zero (channels n : Z) (scale : Q) (generate_masks : bool) :
  (scale == 0)%Q ->
  Masksembles1DDynamicSize_init common_generate_masks libm_pow channels n scale generate_masks
  = raise ZeroDivisionError /\
  Masksembles2DDynamicSize_init common_generate_masks libm_pow channels n scale generate_masks
  = raise ZeroDivisionError.
Proof.
  intros Hs. unfold Masksembles1DDynamicSize_init, Masksembles2DDynamicSize_init.
  rewrite expected_size_scale_zero by exact Hs. split; reflexivity.
Qed.

End ConstructionCases.

(** C6, as the claim has it, fails: no constructor checks its parameters.
    [n = 0] and [channels = 0] construct an empty matrix, and a generator
    that returns a 1 x 1 matrix for [n = 2], [channels = 4] is accepted, by
    the fixed-size and by the dynamic-size constructor (whose own size is 6). *)
Lemma construction_unchecked_counterexample :
  Masksembles1D_init failing_generator 4 0 (2 # 1) false false
  = ret (mkMasksembles 4 0 (2 # 1) None (mkTensor DFloat64 [0; 4] [])) /\
  Masksembles1D_init failing_generator 0 2 (2 # 1) false false
  = ret (mkMasksembles 0 2 (2 # 1) None (mkTensor DFloat64 [2; 0] [])) /\
  Masksembles1D_init tiny_generator 4 2 (2 # 1) true false
  = ret (mkMasksembles 4 2 (2 # 1) None (tensor_of_rows DFloat64 [[1]]%Z)) /\
  Masksembles1DDynamicSize_init tiny_generator rounded_pow 4 2 (2 # 1) true
  = ret (mkMasksembles 4 2 (2 # 1) (Some 6%Z) (tensor_of_rows DFloat64 [[1]]%Z)).
Proof. repeat split. Qed.

(** C6, amended.  Construction checks nothing itself.  Without generation a
    fixed-size layer fails exactly when [n] or [channels] is negative, with
    the [ValueError] of [np.zeros], and otherwise holds the [n x channels]
    zero matrix, empty when [n = 0] or [channels = 0].  With generation (and
    no nesting) the matrix the generator returns is stored as it is, whatever
    its shape, by the fixed-size and the dynamic-size constructors. *)
Theorem construction_performs_no_validation :
  forall (V : Type) (SV : Scalar V)
         (common_generation_wrapper common_generate_masks : Z -> Z -> Q -> result (tensor V))
         (libm_pow : Q -> Z -> option Q)
         (channels n : Z) (scale : Q) (nested : bool),
    ((0 <= n)%Z -> (0 <= channels)%Z ->
       Masksembles1D_init common_generation_wrapper channels n scale false nested
       = ret (mkMasksembles channels n scale None
                (full_matrix zero (Z.to_nat n) (Z.to_nat channels))) /\
       Masksembles2D_init common_generation_wrapper channels n scale false nested
       = ret (mkMasksembles channels n scale None
                (full_matrix zero (Z.to_nat n) (Z.to_nat channels)))) /\
    ((n < 0)%Z \/ (channels < 0)%Z ->
       Masksembles1D_init common_generation_wrapper channels n scale false nested
       = raise ValueError /\
       Masksembles2D_init common_generation_wrapper channels n scale false nested
       = raise ValueError) /\
    (forall raw : tensor V,
       common_generation_wrapper channels n scale = ret raw ->
       Masksembles2D_init common_generation_wrapper channels n scale true false
       = ret (mkMasksembles channels n scale None (double raw)) /\
       (Qeq_bool scale 1 = false ->
        Masksembles1D_init common_generation_wrapper channels n scale true false
        = ret (mkMasksembles channels n scale None (double raw)))) /\
    (forall (raw : tensor V) (size : Z),
       compute_expected_size libm_pow channels n scale = ret size ->
       common_generate_masks channels n scale = ret raw ->
       Masksembles1DDynamicSize_init common_generate_masks libm_pow channels n scale true
       = ret (mkMasksembles channels n scale (Some size) (double raw)) /\
       Masksembles2DDynamicSize_init common_generate_masks libm_pow channels n scale true
       = ret (mkMasksembles channels n scale (Some size) (double raw))).
Proof.
  intros V SV gen gen2 libm_pow channels n scale nested.
  split; [|split; [|split]].
  - intros Hn Hc. apply fixed_init_without_generation; assumption.
  - intros H. apply fixed_init_negative; assumption.
  - intros raw Hraw. split.
    + unfold Masksembles2D_init. rewrite Hraw. reflexivity.
    + intros Hs. unfold Masksembles1D_init. rewrite Hs, Hraw. reflexivity.
  - intros raw size Hsize Hraw.
    unfold Masksembles1DDynamicSize_init, Masksembles2DDynamicSize_init.
    rewrite Hsize, Hraw. split; reflexivity.
Qed.

(** The amended C6 at [n = 0], at [n = -1], and on the generator that returns
    a 1 x 1 matrix. *)
Lemma construction_performs_no_validation_witness :
  (Masksembles1D_init tiny_generator 4 0 (2 # 1) false false
   = ret (mkMasksembles 4 0 (2 # 1) None (full_matrix zero 0 4)) /\
   Masksembles2D_init tiny_generator 4 0 (2 # 1) false false
   = ret (mkMasksembles 4 0 (2 # 1) None (full_matrix zero 0 4))) /\
  (Masksembles1D_init tiny_generator 4 (-1) (2 # 1) false false = raise ValueError /\
   Masksembles2D_init tiny_generator 4 (-1) (2 # 1) false false = raise ValueError) /\
  (Masksembles2D_init tiny_generator 4 2 (2 # 1) true false
   = ret (mkMasksembles 4 2 (2 # 1) None (double (tensor_of_rows DFloat64 [[1]]%Z))) /\
   Masksembles1D_init tiny_generator 4 2 (2 # 1) true false
   = ret (mkMasksembles 4 2 (2 # 1) None (double (tensor_of_rows DFloat64 [[1]]%Z)))) /\
  (Masksembles1DDynamicSize_init tiny_generator rounded_pow 4 2 (2 # 1) true
   = ret (mkMasksembles 4 2 (2 # 1) (Some 6%Z) (double (tensor_of_rows DFloat64 [[1]]%Z))) /\
   Masksembles2DDynamicSize_init tiny_generator rounded_pow 4 2 (2 # 1) true
   = ret (mkMasksembles 4 2 (2 # 1) (Some 6%Z) (double (tensor_of_rows DFloat64 [[1]]%Z)))).
Proof.
  destruct (construction_performs_no_validation Z Z_Scalar tiny_generator tiny_generator
              rounded_pow 4 0 (2 # 1) false) as [Hzero _].
  destruct (construction_performs_no_validation Z Z_Scalar tiny_generator tiny_generator
              rounded_pow              4 (-1) (2 # 1) false) as [_ [Hneg _]].
  destruct (construction_performs_no_validation Z Z_Scalar tiny_generator tiny_generator
              rounded_pow              4 2 (2 # 1) false) as [_ [_ [Hgen Hdyn]]].
  split; [apply Hzero; lia|].
  split; [apply Hneg; left; lia|].
  split.
  - destruct (Hgen (tensor_of_rows DFloat64 [[1]]%Z) eq_refl) as [H2 H1].
    split; [exact H2 | apply H1; reflexivity].
  - apply (Hdyn (tensor_of_rows DFloat64 [[1]]%Z) 6%Z); reflexivity.
Defined.

(** C7.  [Masksembles1D] built with generation at [scale == 1] never calls
    the generator and holds the all-ones [n x channels] matrix, nested or not,
    whatever the generator would do.  [Masksembles2D] has no such bypass: at
    [scale == 1] it calls the generator, fails when the generator fails and
    otherwise holds the generator's matrix. *)
Theorem scale_one_bypass_only_in_1D :
  forall (V : Type) (SV : Scalar V)
         (common_generation_wrapper : Z -> Z -> Q -> result (tensor V))
         (channels n : Z) (scale : Q) (nested : bool),
    (scale == 1)%Q -> (0 <= n)%Z -> (0 <= channels)%Z ->
    Masksembles1D_init common_generation_wrapper channels n scale true nested
    = ret (mkMasksembles channels n scale None
             (full_matrix one (Z.to_nat n) (Z.to_nat channels))) /\
    (forall e : exn,
       common_generation_wrapper channels n scale = raise e ->
       Masksembles2D_init common_generation_wrapper channels n scale true nested = raise e) /\
    (forall raw : tensor V,
       common_generation_wrapper channels n scale = ret raw ->
       Masksembles2D_init common_generation_wrapper channels n scale true false
       = ret (mkMasksembles channels n scale None (double raw))).
Proof.
  intros V SV gen channels n scale nested Hs Hn Hc.
  split; [|split].
  - unfold Masksembles1D_init. apply Qeq_bool_iff in Hs. rewrite Hs.
    unfold np_ones. rewrite np_full_ok, bind_ret by assumption. unfold from_numpy.
    destruct nested.
    + rewrite <- (Z2Nat.id n) at 1 by exact Hn. rewrite nest_ones, bind_ret.
      reflexivity.
    + reflexivity.
  - intros e He. unfold Masksembles2D_init. rewrite He. reflexivity.
  - intros raw Hraw. unfold Masksembles2D_init. rewrite Hraw. reflexivity.
Qed.

(** C7 with a generator that always raises: the 1D layer is built, with ones;
    the 2D layer is not. *)
Lemma scale_one_bypass_only_in_1D_witness :
  Masksembles1D_init failing_generator 3 2 1 true true
  = ret (mkMasksembles 3 2 1 None (full_matrix one 2 3)) /\
  Masksembles2D_init failing_generator 3 2 1 true true = raise RuntimeError.
Proof.
  destruct (scale_one_bypass_only_in_1D Z Z_Scalar failing_generator 3 2 1 true)
    as [H1 [H2 _]]; [reflexivity | lia | lia |].
  split; [exact H1 | apply H2; reflexivity].
Defined.

(** C8.  Construction without generation never calls a generator and holds
    the all-zero matrix of the declared shape: [n x channels] for the
    fixed-size layers, whatever [scale] and [nested] are, and
    [n x expected_size] for the dynamic-size layers (the shape has to be one:
    no dimension negative, the size formula defined). *)
Theorem construction_without_generation_is_zeros :
  forall (V : Type) (SV : Scalar V)
         (common_generation_wrapper common_generate_masks : Z -> Z -> Q -> result (tensor V))
         (libm_pow : Q -> Z -> option Q)
         (channels n : Z) (scale : Q) (nested : bool),
    (0 <= n)%Z -> (0 <= channels)%Z ->
    Masksembles1D_init common_generation_wrapper channels n scale false nested
    = ret (mkMasksembles channels n scale None
             (full_matrix zero (Z.to_nat n) (Z.to_nat channels))) /\
    Masksembles2D_init common_generation_wrapper channels n scale false nested
    = ret (mkMasksembles channels n scale None
             (full_matrix zero (Z.to_nat n) (Z.to_nat channels))) /\
    (forall size : Z,
       compute_expected_size libm_pow channels n scale = ret size -> (0 <= size)%Z ->
       Masksembles1DDynamicSize_init common_generate_masks libm_pow channels n scale false
       = ret (mkMasksembles channels n scale (Some size)
                (full_matrix zero (Z.to_nat n) (Z.to_nat size))) /\
       Masksembles2DDynamicSize_init common_generate_masks libm_pow channels n scale false
       = ret (mkMasksembles channels n scale (Some size)
                (full_matrix zero (Z.to_nat n) (Z.to_nat size)))).
Proof.
  intros V SV gen gen2 libm_pow channels n scale nested Hn Hc.
  destruct (fixed_init_without_generation V gen channels n scale nested Hn Hc) as [H1 H2].
  split; [exact H1 | split; [exact H2|]].
  intros size Hsize Hs. apply dynamic_init_without_generation; assumption.
Qed.

(** C8 with generators that always raise, at [n = 2], [channels = 3],
    [scale = 2]: the dynamic size is [int(3 * 2 * (1 - (1/2) ** 2)) = 4]. *)
Lemma construction_without_generation_is_zeros_witness :
  Masksembles1D_init failing_generator 3 2 (2 # 1) false true
  = ret (mkMasksembles 3 2 (2 # 1) None (full_matrix zero 2 3)) /\
  Masksembles2D_init failing_generator 3 2 (2 # 1) false true
  = ret (mkMasksembles 3 2 (2 # 1) None (full_matrix zero 2 3)) /\
  Masksembles1DDynamicSize_init failing_generator rounded_pow 3 2 (2 # 1) false
  = ret (mkMasksembles 3 2 (2 # 1) (Some 4%Z) (full_matrix zero 2 4)) /\
  Masksembles2DDynamicSize_init failing_generator rounded_pow 3 2 (2 # 1) false
  = ret (mkMasksembles 3 2 (2 # 1) (Some 4%Z) (full_matrix zero 2 4)).
Proof.
  destruct (construction_without_generation_is_zeros Z Z_Scalar
              failing_generator failing_generator rounded_pow 3 2 (2 # 1) true)
    as [H1 [H2 H3]]; [lia | lia |].
  split; [exact H1 | split; [exact H2|]].
  apply (H3 4%Z); [reflexivity | lia].
Defined.

Section DynamicSize.

Variable V : Type.
Context {SV : Scalar V}.

Variable common_generate_masks : Z -> Z -> Q -> result (tensor V).
Variable libm_pow : Q -> Z -> option Q.

Lemma dynamic_init_scale_one (channels n : Z) (scale : Q) :
  (scale == 1)%Q -> (1 <= n)%Z -> (0 <= channels)%Z ->
  Masksembles1DDynamicSize_init common_generate_masks libm_pow channels n scale false
  = ret (mkMasksembles channels n scale (Some channels)
           (full_matrix zero (Z.to_nat n) (Z.to_nat channels))) /\
  Masksembles2DDynamicSize_init common_generate_masks libm_pow channels n scale false
  = ret (mkMasksembles channels n scale (Some channels)
           (full_matrix zero (Z.to_nat n) (Z.to_nat channels))).
Proof.
  intros Hs Hn Hc. apply dynamic_init_without_generation; try lia.
  apply expected_size_scale_one; assumption.
Qed.

End DynamicSize.

(** C9, as the claim has it, fails: the dynamic-size constructors accept
    [scale = 1] and [scale = 1/2], and the size is not the floor of the
    formula: with 16 channels, one mask and [scale = 3.0] the formula is worth
    16, and the constructor, computing in binary64, stores 15. *)
Lemma dynamic_scale_unguarded_counterexample :
  Masksembles1DDynamicSize_init failing_generator rounded_pow 4 2 1 false
  = ret (mkMasksembles 4 2 1 (Some 4%Z) (full_matrix zero 2 4)) /\
  Masksembles2DDynamicSize_init failing_generator rounded_pow 4 2 1 false
  = ret (mkMasksembles 4 2 1 (Some 4%Z) (full_matrix zero 2 4)) /\
  Masksembles1DDynamicSize_init failing_generator rounded_pow 1 3 (1 # 2) false
  = ret (mkMasksembles 1 3 (1 # 2) (Some 1%Z) (full_matrix zero 3 1)) /\
  floor_of_formula 16 1 (3 # 1) = 16%Z /\
  Masksembles1DDynamicSize_init failing_generator rounded_pow 16 1 (3 # 1) false
  = ret (mkMasksembles 16 1 (3 # 1) (Some 15%Z) (full_matrix zero 1 15)).
Proof. repeat split. Qed.

(** C9, amended.  A dynamic-size constructor computes
    [size = int(channels * scale * (1 - (1 - 1/scale) ** n))] in float
    arithmetic (the truncation of the rounded value, not always the floor of
    the exact one: 15, not 16, for 16 channels, one mask and [scale = 3.0])
    and places no guard on [scale]: whenever the formula has a value that is
    not negative the layer is built with that size, [scale == 1] with
    [n >= 1] is accepted with [size = channels], and [scale == 0] fails with
    the [ZeroDivisionError] of [1 / scale]. *)
Theorem dynamic_size_formula_unguarded :
  (forall (V : Type) (SV : Scalar V)
          (common_generate_masks : Z -> Z -> Q -> result (tensor V))
          (libm_pow : Q -> Z -> option Q)
          (channels n : Z) (scale : Q) (generate_masks : bool),
      (forall size : Z,
         compute_expected_size libm_pow channels n scale = ret size ->
         (0 <= n)%Z -> (0 <= size)%Z ->
         Masksembles1DDynamicSize_init common_generate_masks libm_pow channels n scale false
         = ret (mkMasksembles channels n scale (Some size)
                  (full_matrix zero (Z.to_nat n) (Z.to_nat size))) /\
         Masksembles2DDynamicSize_init common_generate_masks libm_pow channels n scale false
         = ret (mkMasksembles channels n scale (Some size)
                  (full_matrix zero (Z.to_nat n) (Z.to_nat size)))) /\
      ((scale == 1)%Q -> (1 <= n)%Z -> (0 <= channels)%Z ->
         Masksembles1DDynamicSize_init common_generate_masks libm_pow channels n scale false
         = ret (mkMasksembles channels n scale (Some channels)
                  (full_matrix zero (Z.to_nat n) (Z.to_nat channels))) /\
         Masksembles2DDynamicSize_init common_generate_masks libm_pow channels n scale false
         = ret (mkMasksembles channels n scale (Some channels)
                  (full_matrix zero (Z.to_nat n) (Z.to_nat channels)))) /\
      ((scale == 0)%Q ->
         Masksembles1DDynamicSize_init common_generate_masks libm_pow channels n scale
           generate_masks
         = raise ZeroDivisionError /\
         Masksembles2DDynamicSize_init common_generate_masks libm_pow channels n scale
           generate_masks
         = raise ZeroDivisionError))
  /\ compute_expected_size rounded_pow 16 1 (3 # 1) = ret 15%Z
  /\ floor_of_formula 16 1 (3 # 1) = 16%Z.
Proof.
  split; [|split; vm_compute; reflexivity].
  intros V SV gen2 libm_pow channels n scale generate_masks.
  split; [|split].
  - intros size Hsize Hn Hs. apply dynamic_init_without_generation; assumption.
  - intros Hs Hn Hc. apply dynamic_init_scale_one; assumption.
  - intros Hs. apply dynamic_init_scale_zero. exact Hs.
Qed.

(** The amended C9 at [scale = 3] (size 15 for 16 channels and one mask), at
    [scale = 1] and at [scale = 0]. *)
Lemma dynamic_size_formula_unguarded_witness :
  (Masksembles1DDynamicSize_init failing_generator rounded_pow 16 1 (3 # 1) false
   = ret (mkMasksembles 16 1 (3 # 1) (Some 15%Z) (full_matrix zero 1 15)) /\
   Masksembles2DDynamicSize_init failing_generator rounded_pow 16 1 (3 # 1) false
   = ret (mkMasksembles 16 1 (3 # 1) (Some 15%Z) (full_matrix zero 1 15))) /\
  (Masksembles1DDynamicSize_init failing_generator rounded_pow 3 2 1 false
   = ret (mkMasksembles 3 2 1 (Some 3%Z) (full_matrix zero 2 3)) /\
   Masksembles2DDynamicSize_init failing_generator rounded_pow 3 2 1 false
   = ret (mkMasksembles 3 2 1 (Some 3%Z) (full_matrix zero 2 3))) /\
  (Masksembles1DDynamicSize_init failing_generator rounded_pow 3 2 0 true
   = raise ZeroDivisionError /\
   Masksembles2DDynamicSize_init failing_generator rounded_pow 3 2 0 true
   = raise ZeroDivisionError).
Proof.
  destruct (proj1 dynamic_size_formula_unguarded Z Z_Scalar failing_generator rounded_pow
              16%Z 1%Z (3 # 1)%Q true) as [Hsize _].
  destruct (proj1 dynamic_size_formula_unguarded Z Z_Scalar failing_generator rounded_pow
              3%Z 2%Z 1%Q true) as [_ [Hone _]].
  destruct (proj1 dynamic_size_formula_unguarded Z Z_Scalar failing_generator rounded_pow
              3%Z 2%Z 0%Q true) as [_ [_ Hzero]].
  split; [apply (Hsize 15%Z); [vm_compute; reflexivity | lia | lia]|].
  split; [apply Hone; [reflexivity | lia | lia]|].
  apply Hzero. reflexivity.
Defined.

(** C10.  With [n >= 1], [channels >= 1] and [scale == 1] the size formula
    evaluates to [channels] (since [1 - 1/scale = 0]), not to 0, and a
    dynamic-size layer built without generation holds the [n x channels] zero
    matrix. *)
Theorem dynamic_scale_one_size_is_channels :
  forall (V : Type) (SV : Scalar V)
         (common_generate_masks : Z -> Z -> Q -> result (tensor V))
         (libm_pow : Q -> Z -> option Q)
         (channels n : Z) (scale : Q),
    (scale == 1)%Q -> (1 <= n)%Z -> (1 <= channels)%Z ->
    compute_expected_size libm_pow channels n scale = ret channels /\
    channels <> 0%Z /\
    Masksembles1DDynamicSize_init common_generate_masks libm_pow channels n scale false
    = ret (mkMasksembles channels n scale (Some channels)
             (full_matrix zero (Z.to_nat n) (Z.to_nat channels))) /\
    Masksembles2DDynamicSize_init common_generate_masks libm_pow channels n scale false
    = ret (mkMasksembles channels n scale (Some channels)
             (full_matrix zero (Z.to_nat n) (Z.to_nat channels))).
Proof.
  intros V SV gen2 libm_pow channels n scale Hs Hn Hc.
  split; [apply expected_size_scale_one; assumption|].
  split; [lia|].
  apply dynamic_init_scale_one; [exact Hs | exact Hn | lia].
Qed.

(** C10 at [n = 2], [channels = 4]. *)
Lemma dynamic_scale_one_size_is_channels_witness :
  compute_expected_size rounded_pow 4 2 1 = ret 4%Z /\
  4%Z <> 0%Z /\
  Masksembles1DDynamicSize_init failing_generator rounded_pow 4 2 1 false
  = ret (mkMasksembles 4 2 1 (Some 4%Z) (full_matrix zero 2 4)) /\
  Masksembles2DDynamicSize_init failing_generator rounded_pow 4 2 1 false
  = ret (mkMasksembles 4 2 1 (Some 4%Z) (full_matrix zero 2 4)).
Proof.
  apply (dynamic_scale_one_size_is_channels Z Z_Scalar failing_generator rounded_pow 4 2 1);
    [reflexivity | lia | lia].
Defined.

(** * Further properties of the layers *)

(** ** The two halves of the forward pass *)

Section Regroup.

Variable V : Type.
Context {SV : Scalar V}.

Lemma shape_of_narrow0 (t : tensor V) (d0 : nat) (rest : list nat) (start len : nat) :
  shape t = d0 :: rest -> shape (narrow t 0 start len) = len :: rest.
Proof. intros H. unfold narrow. simpl. rewrite H. reflexivity. Qed.

(** The first half of [forward], up to the first [cat], on a batch of
    [nn * g] rows: it delivers the tensor that holds row [b * g + a] of the
    batch at position [(a, b)]. *)
Lemma regroup_divisible (inputs : tensor V) (nn g : nat) (rest : list nat) :
  shape inputs = nn * g :: rest -> 0 < nn ->
  exists x3 : tensor V,
    (forall K : tensor V -> result (tensor V),
        (batch <- shape_at inputs 0 ;;
         u <- unsqueeze inputs 1 ;;
         g' <- floordiv (Z.of_nat batch) (Z.of_nat nn) ;;
         x <- split u g' 0 ;;
         x <- cat x 1 ;;
         K x) = K x3) /\
    dtype_of x3 = dtype_of inputs /\
    shape x3 = g :: (if g =? 0 then 1 else nn) :: rest /\
    forall a b tl, a < g -> b < nn -> in_bounds rest tl ->
      get x3 (a :: b :: tl) = get inputs (a + b * g :: tl).
Proof.
  intros Hx Hnn.
  set (u := mkTensor (dtype_of inputs) (nn * g :: 1 :: rest) (data inputs)).
  assert (Hpre : forall K : tensor V -> result (tensor V),
            (batch <- shape_at inputs 0 ;;
             u <- unsqueeze inputs 1 ;;
             g' <- floordiv (Z.of_nat batch) (Z.of_nat nn) ;;
             x <- split u g' 0 ;;
             x <- cat x 1 ;;
             K x)
            = (x <- split u (Z.of_nat g) 0 ;; x <- cat x 1 ;; K x)).
  { intros K.
    rewrite (shape_at0 _ inputs (nn * g) rest Hx), bind_ret.
    rewrite (unsqueeze1 _ inputs (nn * g) rest Hx), bind_ret.
    rewrite floordiv_exact, bind_ret by exact Hnn. reflexivity. }
  destruct (Nat.eq_dec g 0) as [Hg|Hg].
  - subst g. revert u Hpre. rewrite Nat.mul_0_r in *. intros u Hpre.
    eexists. split; [|split; [|split]].
    + intros K. rewrite Hpre.
      rewrite (split_empty _ u (1 :: rest) eq_refl), bind_ret.
      change [narrow u 0 0 0] with (map (fun _ : nat => narrow u 0 0 0) (seq 0 1)).
      rewrite (cat_uniform _ (fun _ => narrow u 0 0 0) 1 (dtype_of inputs) (0 :: 1 :: rest) 1);
        [ | lia | simpl; lia | reflexivity | reflexivity ].
      rewrite bind_ret. reflexivity.
    + reflexivity.
    + reflexivity.
    + intros a b tl Ha. lia.
  - eexists. split; [|split; [|split]].
    + intros K. rewrite Hpre.
      rewrite (split_even _ u (nn * g) nn g (1 :: rest) eq_refl eq_refl) by lia.
      rewrite bind_ret.
      rewrite (cat_uniform _ (fun i => narrow u 0 (i * g) g) nn (dtype_of inputs) (g :: 1 :: rest) 1);
        [ | lia | simpl; lia | reflexivity | reflexivity ].
      rewrite bind_ret. reflexivity.
    + reflexivity.
    + simpl. destruct (Nat.eqb_spec g 0); [contradiction|].
      rewrite Nat.mul_1_r. reflexivity.
    + intros a b tl Ha Hb Htl. simpl set_at. simpl nth.
      rewrite get_tabulated by (simpl; repeat split; try lia; exact Htl).
      rewrite (cat_get_dim1 _ (fun i => narrow u 0 (i * g) g) 1) by (reflexivity || lia).
      rewrite Nat.div_1_r, Nat.mod_1_r.
      rewrite (get_narrow0 _ u (nn * g) (1 :: rest))
        by (reflexivity || (simpl; repeat split; try lia; exact Htl)).
      unfold u. rewrite get_unsqueeze1. simpl Nat.add.
      unfold get. simpl shape. rewrite Hx. reflexivity.
Qed.

(** The second half of [forward], from the second [split] on, on a tensor of
    [nn] groups of [g] rows: group [q]'s row [r] becomes row [q * g + r], and
    the elements are converted to float32. *)
Lemma ungroup (x5 : tensor V) (nn g : nat) (rest : list nat) :
  shape x5 = nn :: g :: rest -> 0 < nn ->
  (xs <- split x5 1 0 ;;
   x <- cat xs 1 ;;
   x <- squeeze x 0 ;;
   ret (float x))
  = ret (mkTensor DFloat32 (nn * g :: rest)
           (tabulate (nn * g :: rest) (fun idx =>
              convert (dtype_of x5) DFloat32
                (get x5 (nth 0 idx 0 / g :: nth 0 idx 0 mod g :: tl idx))))).
Proof.
  intros Hx Hnn.
  rewrite (split_even _ x5 nn nn 1 (g :: rest) Hx) by lia. rewrite bind_ret.
  rewrite (cat_uniform _ (fun i => narrow x5 0 (i * 1) 1) nn (dtype_of x5) (1 :: g :: rest) 1);
    [ | lia | simpl; lia | intros i; apply (shape_of_narrow0 x5 nn (g :: rest)); exact Hx
      | reflexivity ].
  rewrite bind_ret. simpl set_at. simpl nth.
  rewrite squeeze0_unit, bind_ret.
  unfold float. rewrite tabulate_unit_dim, to_dtype_tabulated.
  f_equal. f_equal. apply tabulate_ext.
  intros [|j tl] Hb; simpl in Hb; [tauto|]. destruct Hb as [Hj Htl].
  assert (Hg : g <> 0) by (intros ->; lia).
  assert (Hq : j / g < nn) by (apply Nat.Div0.div_lt_upper_bound; lia).
  assert (Hr : j mod g < g) by (apply Nat.mod_upper_bound; exact Hg).
  rewrite (cat_get_dim1 _ (fun i => narrow x5 0 (i * 1) 1) g);
    [ | intros i; unfold dim_size; rewrite (shape_of_narrow0 x5 nn (g :: rest) _ _ Hx); reflexivity
      | lia | exact Hj ].
  rewrite (get_narrow0 _ x5 nn (g :: rest)) by (exact Hx || (simpl; repeat split; try lia; exact Htl)).
  replace (0 + (0 + j / g) * 1) with (j / g) by lia. reflexivity.
Qed.

End Regroup.

(** ** Channel widths that differ *)

Section Widths.

Variable V : Type.
Context {SV : Scalar V}.

Lemma broadcast_dim_some (a b c : nat) :
  broadcast_dim a b = Some c ->
  (a = b /\ c = a) \/ (a = 1 /\ c = b) \/ (b = 1 /\ c = a).
Proof.
  unfold broadcast_dim.
  destruct (Nat.eqb_spec a b); [intros [= <-]; left; split; congruence|].
  destruct (Nat.eqb_spec a 1); [intros [= <-]; right; left; split; congruence|].
  destruct (Nat.eqb_spec b 1); [intros [= <-]; right; right; split; congruence|].
  discriminate.
Qed.

Lemma group_count_broadcast (g nn : nat) :
  broadcast_dim (if g =? 0 then 1 else nn) nn = Some nn.
Proof.
  destruct (g =? 0); [apply broadcast_dim_1_l | apply broadcast_dim_same].
Qed.

(** [forward] of the 1D layers when the width [C] of the batch and the width
    [Cm] of the masks broadcast to [Co]. *)
Lemma forward1D_broadcast (self : Masksembles V) (inputs : tensor V) (nn g C Cm Co : nat) :
  n self = Z.of_nat nn -> 0 < nn ->
  shape (masks self) = [nn; Cm] ->
  shape inputs = [nn * g; C] ->
  broadcast_dim C Cm = Some Co ->
  exists out,
    Masksembles1D_forward self inputs = ret out /\
    shape out = [nn * g; Co] /\
    dtype_of out = DFloat32 /\
    forall j c, j < nn * g -> c < Co ->
      get out [j; c]
      = masked (dtype_of inputs) (dtype_of (masks self))
          (get inputs [j; if C =? 1 then 0 else c])
          (get (masks self) [j / g; if Cm =? 1 then 0 else c]).
Proof.
  intros Hn Hnn Hm Hx Hbc.
  destruct (regroup_divisible V inputs nn g [C] Hx Hnn) as [x3 [Hrun [Hd3 [Hs3 Hg3]]]].
  unfold Masksembles1D_forward. rewrite Hn, Hrun.
  rewrite (permute_102 _ x3 _ _ _ Hs3), bind_ret.
  set (k := if g =? 0 then 1 else nn) in *.
  set (x4 := mkTensor (dtype_of x3) [k; g; C] _).
  rewrite (unsqueeze1 _ (masks self) nn [Cm] Hm), bind_ret.
  set (m := mkTensor (dtype_of (masks self)) [nn; 1; Cm] _).
  unfold tensor_mul.
  assert (Hb : broadcast_shapes (shape x4) (shape m) = Some [nn; g; Co]).
  { unfold broadcast_shapes. simpl. unfold k.
    now rewrite Hbc, broadcast_dim_1_r, group_count_broadcast. }
  rewrite Hb, bind_ret.
  set (p := promote_types (dtype_of x4) (dtype_of m)).
  set (x5 := mkTensor p [nn; g; Co] _).
  rewrite (ungroup V x5 nn g [Co] eq_refl Hnn).
  eexists. split; [reflexivity|]. split; [reflexivity|]. split; [reflexivity|].
  intros j c Hj Hc.
  rewrite get_tabulated by (simpl; lia). simpl nth. simpl tl.
  assert (Hg : g <> 0) by (intros ->; lia).
  assert (Hq : j / g < nn) by (apply Nat.Div0.div_lt_upper_bound; lia).
  assert (Hr : j mod g < g) by (apply Nat.mod_upper_bound; exact Hg).
  assert (Hjqr : j mod g + j / g * g = j) by (pose proof (Nat.div_mod_eq j g); lia).
  assert (Hk : k = nn) by (unfold k; destruct (Nat.eqb_spec g 0); [contradiction | reflexivity]).
  assert (HcC : (if C =? 1 then 0 else c) < C).
  { destruct (broadcast_dim_some _ _ _ Hbc) as [[H1 H2]|[[H1 H2]|[H1 H2]]];
      destruct (Nat.eqb_spec C 1); lia. }
  change (dtype_of x5) with p.
  unfold x5 at 1. rewrite get_tabulated by (simpl; lia).
  rewrite !get_to_dtype.
  unfold broadcast_index. simpl shape. simpl skipn. simpl zip_with.
  rewrite (unit_or_index k) by lia. rewrite (unit_or_index nn) by lia.
  rewrite (unit_or_index g) by lia.
  unfold x4 at 2. rewrite get_tabulated by (simpl; lia). simpl nth.
  rewrite Hg3 by (try lia; simpl; lia). rewrite Hjqr.
  unfold m. rewrite get_unsqueeze1.
  unfold masked, p. simpl dtype_of. rewrite Hd3.
  unfold get. simpl shape. simpl data. rewrite Hm. reflexivity.
Qed.

(** Widths that do not broadcast. *)
Lemma forward_width_mismatch (self : Masksembles V) (nn g C Cm : nat) :
  n self = Z.of_nat nn -> 0 < nn ->
  shape (masks self) = [nn; Cm] ->
  broadcast_dim C Cm = None ->
  (forall inputs : tensor V,
      shape inputs = [nn * g; C] ->
      Masksembles1D_forward self inputs = raise RuntimeError) /\
  (forall (inputs : tensor V) (H W : nat),
      shape inputs = [nn * g; C; H; W] ->
      Masksembles2D_forward self inputs = raise RuntimeError).
Proof.
  intros Hn Hnn Hm Hbc. split.
  - intros inputs Hx.
    destruct (regroup_divisible V inputs nn g [C] Hx Hnn) as [x3 [Hrun [Hd3 [Hs3 Hg3]]]].
    unfold Masksembles1D_forward. rewrite Hn, Hrun.
    rewrite (permute_102 _ x3 _ _ _ Hs3), bind_ret.
    rewrite (unsqueeze1 _ (masks self) nn [Cm] Hm), bind_ret.
    unfold tensor_mul, broadcast_shapes. simpl. rewrite Hbc. reflexivity.
  - intros inputs H W Hx.
    destruct (regroup_divisible V inputs nn g [C; H; W] Hx Hnn) as [x3 [Hrun [Hd3 [Hs3 Hg3]]]].
    unfold Masksembles2D_forward. rewrite Hn, Hrun.
    rewrite (permute_10234 _ x3 _ _ _ _ _ Hs3), bind_ret.
    rewrite (unsqueeze1 _ (masks self) nn [Cm] Hm), bind_ret.
    rewrite unsqueeze_last, bind_ret, unsqueeze_last, bind_ret.
    unfold tensor_mul, broadcast_shapes. simpl.
    rewrite !broadcast_dim_1_r, Hbc. reflexivity.
Qed.

End Widths.

(** ** Inputs of the wrong rank, layers without a mask *)

Section Ranks.

Variable V : Type.
Context {SV : Scalar V}.

Lemma permute_wrong_rank (x : tensor V) (perm : list nat) :
  length perm <> rank x -> permute x perm = raise RuntimeError.
Proof.
  intros H. unfold permute, is_permutation.
  destruct (Nat.eqb_spec (length perm) (rank x)); [contradiction | reflexivity].
Qed.

Lemma shape_error_runtime (nn : nat) : nn <> 0 -> shape_error nn RuntimeError.
Proof.
  intros H. unfold shape_error. destruct (Nat.eqb_spec nn 0); [contradiction | reflexivity].
Qed.

(** Whatever the batch size, the first half of [forward] raises or hands a
    tensor with two leading dimensions to the rest of the method. *)
Lemma regroup_any (inputs : tensor V) (N nn : nat) (rest : list nat)
    (K : tensor V -> result (tensor V)) :
  shape inputs = N :: rest ->
  (forall x3 g k, shape x3 = g :: k :: rest -> nn <> 0 ->
                  raises (shape_error nn) (K x3)) ->
  raises (shape_error nn)
         (batch <- shape_at inputs 0 ;;
          u <- unsqueeze inputs 1 ;;
          g <- floordiv (Z.of_nat batch) (Z.of_nat nn) ;;
          x <- split u g 0 ;;
          x <- cat x 1 ;;
          K x).
Proof.
  intros Hx HK.
  destruct (Nat.eq_dec nn 0) as [->|Hnn].
  { rewrite (shape_at0 _ inputs N rest Hx), bind_ret.
    rewrite (unsqueeze1 _ inputs N rest Hx), bind_ret.
    apply raises_bind, raises_raise. reflexivity. }
  destruct (Nat.eq_dec (N mod nn) 0) as [Hdiv|Hdiv].
  - pose proof (divisible_groups N nn Hdiv) as HN. rewrite HN in Hx.
    destruct (regroup_divisible V inputs nn (N / nn) rest Hx) as [x3 [Hrun [_ [Hs3 _]]]];
      [lia|].
    rewrite Hrun. apply (HK x3 _ _ Hs3 Hnn).
  - apply (regroup_not_divisible V inputs N nn rest); [exact Hx | exact Hdiv |].
    intros x3 g k Hs3 _ _ _ _. apply (HK x3 g k Hs3 Hnn).
Qed.

Lemma forward_rank_mismatch (self : Masksembles V) (inputs : tensor V)
    (nn N : nat) (rest : list nat) :
  n self = Z.of_nat nn ->
  shape inputs = N :: rest ->
  (length rest <> 1 -> raises (shape_error nn) (Masksembles1D_forward self inputs)) /\
  (length rest <> 3 -> raises (shape_error nn) (Masksembles2D_forward self inputs)).
Proof.
  intros Hn Hx. split; intros Hlen.
  - unfold Masksembles1D_forward. rewrite Hn.
    apply (regroup_any inputs N nn rest); [exact Hx|].
    intros x3 g k Hs3 Hnn. apply raises_bind.
    rewrite permute_wrong_rank by (unfold rank; rewrite Hs3; simpl; lia).
    apply raises_raise, shape_error_runtime, Hnn.
  - unfold Masksembles2D_forward. rewrite Hn.
    apply (regroup_any inputs N nn rest); [exact Hx|].
    intros x3 g k Hs3 Hnn. apply raises_bind.
    rewrite permute_wrong_rank by (unfold rank; rewrite Hs3; simpl; lia).
    apply raises_raise, shape_error_runtime, Hnn.
Qed.

Lemma forward_without_masks (self : Masksembles V) (inputs : tensor V)
    (N : nat) (rest : list nat) :
  n self = 0%Z ->
  shape inputs = N :: rest ->
  Masksembles1D_forward self inputs = raise ZeroDivisionError /\
  Masksembles2D_forward self inputs = raise ZeroDivisionError.
Proof.
  intros Hn Hx. unfold Masksembles1D_forward, Masksembles2D_forward.
  rewrite (shape_at0 _ inputs N rest Hx), !bind_ret.
  rewrite (unsqueeze1 _ inputs N rest Hx), !bind_ret.
  rewrite Hn. split; reflexivity.
Qed.

End Ranks.

(** ** More on construction *)

Section MoreConstruction.

Variable V : Type.
Context {SV : Scalar V}.

Lemma promote_with_double (d : dtype) : promote_types d DFloat64 = DFloat64.
Proof. destruct d; reflexivity. Qed.

Lemma dtype_after_to_dtype (d : dtype) (t : tensor V) : dtype_of (to_dtype d t) = d.
Proof.
  unfold to_dtype. destruct (dtype_eqb (dtype_of t) d) eqn:E; [|reflexivity].
  apply dtype_eqb_eq. exact E.
Qed.

Lemma for_each_app (l1 l2 : list Z) (body : Z -> tensor V -> result (tensor V))
    (st : tensor V) :
  for_each (l1 ++ l2) body st = (st' <- for_each l1 body st ;; for_each l2 body st').
Proof.
  revert st. induction l1 as [|i l1 IH]; intros st; simpl; [reflexivity|].
  destruct (body i st) as [e|st1]; simpl; [reflexivity | apply IH].
Qed.

(** The loop does nothing when there is at most one mask. *)
Lemma nest_at_most_one (n : Z) (raw : tensor V) :
  (n <= 1)%Z -> nest n raw = ret raw.
Proof.
  intros H. unfold nest, range.
  replace (Z.to_nat (n - 1)) with 0 by lia. reflexivity.
Qed.

(** The loop runs out of rows when the matrix has fewer than [n]. *)
Lemma nest_short_matrix (raw : tensor V) (m C nn : nat) :
  shape raw = [m; C] -> m < nn -> 2 <= nn ->
  nest (Z.of_nat nn) raw = raise IndexError.
Proof.
  intros Hsh Hm Hnn. unfold nest, range.
  replace (Z.to_nat (Z.of_nat nn - 1)) with ((m - 1) + (nn - 1 - (m - 1))) by lia.
  rewrite seq_app, map_app, for_each_app. simpl Nat.add.
  assert (Hfirst : exists M,
            for_each (map (fun k => (1 + Z.of_nat k)%Z) (seq 0 (m - 1)))
              (@nest_body V SV) raw = ret M /\ shape M = [m; C]).
  { destruct m as [|m'].
    - exists raw. split; [reflexivity | exact Hsh].
    - destruct (nest_loop V raw (S m') C (S m' - 1) 0 raw
                  (nest_invariant_init V raw (S m') C Hsh))
        as [M [Hrun [_ [HshM _]]]]; [lia|].
      exists M. split; [exact Hrun | exact HshM]. }
  destruct Hfirst as [M [Hrun HshM]]. rewrite Hrun, bind_ret.
  destruct (nn - 1 - (m - 1)) as [|len] eqn:Hlen; [lia|].
  cbn [seq map for_each].
  unfold nest_body at 1. unfold getitem at 1. rewrite HshM.
  unfold normalize_index.
  assert (Hr : ((- Z.of_nat m <=? 1 + Z.of_nat (m - 1))
                && (1 + Z.of_nat (m - 1) <? Z.of_nat m))%Z = false).
  { apply andb_false_iff. right. apply Z.ltb_ge. lia. }
  rewrite Hr. reflexivity.
Qed.

Lemma nonzero_nested_value (raw : tensor V) (k c : nat) :
  nonzero (nested_value raw k c) = active_up_to raw k c.
Proof.
  unfold active_up_to. induction k as [|k IH].
  - simpl. now rewrite orb_false_r.
  - rewrite seq_S, existsb_app, <- IH. simpl.
    destruct (nonzero (get raw [S k; c])), (nonzero (nested_value raw k c)); simpl;
      (apply nonzero_one || apply nonzero_zero).
Qed.

Lemma nested_masks_union (raw : tensor V) (nn C : nat) (channels n : Z) (scale : Q) :
  n = Z.of_nat nn -> shape raw = [nn; C] ->
  exists layer,
    (masks <- nest n raw ;;
     ret (mkMasksembles channels n scale None (double masks))) = ret layer /\
    forall k c, k < nn -> c < C ->
      nonzero (get (masks layer) [k; c]) = active_up_to raw k c.
Proof.
  intros -> Hsh.
  destruct (nest_correct V raw nn C Hsh) as [M [Hrun [Hd [HshM Hget]]]].
  rewrite Hrun, bind_ret. eexists. split; [reflexivity|].
  intros k c Hk Hc. simpl masks. unfold double.
  rewrite get_to_dtype, nonzero_convert_double, Hget by assumption.
  apply nonzero_nested_value.
Qed.

(** Every constructor passes its matrix through [.double()]. *)
Lemma init_masks_float64 (gen gen2 : Z -> Z -> Q -> result (tensor V))
    (libm_pow : Q -> Z -> option Q) (channels n : Z) (scale : Q) (generate nested : bool) (layer : Masksembles V) :
  Masksembles1D_init gen channels n scale generate nested = ret layer \/
  Masksembles2D_init gen channels n scale generate nested = ret layer \/
  Masksembles1DDynamicSize_init gen2 libm_pow channels n scale generate = ret layer \/
  Masksembles2DDynamicSize_init gen2 libm_pow channels n scale generate = ret layer ->
  dtype_of (masks layer) = DFloat64.
Proof.
  unfold Masksembles1D_init, Masksembles2D_init,
    Masksembles1DDynamicSize_init, Masksembles2DDynamicSize_init, from_numpy.
  intros [H|[H|[H|H]]]; revert H;
    repeat match goal with
    | |- context [bind ?m _] => destruct m; simpl
    | |- context [if ?b then _ else _] => destruct b; simpl
    end;
    intros H; try discriminate; injection H as <-; apply dtype_after_to_dtype.
Qed.

Lemma init1D_scale_one (gen : Z -> Z -> Q -> result (tensor V))
    (channels n : Z) (scale : Q) (nested : bool) :
  (scale == 1)%Q -> (0 <= n)%Z -> (0 <= channels)%Z ->
  Masksembles1D_init gen channels n scale true nested
  = ret (mkMasksembles channels n scale None
           (full_matrix one (Z.to_nat n) (Z.to_nat channels))).
Proof.
  intros Hs Hn Hc. unfold Masksembles1D_init. apply Qeq_bool_iff in Hs. rewrite Hs.
  unfold np_ones. rewrite np_full_ok, bind_ret by assumption. unfold from_numpy.
  destruct nested; [|reflexivity].
  rewrite <- (Z2Nat.id n) at 1 by exact Hn. rewrite nest_ones, bind_ret. reflexivity.
Qed.

End MoreConstruction.

(** ** Properties of construction followed by application *)

(** X1.  A [Masksembles1D] layer built at [scale == 1] leaves a batch as it
    is, up to the conversions to float64 and then float32: whatever the
    generator and the nesting flag, every element of the result is the input
    element converted.  (Multiplication by one is taken to be exact.) *)
Theorem scale_one_layer_is_identity :
  forall (V : Type) (SV : Scalar V)
         (common_generation_wrapper : Z -> Z -> Q -> result (tensor V))
         (nn cc N : nat) (scale : Q) (nested : bool) (inputs : tensor V),
    (scale == 1)%Q -> 0 < nn ->
    shape inputs = [N; cc] -> N mod nn = 0 ->
    (forall v : V, mul v one = v) ->
    exists layer out,
      Masksembles1D_init common_generation_wrapper (Z.of_nat cc) (Z.of_nat nn)
        scale true nested = ret layer /\
      Masksembles1D_forward layer inputs = ret out /\
      shape out = shape inputs /\
      forall j c, j < N -> c < cc ->
        get out [j; c]
        = convert DFloat64 DFloat32 (convert (dtype_of inputs) DFloat64 (get inputs [j; c])).
Proof.
  intros V SV gen nn cc N scale nested inputs Hs Hnn Hx Hdiv Hone.
  pose proof (divisible_groups N nn Hdiv) as HN.
  set (layer := mkMasksembles (Z.of_nat cc) (Z.of_nat nn) scale None (full_matrix one nn cc)).
  exists layer. exists (spec_apply nn (masks layer) inputs).
  split; [|split; [|split]].
  - rewrite init1D_scale_one by (assumption || lia). rewrite !Nat2Z.id. reflexivity.
  - apply (forward1D_spec V layer inputs nn (N / nn) cc);
      [reflexivity | exact Hnn | reflexivity | rewrite <- HN; exact Hx].
  - reflexivity.
  - intros j c Hj Hc. rewrite get_spec_apply by (rewrite Hx; simpl; lia).
    unfold layer. simpl masks. simpl nth. rewrite get_full_matrix; [ | | exact Hc ].
    + unfold masked. simpl dtype_of. rewrite promote_with_double.
      rewrite (convert_one V DFloat64 DFloat64), Hone. reflexivity.
    + unfold dim_size. rewrite Hx. simpl nth.
      apply Nat.Div0.div_lt_upper_bound. rewrite Nat.mul_comm, <- HN. exact Hj.
Qed.

(** X1 on four rows of ones and a generator that always raises. *)
Lemma scale_one_layer_is_identity_witness :
  exists layer out,
    Masksembles1D_init failing_generator 2 2 1 true true = ret layer /\
    Masksembles1D_forward layer group_inputs = ret out /\
    shape out = shape group_inputs /\
    forall j c, j < 4 -> c < 2 ->
      get out [j; c]
      = convert DFloat64 DFloat32 (convert DFloat32 DFloat64 (get group_inputs [j; c])).
Proof.
  apply (scale_one_layer_is_identity Z Z_Scalar failing_generator 2 2 4 1 true group_inputs);
    [reflexivity | lia | reflexivity | reflexivity | intros v; apply Z.mul_1_r].
Defined.

(** X2.  A fixed-size layer built without generation holds zeros, so until
    its masks are loaded it maps every valid batch, rank 1 or rank 2, to a
    tensor of the same shape in which each element is the product of the
    input element with zero: zero wherever that product is zero, which is at
    every finite input value. *)
Theorem zero_layer_outputs_zeros :
  forall (V : Type) (SV : Scalar V)
         (common_generation_wrapper : Z -> Z -> Q -> result (tensor V))
         (nn cc : nat) (scale : Q) (nested : bool)
         (inputs1 : tensor V) (N1 : nat) (inputs2 : tensor V) (N2 H W : nat),
    0 < nn ->
    shape inputs1 = [N1; cc] -> N1 mod nn = 0 ->
    shape inputs2 = [N2; cc; H; W] -> N2 mod nn = 0 ->
    exists layer out1 out2,
      Masksembles1D_init common_generation_wrapper (Z.of_nat cc) (Z.of_nat nn)
        scale false nested = ret layer /\
      Masksembles2D_init common_generation_wrapper (Z.of_nat cc) (Z.of_nat nn)
        scale false nested = ret layer /\
      Masksembles1D_forward layer inputs1 = ret out1 /\
      shape out1 = shape inputs1 /\
      (forall j c, j < N1 -> c < cc ->
         get out1 [j; c] = masked (dtype_of inputs1) DFloat64 (get inputs1 [j; c]) zero /\
         (mul (convert (dtype_of inputs1) DFloat64 (get inputs1 [j; c])) zero = zero ->
          get out1 [j; c] = zero)) /\
      Masksembles2D_forward layer inputs2 = ret out2 /\
      shape out2 = shape inputs2 /\
      (forall j c h w, j < N2 -> c < cc -> h < H -> w < W ->
         get out2 [j; c; h; w]
         = masked (dtype_of inputs2) DFloat64 (get inputs2 [j; c; h; w]) zero /\
         (mul (convert (dtype_of inputs2) DFloat64 (get inputs2 [j; c; h; w])) zero = zero ->
          get out2 [j; c; h; w] = zero)).
Proof.
  intros V SV gen nn cc scale nested inputs1 N1 inputs2 N2 H W Hnn Hx1 Hd1 Hx2 Hd2.
  pose proof (divisible_groups N1 nn Hd1) as HN1.
  pose proof (divisible_groups N2 nn Hd2) as HN2.
  destruct (fixed_init_without_generation V gen (Z.of_nat cc) (Z.of_nat nn) scale nested)
    as [Hi1 Hi2]; try lia.
  rewrite !Nat2Z.id in Hi1, Hi2.
  set (layer := mkMasksembles (Z.of_nat cc) (Z.of_nat nn) scale None (full_matrix zero nn cc)).
  exists layer. exists (spec_apply nn (masks layer) inputs1).
  exists (spec_apply nn (masks layer) inputs2).
  split; [exact Hi1|]. split; [exact Hi2|].
  split; [|split; [reflexivity|split; [|split; [|split; [reflexivity|]]]]].
  - apply (forward1D_spec V layer inputs1 nn (N1 / nn) cc);
      [reflexivity | exact Hnn | reflexivity | rewrite <- HN1; exact Hx1].
  - intros j c Hj Hc. rewrite get_spec_apply by (rewrite Hx1; simpl; lia).
    unfold layer. simpl masks. simpl nth. rewrite get_full_matrix; [| | exact Hc].
    + split; [reflexivity|]. intros Hzero. apply masked_zero.
      rewrite promote_with_double. exact Hzero.
    + unfold dim_size. rewrite Hx1. simpl nth.
      apply Nat.Div0.div_lt_upper_bound. rewrite Nat.mul_comm, <- HN1. exact Hj.
  - apply (forward2D_spec V layer inputs2 nn (N2 / nn) cc H W);
      [reflexivity | exact Hnn | reflexivity | rewrite <- HN2; exact Hx2].
  - intros j c h w Hj Hc Hh Hw. rewrite get_spec_apply by (rewrite Hx2; simpl; lia).
    unfold layer. simpl masks. simpl nth. rewrite get_full_matrix; [| | exact Hc].
    + split; [reflexivity|]. intros Hzero. apply masked_zero.
      rewrite promote_with_double. exact Hzero.
    + unfold dim_size. rewrite Hx2. simpl nth.
      apply Nat.Div0.div_lt_upper_bound. rewrite Nat.mul_comm, <- HN2. exact Hj.
Qed.

(** X2 on four rows of ones and on two 3 x 3 examples, of integers: every
    element of the result is zero. *)
Lemma zero_layer_outputs_zeros_witness :
  exists layer out1 out2,
    Masksembles1D_init failing_generator 2 2 (2 # 1) false true = ret layer /\
    Masksembles2D_init failing_generator 2 2 (2 # 1) false true = ret layer /\
    Masksembles1D_forward layer group_inputs = ret out1 /\
    shape out1 = shape group_inputs /\
    (forall j c, j < 4 -> c < 2 -> get out1 [j; c] = 0%Z) /\
    Masksembles2D_forward layer spatial_inputs = ret out2 /\
    shape out2 = shape spatial_inputs /\
    (forall j c h w, j < 2 -> c < 2 -> h < 3 -> w < 3 ->
       get out2 [j; c; h; w] = 0%Z).
Proof.
  destruct (zero_layer_outputs_zeros Z Z_Scalar failing_generator 2 2 (2 # 1) true
              group_inputs 4 spatial_inputs 2 3 3)
    as [layer [out1 [out2 [Hi1 [Hi2 [Hf1 [Hs1 [Hz1 [Hf2 [Hs2 Hz2]]]]]]]]]];
    [lia | reflexivity | reflexivity | reflexivity | reflexivity |].
  exists layer, out1, out2. repeat split; try assumption.
  - intros j c Hj Hc. apply (Hz1 j c Hj Hc). apply Z.mul_0_r.
  - intros j c h w Hj Hc Hh Hw. apply (Hz2 j c h w Hj Hc Hh Hw). apply Z.mul_0_r.
Defined.

(** ** Properties of the apply operation on other shapes *)

(** X3.  Masks of width 1 are not rejected: [Masksembles1D.forward] applies
    the single value of mask [j / (N / n)] to every channel of row [j], and
    the result keeps the shape of the batch. *)
Theorem single_column_masks_broadcast :
  forall (V : Type) (SV : Scalar V) (self : Masksembles V) (inputs : tensor V)
         (nn N C : nat),
    n self = Z.of_nat nn -> 0 < nn ->
    shape (masks self) = [nn; 1] ->
    shape inputs = [N; C] ->
    N mod nn = 0 ->
    exists out,
      Masksembles1D_forward self inputs = ret out /\
      shape out = [N; C] /\
      forall j c, j < N -> c < C ->
        get out [j; c]
        = masked (dtype_of inputs) (dtype_of (masks self))
            (get inputs [j; c]) (get (masks self) [j / (N / nn); 0]).
Proof.
  intros V SV self inputs nn N C Hn Hnn Hm Hx Hdiv.
  pose proof (divisible_groups N nn Hdiv) as HN.
  rewrite HN in Hx.
  destruct (forward1D_broadcast V self inputs nn (N / nn) C 1 C Hn Hnn Hm Hx
              (broadcast_dim_1_r C)) as [out [Hrun [Hsh [_ Hget]]]].
  rewrite <- HN in Hsh, Hget.
  exists out. split; [exact Hrun | split; [exact Hsh|]].
  intros j c Hj Hc. rewrite Hget by assumption.
  rewrite (unit_or_index C c) by exact Hc. reflexivity.
Qed.

(** X3 on four rows of two channels and the masks [[2],[3]]. *)
Lemma single_column_masks_broadcast_witness :
  exists out,
    Masksembles1D_forward column_layer group_inputs = ret out /\
    shape out = [4; 2] /\
    forall j c, j < 4 -> c < 2 ->
      get out [j; c]
      = masked DFloat32 DFloat64
          (get group_inputs [j; c]) (get (masks column_layer) [j / (4 / 2); 0]).
Proof.
  apply (single_column_masks_broadcast Z Z_Scalar column_layer group_inputs 2 4 2);
    [reflexivity | lia | reflexivity | reflexivity | reflexivity].
Defined.

(** X4.  A batch with a single channel is not rejected either, and here the
    shape is not preserved: [Masksembles1D.forward] on an [N, 1] batch and
    masks of width [Cm] returns an [N, Cm] tensor, row [j] being mask
    [j / (N / n)] scaled by the one element of input row [j]. *)
Theorem single_channel_input_expands :
  forall (V : Type) (SV : Scalar V) (self : Masksembles V) (inputs : tensor V)
         (nn N Cm : nat),
    n self = Z.of_nat nn -> 0 < nn ->
    shape (masks self) = [nn; Cm] ->
    shape inputs = [N; 1] ->
    N mod nn = 0 ->
    exists out,
      Masksembles1D_forward self inputs = ret out /\
      shape out = [N; Cm] /\
      forall j c, j < N -> c < Cm ->
        get out [j; c]
        = masked (dtype_of inputs) (dtype_of (masks self))
            (get inputs [j; 0]) (get (masks self) [j / (N / nn); c]).
Proof.
  intros V SV self inputs nn N Cm Hn Hnn Hm Hx Hdiv.
  pose proof (divisible_groups N nn Hdiv) as HN.
  rewrite HN in Hx.
  destruct (forward1D_broadcast V self inputs nn (N / nn) 1 Cm Cm Hn Hnn Hm Hx
              (broadcast_dim_1_l Cm)) as [out [Hrun [Hsh [_ Hget]]]].
  rewrite <- HN in Hsh, Hget.
  exists out. split; [exact Hrun | split; [exact Hsh|]].
  intros j c Hj Hc. rewrite Hget by assumption.
  rewrite (unit_or_index Cm c) by exact Hc. reflexivity.
Qed.

(** X4 on four rows of one channel and the masks [[1,0],[0,1]]: the result
    has two columns. *)
Lemma single_channel_input_expands_witness :
  exists out,
    Masksembles1D_forward group_layer single_channel_inputs = ret out /\
    shape out = [4; 2] /\
    forall j c, j < 4 -> c < 2 ->
      get out [j; c]
      = masked DFloat32 DFloat64
          (get single_channel_inputs [j; 0]) (get group_masks [j / (4 / 2); c]).
Proof.
  apply (single_channel_input_expands Z Z_Scalar group_layer single_channel_inputs 2 4 2);
    [reflexivity | lia | reflexivity | reflexivity | reflexivity].
Defined.

(** X5.  When the channel dimension of the batch and the width of the masks
    differ and neither is 1, both forward passes raise torch's
    [RuntimeError], also for a batch size the masks divide. *)
Theorem incompatible_widths_raise :
  forall (V : Type) (SV : Scalar V) (self : Masksembles V) (nn C Cm : nat)
         (inputs1 : tensor V) (N1 : nat) (inputs2 : tensor V) (N2 H W : nat),
    n self = Z.of_nat nn -> 0 < nn ->
    shape (masks self) = [nn; Cm] ->
    C <> Cm -> C <> 1 -> Cm <> 1 ->
    shape inputs1 = [N1; C] -> N1 mod nn = 0 ->
    shape inputs2 = [N2; C; H; W] -> N2 mod nn = 0 ->
    Masksembles1D_forward self inputs1 = raise RuntimeError /\
    Masksembles2D_forward self inputs2 = raise RuntimeError.
Proof.
  intros V SV self nn C Cm inputs1 N1 inputs2 N2 H W Hn Hnn Hm H1 H2 H3 Hx1 Hd1 Hx2 Hd2.
  pose proof (divisible_groups N1 nn Hd1) as HN1.
  pose proof (divisible_groups N2 nn Hd2) as HN2.
  pose proof (broadcast_dim_mismatch C Cm H1 H2 H3) as Hbc.
  split.
  - apply (proj1 (forward_width_mismatch V self nn (N1 / nn) C Cm Hn Hnn Hm Hbc)).
    rewrite <- HN1. exact Hx1.
  - apply (proj2 (forward_width_mismatch V self nn (N2 / nn) C Cm Hn Hnn Hm Hbc) inputs2 H W).
    rewrite <- HN2. exact Hx2.
Qed.

(** X5 on batches of three channels and masks of width 2. *)
Lemma incompatible_widths_raise_witness :
  Masksembles1D_forward group_layer three_channel_inputs = raise RuntimeError /\
  Masksembles2D_forward group_layer (mkTensor DFloat32 [2; 3; 1; 1] [1; 2; 3; 4; 5; 6]%Z)
  = raise RuntimeError.
Proof.
  apply (incompatible_widths_raise Z Z_Scalar group_layer 2 3 2
           three_channel_inputs 2 (mkTensor DFloat32 [2; 3; 1; 1] [1; 2; 3; 4; 5; 6]%Z) 2 1 1);
    [reflexivity | lia | reflexivity | lia | lia | lia
    | reflexivity | reflexivity | reflexivity | reflexivity].
Defined.

(** X6.  The rank of the batch is checked by [permute]: [Masksembles1D.forward]
    raises on every batch that is not a matrix, [Masksembles2D.forward] on
    every batch that does not have four dimensions, whatever the mask matrix
    holds; a 0-dimensional input fails with [IndexError] at [inputs.shape[0]]. *)
Theorem forward_wrong_rank_raises :
  forall (V : Type) (SV : Scalar V) (self : Masksembles V)
         (inputs scalar : tensor V) (nn N : nat) (rest : list nat),
    n self = Z.of_nat nn ->
    shape inputs = N :: rest ->
    shape scalar = [] ->
    (length rest <> 1 -> raises (shape_error nn) (Masksembles1D_forward self inputs)) /\
    (length rest <> 3 -> raises (shape_error nn) (Masksembles2D_forward self inputs)) /\
    Masksembles1D_forward self scalar = raise IndexError /\
    Masksembles2D_forward self scalar = raise IndexError.
Proof.
  intros V SV self inputs scalar nn N rest Hn Hx Hs.
  destruct (forward_rank_mismatch V self inputs nn N rest Hn Hx) as [H1 H2].
  split; [exact H1 | split; [exact H2|]].
  unfold Masksembles1D_forward, Masksembles2D_forward, shape_at. rewrite Hs.
  split; reflexivity.
Qed.

(** X6: the 1D layer on a 3 x 3 spatial batch, the 2D layer on a matrix, and
    both on a 0-dimensional tensor. *)
Lemma forward_wrong_rank_raises_witness :
  raises (shape_error 2) (Masksembles1D_forward group_layer spatial_inputs) /\
  raises (shape_error 2) (Masksembles2D_forward group_layer group_inputs) /\
  Masksembles1D_forward group_layer (mkTensor DFloat32 [] [7%Z]) = raise IndexError /\
  Masksembles2D_forward group_layer (mkTensor DFloat32 [] [7%Z]) = raise IndexError.
Proof.
  destruct (forward_wrong_rank_raises Z Z_Scalar group_layer spatial_inputs
              (mkTensor DFloat32 [] [7%Z]) 2 2 [2; 3; 3] eq_refl eq_refl eq_refl)
    as [H1 [_ [H3 H4]]].
  destruct (forward_wrong_rank_raises Z Z_Scalar group_layer group_inputs
              (mkTensor DFloat32 [] [7%Z]) 2 4 [2] eq_refl eq_refl eq_refl)
    as [_ [H2 _]].
  split; [apply H1; simpl; lia|].
  split; [apply H2; simpl; lia|].
  split; [exact H3 | exact H4].
Defined.

(** ** Further properties of construction *)

(** X7.  A fixed-size layer with [n = 0] can be built (without generation it
    holds an empty matrix), but it cannot be applied: on every batch with at
    least one dimension both forward passes fail with [ZeroDivisionError] at
    [batch // self.n]. *)
Theorem layer_without_masks_never_applies :
  forall (V : Type) (SV : Scalar V)
         (common_generation_wrapper : Z -> Z -> Q -> result (tensor V))
         (channels : Z) (scale : Q) (nested : bool)
         (inputs : tensor V) (N : nat) (rest : list nat),
    (0 <= channels)%Z ->
    shape inputs = N :: rest ->
    exists layer,
      Masksembles1D_init common_generation_wrapper channels 0 scale false nested
      = ret layer /\
      Masksembles2D_init common_generation_wrapper channels 0 scale false nested
      = ret layer /\
      shape (masks layer) = [0; Z.to_nat channels] /\
      Masksembles1D_forward layer inputs = raise ZeroDivisionError /\
      Masksembles2D_forward layer inputs = raise ZeroDivisionError.
Proof.
  intros V SV gen channels scale nested inputs N rest Hc Hx.
  destruct (fixed_init_without_generation V gen channels 0 scale nested) as [H1 H2];
    try lia.
  eexists. split; [exact H1 | split; [exact H2 | split; [reflexivity|]]].
  apply (forward_without_masks V _ inputs N rest); [reflexivity | exact Hx].
Qed.

(** X7 on the empty batch of two channels. *)
Lemma layer_without_masks_never_applies_witness :
  exists layer,
    Masksembles1D_init failing_generator 2 0 (2 # 1) false false = ret layer /\
    Masksembles2D_init failing_generator 2 0 (2 # 1) false false = ret layer /\
    shape (masks layer) = [0; 2] /\
    Masksembles1D_forward layer (mkTensor DFloat32 [0; 2] []) = raise ZeroDivisionError /\
    Masksembles2D_forward layer (mkTensor DFloat32 [0; 2] []) = raise ZeroDivisionError.
Proof.
  apply (layer_without_masks_never_applies Z Z_Scalar failing_generator 2 (2 # 1) false
           (mkTensor DFloat32 [0; 2] []) 0 [2]);
    [lia | reflexivity].
Defined.

(** X8.  Whatever constructor builds a layer, with whatever generator,
    parameters and flags, the stored mask matrix is float64: every branch of
    every [__init__] ends in [.double()]. *)
Theorem constructed_masks_are_float64 :
  forall (V : Type) (SV : Scalar V)
         (common_generation_wrapper common_generate_masks
            : Z -> Z -> Q -> result (tensor V))
         (libm_pow : Q -> Z -> option Q)
         (channels n : Z) (scale : Q) (generate_masks nested_masks : bool)
         (layer : Masksembles V),
    Masksembles1D_init common_generation_wrapper channels n scale
      generate_masks nested_masks = ret layer \/
    Masksembles2D_init common_generation_wrapper channels n scale
      generate_masks nested_masks = ret layer \/
    Masksembles1DDynamicSize_init common_generate_masks libm_pow channels n scale
      generate_masks = ret layer \/
    Masksembles2DDynamicSize_init common_generate_masks libm_pow channels n scale
      generate_masks = ret layer ->
    dtype_of (masks layer) = DFloat64.
Proof.
  intros V SV gen gen2 libm_pow channels n scale generate nested layer H.
  apply (init_masks_float64 V gen gen2 libm_pow channels n scale generate nested layer H).
Qed.

(** X8 on a generator that returns an int64 matrix. *)
Lemma constructed_masks_are_float64_witness :
  Masksembles1D_init (fun _ _ _ => ret (mkTensor DInt64 [2; 3] [1; 0; 1; 0; 1; 1]%Z))
    3 2 (2 # 1) true false
  = ret (mkMasksembles 3 2 (2 # 1) None
           (mkTensor DFloat64 [2; 3] [1; 0; 1; 0; 1; 1]%Z)) /\
  dtype_of (masks (mkMasksembles 3 2 (2 # 1) None
                     (mkTensor DFloat64 [2; 3] [1; 0; 1; 0; 1; 1]%Z))) = DFloat64.
Proof.
  split; [reflexivity|].
  apply (constructed_masks_are_float64 Z Z_Scalar
           (fun _ _ _ => ret (mkTensor DInt64 [2; 3] [1; 0; 1; 0; 1; 1]%Z))
           failing_generator rounded_pow 3 2 (2 # 1) true false).
  left. reflexivity.
Defined.

(** X9.  After construction with generation and nesting, mask [k] is active
    on exactly the channels on which one of the raw masks [0 .. k] is active:
    the nested masks are the running unions of the generated ones. *)
Theorem nested_mask_is_union_of_raw :
  forall (V : Type) (SV : Scalar V)
         (common_generation_wrapper : Z -> Z -> Q -> result (tensor V))
         (channels n : Z) (scale : Q) (raw2 raw1 : tensor V) (nn C2 C1 : nat),
    n = Z.of_nat nn ->
    common_generation_wrapper channels n scale = ret raw2 ->
    shape raw2 = [nn; C2] ->
    (if Qeq_bool scale 1 then np_ones (V:=V) [n; channels]
     else common_generation_wrapper channels n scale) = ret raw1 ->
    shape raw1 = [nn; C1] ->
    (exists layer,
        Masksembles2D_init common_generation_wrapper channels n scale true true
        = ret layer /\
        forall k c, k < nn -> c < C2 ->
          nonzero (get (masks layer) [k; c]) = active_up_to raw2 k c) /\
    (exists layer,
        Masksembles1D_init common_generation_wrapper channels n scale true true
        = ret layer /\
        forall k c, k < nn -> c < C1 ->
          nonzero (get (masks layer) [k; c]) = active_up_to raw1 k c).
Proof.
  intros V SV gen channels n scale raw2 raw1 nn C2 C1 Hn Hg2 Hs2 Hg1 Hs1. split.
  - unfold Masksembles2D_init. rewrite Hg2, bind_ret. unfold from_numpy.
    apply nested_masks_union; assumption.
  - unfold Masksembles1D_init. rewrite Hg1, bind_ret. unfold from_numpy.
    apply nested_masks_union; assumption.
Qed.

(** X9 on the generator that returns the 3 x 3 identity. *)
Lemma nested_mask_is_union_of_raw_witness :
  (exists layer,
      Masksembles2D_init diagonal_generator 3 3 (2 # 1) true true = ret layer /\
      forall k c, k < 3 -> c < 3 ->
        nonzero (get (masks layer) [k; c])
        = active_up_to (tensor_of_rows DFloat64 [[1; 0; 0]; [0; 1; 0]; [0; 0; 1]]%Z) k c) /\
  (exists layer,
      Masksembles1D_init diagonal_generator 3 3 (2 # 1) true true = ret layer /\
      forall k c, k < 3 -> c < 3 ->
        nonzero (get (masks layer) [k; c])
        = active_up_to (tensor_of_rows DFloat64 [[1; 0; 0]; [0; 1; 0]; [0; 0; 1]]%Z) k c).
Proof.
  apply (nested_mask_is_union_of_raw Z Z_Scalar diagonal_generator 3 3 (2 # 1)
           (tensor_of_rows DFloat64 [[1; 0; 0]; [0; 1; 0]; [0; 0; 1]]%Z)
           (tensor_of_rows DFloat64 [[1; 0; 0]; [0; 1; 0]; [0; 0; 1]]%Z) 3 3 3);
    reflexivity.
Defined.

(** X10.  Nesting indexes the generated matrix up to row [n - 1] without a
    check: when the generator returns a matrix with fewer than [n] rows and
    [n >= 2], construction with nesting fails with [IndexError]. *)
Theorem nested_short_matrix_raises :
  forall (V : Type) (SV : Scalar V)
         (common_generation_wrapper : Z -> Z -> Q -> result (tensor V))
         (channels : Z) (scale : Q) (raw : tensor V) (nn m C : nat),
    common_generation_wrapper channels (Z.of_nat nn) scale = ret raw ->
    shape raw = [m; C] ->
    m < nn -> 2 <= nn ->
    Qeq_bool scale 1 = false ->
    Masksembles2D_init common_generation_wrapper channels (Z.of_nat nn) scale true true
    = raise IndexError /\
    Masksembles1D_init common_generation_wrapper channels (Z.of_nat nn) scale true true
    = raise IndexError.
Proof.
  intros V SV gen channels scale raw nn m C Hg Hsh Hm Hnn Hs.
  unfold Masksembles2D_init, Masksembles1D_init, from_numpy.
  rewrite Hs, Hg, !bind_ret.
  rewrite (nest_short_matrix V raw m C nn Hsh Hm Hnn). split; reflexivity.
Qed.

(** X10 on the generator that returns a 1 x 1 matrix, asked for two masks. *)
Lemma nested_short_matrix_raises_witness :
  Masksembles2D_init tiny_generator 4 2 (2 # 1) true true = raise IndexError /\
  Masksembles1D_init tiny_generator 4 2 (2 # 1) true true = raise IndexError.
Proof.
  apply (nested_short_matrix_raises Z Z_Scalar tiny_generator 4 (2 # 1)
           (tensor_of_rows DFloat64 [[1]]%Z) 2 1 1);
    [reflexivity | reflexivity | lia | lia | reflexivity].
Defined.

(** X11.  With at most one mask the nesting flag changes nothing: for
    [n <= 1] the loop [for i in range(1, n)] is empty and the layer built
    with nesting is the layer built without, whatever the generator returns. *)
Theorem nesting_idle_with_one_mask :
  forall (V : Type) (SV : Scalar V)
         (common_generation_wrapper : Z -> Z -> Q -> result (tensor V))
         (channels n : Z) (scale : Q),
    (n <= 1)%Z ->
    Masksembles2D_init common_generation_wrapper channels n scale true true
    = Masksembles2D_init common_generation_wrapper channels n scale true false /\
    Masksembles1D_init common_generation_wrapper channels n scale true true
    = Masksembles1D_init common_generation_wrapper channels n scale true false.
Proof.
  intros V SV gen channels n scale Hn.
  unfold Masksembles2D_init, Masksembles1D_init, from_numpy. split.
  - destruct (gen channels n scale) as [e|raw]; [reflexivity|].
    rewrite !bind_ret, nest_at_most_one by exact Hn. reflexivity.
  - destruct (if Qeq_bool scale 1 then np_ones [n; channels] else gen channels n scale)
      as [e|raw]; [reflexivity|].
    rewrite !bind_ret, nest_at_most_one by exact Hn. reflexivity.
Qed.

(** X11 for one mask and the generator that returns the 3 x 3 identity. *)
Lemma nesting_idle_with_one_mask_witness :
  Masksembles2D_init diagonal_generator 3 1 (2 # 1) true true
  = Masksembles2D_init diagonal_generator 3 1 (2 # 1) true false /\
  Masksembles1D_init diagonal_generator 3 1 (2 # 1) true true
  = Masksembles1D_init diagonal_generator 3 1 (2 # 1) true false.
Proof.
  apply (nesting_idle_with_one_mask Z Z_Scalar diagonal_generator 3 1 (2 # 1)). lia.
Defined.

(** ** The dynamic-size layers *)

(** X12.  A dynamic-size layer built without generation accepts batches whose
    channel dimension is its [expected_size], not its [channels]: on such a
    batch (rank 1 or rank 2, batch size divisible by [n]) the forward pass
    returns a tensor of the same shape, and on a batch of any other width,
    when neither width is 1, it raises [RuntimeError]. *)
Theorem dynamic_layer_expects_expected_size :
  forall (V : Type) (SV : Scalar V)
         (common_generate_masks : Z -> Z -> Q -> result (tensor V))
         (libm_pow : Q -> Z -> option Q)
         (channels size : Z) (nn : nat) (scale : Q)
         (ok1 bad1 ok2 bad2 : tensor V) (N1 N2 N3 N4 C H W : nat),
    compute_expected_size libm_pow channels (Z.of_nat nn) scale = ret size ->
    0 < nn -> (0 <= size)%Z ->
    shape ok1 = [N1; Z.to_nat size] -> N1 mod nn = 0 ->
    shape ok2 = [N2; Z.to_nat size; H; W] -> N2 mod nn = 0 ->
    C <> Z.to_nat size -> C <> 1 -> Z.to_nat size <> 1 ->
    shape bad1 = [N3; C] -> N3 mod nn = 0 ->
    shape bad2 = [N4; C; H; W] -> N4 mod nn = 0 ->
    exists layer,
      Masksembles1DDynamicSize_init common_generate_masks libm_pow channels (Z.of_nat nn)
        scale false
      = ret layer /\
      Masksembles2DDynamicSize_init common_generate_masks libm_pow channels (Z.of_nat nn)
        scale false
      = ret layer /\
      expected_size layer = Some size /\
      (exists out, Masksembles1DDynamicSize_forward layer ok1 = ret out /\
                   shape out = shape ok1) /\
      (exists out, Masksembles2DDynamicSize_forward layer ok2 = ret out /\
                   shape out = shape ok2) /\
      Masksembles1DDynamicSize_forward layer bad1 = raise RuntimeError /\
      Masksembles2DDynamicSize_forward layer bad2 = raise RuntimeError.
Proof.
  intros V SV gen2 libm_pow channels size nn scale ok1 bad1 ok2 bad2 N1 N2 N3 N4 C H W
    Hsize Hnn Hs Hok1 Hd1 Hok2 Hd2 HC HC1 Hs1 Hbad1 Hd3 Hbad2 Hd4.
  destruct (dynamic_init_without_generation V gen2 libm_pow channels (Z.of_nat nn) size scale
              Hsize) as [Hi1 Hi2]; try lia.
  rewrite Nat2Z.id in Hi1, Hi2.
  set (layer := mkMasksembles channels (Z.of_nat nn) scale (Some size)
                  (full_matrix zero nn (Z.to_nat size))) in *.
  exists layer. split; [exact Hi1 | split; [exact Hi2 | split; [reflexivity|]]].
  pose proof (divisible_groups N1 nn Hd1) as HN1.
  pose proof (divisible_groups N2 nn Hd2) as HN2.
  pose proof (divisible_groups N3 nn Hd3) as HN3.
  pose proof (divisible_groups N4 nn Hd4) as HN4.
  pose proof (broadcast_dim_mismatch C (Z.to_nat size) HC HC1 Hs1) as Hbc.
  split; [|split; [|split]].
  - exists (spec_apply nn (masks layer) ok1). split; [|reflexivity].
    rewrite (proj1 (dynamic_forward_same V layer ok1)).
    apply (forward1D_spec V layer ok1 nn (N1 / nn) (Z.to_nat size));
      [reflexivity | exact Hnn | reflexivity | rewrite <- HN1; exact Hok1].
  - exists (spec_apply nn (masks layer) ok2). split; [|reflexivity].
    rewrite (proj2 (dynamic_forward_same V layer ok2)).
    apply (forward2D_spec V layer ok2 nn (N2 / nn) (Z.to_nat size) H W);
      [reflexivity | exact Hnn | reflexivity | rewrite <- HN2; exact Hok2].
  - rewrite (proj1 (dynamic_forward_same V layer bad1)).
    apply (proj1 (forward_width_mismatch V layer nn (N3 / nn) C (Z.to_nat size)
                    eq_refl Hnn eq_refl Hbc)).
    rewrite <- HN3. exact Hbad1.
  - rewrite (proj2 (dynamic_forward_same V layer bad2)).
    apply (proj2 (forward_width_mismatch V layer nn (N4 / nn) C (Z.to_nat size)
                    eq_refl Hnn eq_refl Hbc) bad2 H W).
    rewrite <- HN4. exact Hbad2.
Qed.

(** X12 for [channels = 3], [n = 2], [scale = 2]: the layer takes batches of
    width 4 and refuses batches of width 3. *)
Lemma dynamic_layer_expects_expected_size_witness :
  exists layer,
    Masksembles1DDynamicSize_init failing_generator rounded_pow 3 2 (2 # 1) false
    = ret layer /\
    Masksembles2DDynamicSize_init failing_generator rounded_pow 3 2 (2 # 1) false
    = ret layer /\
    expected_size layer = Some 4%Z /\
    (exists out, Masksembles1DDynamicSize_forward layer four_channel_inputs = ret out /\
                 shape out = shape four_channel_inputs) /\
    (exists out,
        Masksembles2DDynamicSize_forward layer
          (mkTensor DFloat32 [2; 4; 1; 1] [1; 2; 3; 4; 5; 6; 7; 8]%Z) = ret out /\
        shape out = [2; 4; 1; 1]) /\
    Masksembles1DDynamicSize_forward layer three_channel_inputs = raise RuntimeError /\
    Masksembles2DDynamicSize_forward layer
      (mkTensor DFloat32 [2; 3; 1; 1] [1; 2; 3; 4; 5; 6]%Z) = raise RuntimeError.
Proof.
  apply (dynamic_layer_expects_expected_size Z Z_Scalar failing_generator rounded_pow
           3 4 2 (2 # 1)
           four_channel_inputs three_channel_inputs
           (mkTensor DFloat32 [2; 4; 1; 1] [1; 2; 3; 4; 5; 6; 7; 8]%Z)
           (mkTensor DFloat32 [2; 3; 1; 1] [1; 2; 3; 4; 5; 6]%Z)
           2 2 2 2 3 1 1);
    try reflexivity; simpl; lia.
Defined.

Section DegenerateSize.

Variable V : Type.
Context {SV : Scalar V}.

Variable libm_pow : Q -> Z -> option Q.

Lemma expected_size_scale_one_no_mask (channels : Z) (scale : Q) :
  (scale == 1)%Q -> compute_expected_size libm_pow channels 0 scale = ret 0%Z.
Proof.
  intros Hs. unfold compute_expected_size.
  rewrite (width_scale_one channels scale Hs), (truediv_scale_one scale Hs), bind_ret.
  change (py_pow libm_pow (py_sub 1 (Finite 1)) 0) with (ret (Finite 1)).
  rewrite bind_ret. change (py_sub 1 (Finite 1)) with (Finite 0).
  rewrite py_mul_zero_r. reflexivity.
Qed.

Lemma expected_size_scale_one_negative (channels n : Z) (scale : Q) :
  (scale == 1)%Q -> (n < 0)%Z ->
  compute_expected_size libm_pow channels n scale = raise ZeroDivisionError.
Proof.
  intros Hs Hn. unfold compute_expected_size.
  rewrite (truediv_scale_one scale Hs), bind_ret.
  change (py_sub 1 (Finite 1)) with (Finite 0). unfold py_pow.
  destruct (Z.eqb_spec n 0) as [H0|_]; [lia|].
  change (Qeq_bool 0 0) with true. cbv iota.
  destruct (Z.ltb_spec n 0); [reflexivity | lia].
Qed.

End DegenerateSize.

(** X13.  At [scale == 1] the size formula degenerates outside [n >= 1]: with
    [n = 0] it gives [0 ** 0 = 1] and the size 0, so the layer built without
    generation holds the empty [0 x 0] matrix, and with [n < 0] the power
    [0.0 ** n] raises [ZeroDivisionError] before anything is allocated,
    generation or not. *)
Theorem dynamic_scale_one_degenerate_counts :
  forall (V : Type) (SV : Scalar V)
         (common_generate_masks : Z -> Z -> Q -> result (tensor V))
         (libm_pow : Q -> Z -> option Q)
         (channels n : Z) (scale : Q) (generate_masks : bool),
    (scale == 1)%Q ->
    (n = 0%Z ->
       Masksembles1DDynamicSize_init common_generate_masks libm_pow channels n scale false
       = ret (mkMasksembles channels n scale (Some 0%Z) (full_matrix zero 0 0)) /\
       Masksembles2DDynamicSize_init common_generate_masks libm_pow channels n scale false
       = ret (mkMasksembles channels n scale (Some 0%Z) (full_matrix zero 0 0))) /\
    ((n < 0)%Z ->
       Masksembles1DDynamicSize_init common_generate_masks libm_pow channels n scale
         generate_masks
       = raise ZeroDivisionError /\
       Masksembles2DDynamicSize_init common_generate_masks libm_pow channels n scale
         generate_masks
       = raise ZeroDivisionError).
Proof.
  intros V SV gen2 libm_pow channels n scale generate Hs. split.
  - intros ->.
    apply (dynamic_init_without_generation V gen2 libm_pow channels 0 0 scale); try lia.
    apply expected_size_scale_one_no_mask. exact Hs.
  - intros Hn. unfold Masksembles1DDynamicSize_init, Masksembles2DDynamicSize_init.
    rewrite expected_size_scale_one_negative by assumption. split; reflexivity.
Qed.

(** X13 at [n = 0] and [n = -1] for 5 channels. *)
Lemma dynamic_scale_one_degenerate_counts_witness :
  (Masksembles1DDynamicSize_init failing_generator rounded_pow 5 0 1 false
   = ret (mkMasksembles 5 0 1 (Some 0%Z) (full_matrix zero 0 0)) /\
   Masksembles2DDynamicSize_init failing_generator rounded_pow 5 0 1 false
   = ret (mkMasksembles 5 0 1 (Some 0%Z) (full_matrix zero 0 0))) /\
  (Masksembles1DDynamicSize_init failing_generator rounded_pow 5 (-1) 1 true
   = raise ZeroDivisionError /\
   Masksembles2DDynamicSize_init failing_generator rounded_pow 5 (-1) 1 true
   = raise ZeroDivisionError).
Proof.
  destruct (dynamic_scale_one_degenerate_counts Z Z_Scalar failing_generator rounded_pow 5 0 1 true)
    as [H0 _]; [reflexivity|].
  destruct (dynamic_scale_one_degenerate_counts Z Z_Scalar failing_generator rounded_pow
              5 (-1) 1 true)
    as [_ Hneg]; [reflexivity|].
  split; [apply H0; reflexivity | apply Hneg; lia].
Defined.
